(** * orbitdeterminator: the plotting helpers and the [mainf] pipeline script

    A shallow embedding of

      - [orbitdeterminator/doppler/utils/utils_vis.py]
      - [testcases/Alexandros code/final_init.py]

    Python floats are IEEE binary64 numbers ([PrimFloat.float]), Python
    integers are [Z], numpy arrays are nested lists in C order, and a
    function that calls matplotlib, pandas or [print] is a computation
    that records the calls it issues and either returns a value or
    raises. *)

From Stdlib Require Import Ascii String DecimalString ZArith Lia Bool Arith List PrimFloat.
Import ListNotations.

Local Open Scope string_scope.
Local Open Scope list_scope.

(** ** Python: exceptions and computations with recorded calls *)

Module Py.

(** The exceptions the modelled code can raise. [Raised] stands for
    any other exception, named by its class. *)
Inductive exn :=
| TypeError
| IndexError
| ValueError
| InvalidWindow
| Raised (cls : string).

Inductive result (A : Type) :=
| Ok (a : A)
| Raise (e : exn).
Arguments Ok {A} a.
Arguments Raise {A} e.

(** Arguments of a recorded call. *)
Inductive value :=
| VInt (z : Z)
| VNum (f : float)
| VStr (s : string)
| VVec (v : list float)
| VMat (m : list (list float))
| VInts (l : list Z)
| VStrs (l : list string).

(** One call to a library with side effects: [fn] is the callee as
    the source writes it, [args] the positional and [kwargs] the
    keyword arguments. *)
Record call := Call {
  fn : string;
  args : list value;
  kwargs : list (string * value)
}.

(** A computation: the calls completed so far, and the outcome. *)
Definition M (A : Type) : Type := list call * result A.

Definition ret {A} (a : A) : M A := ([], Ok a).

Definition raise {A} (e : exn) : M A := ([], Raise e).

Definition bind {A B} (m : M A) (k : A -> M B) : M B :=
  match m with
  | (t, Raise e) => (t, Raise e)
  | (t, Ok a) => let (t', r) := k a in (t ++ t', r)
  end.

Definition lift {A} (r : result A) : M A := ([], r).

(** A call into a library with side effects (matplotlib, pandas,
    [print]). The computation records the call and goes on: its
    trace is the sequence of calls the code issues, its outcome the
    one it reaches when each of them completes. *)
Definition invoke (c : call) : M unit := ([c], Ok tt).

(** The library may itself raise. [backend c] is [None] when the call
    [c] completes and [Some e] when it raises [e]; [run] plays a
    computation against a backend: the first call that raises ends
    it with that exception. *)
Fixpoint run_calls (backend : call -> option exn) (cs : list call)
  : list call * option exn :=
  match cs with
  | [] => ([], None)
  | c :: cs' =>
      match backend c with
      | Some e => ([], Some e)
      | None => let (t, r) := run_calls backend cs' in (c :: t, r)
      end
  end.

Definition run {A} (backend : call -> option exn) (m : M A) : M A :=
  match run_calls backend (fst m) with
  | (t, Some e) => (t, Raise e)
  | (t, None) => (t, snd m)
  end.

(** The backend under which every call completes. *)
Definition completes : call -> option exn := fun _ => None.

Definition trace {A} (m : M A) : list call := fst m.
Definition outcome {A} (m : M A) : result A := snd m.

(** [for i in range(n): body i] *)
Fixpoint for_each {A} (l : list A) (body : A -> M unit) : M unit :=
  match l with
  | [] => ret tt
  | i :: l' => bind (body i) (fun _ => for_each l' body)
  end.

Definition for_range (n : nat) (body : nat -> M unit) : M unit :=
  for_each (seq 0 n) body.

(** [for i in range(n)] with the loop-carried variables in [S]. *)
Fixpoint fold_each {A S} (l : list A) (body : A -> S -> M S) (s : S) : M S :=
  match l with
  | [] => ret s
  | i :: l' => bind (body i s) (fold_each l' body)
  end.

Definition fold_range {S} (n : nat) (body : nat -> S -> M S) (s : S) : M S :=
  fold_each (seq 0 n) body s.

Definition is_ok {A} (r : result A) : bool :=
  match r with Ok _ => true | Raise _ => false end.

End Py.

Import Py.

Declare Scope py_scope.
Delimit Scope py_scope with py.
Notation "x <- m ;; k" := (bind m (fun x => k))
  (at level 61, m at next level, right associativity) : py_scope.
Notation "m ;; k" := (bind m (fun _ => k))
  (at level 61, right associativity) : py_scope.
Local Open Scope py_scope.

(** ** numpy: arrays of one, two and three dimensions *)

Module Np.

Abbreviation array1 := (list float) (only parsing).
Abbreviation array2 := (list (list float)) (only parsing).
Abbreviation array3 := (list (list (list float))) (only parsing).

(** The float of an integer (exact below [2^53]). *)
Fixpoint float_of_pos (p : positive) : float :=
  match p with
  | xH => 1%float
  | xO q => PrimFloat.mul 2%float (float_of_pos q)
  | xI q => PrimFloat.add (PrimFloat.mul 2%float (float_of_pos q)) 1%float
  end.

Definition float_of_Z (z : Z) : float :=
  match z with
  | Z0 => 0%float
  | Zpos p => float_of_pos p
  | Zneg p => PrimFloat.opp (float_of_pos p)
  end.

(** An array argument whose number of dimensions the callee inspects. *)
Inductive ndarray :=
| A1 (a : array1)
| A2 (a : array2)
| A3 (a : array3).

(** [len(a.shape)] *)
Definition ndim (a : ndarray) : nat :=
  match a with A1 _ => 1 | A2 _ => 2 | A3 _ => 3 end.

Definition nrows (a : array2) : nat := length a.
Definition ncols (a : array2) : nat := length (hd [] a).

(** Every row has the same length. *)
Definition rect (a : array2) : bool :=
  forallb (fun r => Nat.eqb (length r) (ncols a)) a.

(** [a.shape[2]] of a three-dimensional array. *)
Definition shape2_of3 (a : array3) : nat := length (hd [] (hd [] a)).

(** [v[i]] for [0 <= i]. *)
Definition item {A} (v : list A) (i : nat) : result A :=
  match nth_error v i with
  | Some x => Ok x
  | None => Raise IndexError
  end.

(** [a[r, c]] *)
Definition item2 (a : array2) (r c : nat) : result float :=
  match item a r with
  | Ok row => item row c
  | Raise e => Raise e
  end.

(** [a[r, :]] *)
Definition row (a : array2) (r : nat) : result array1 := item a r.

(** [a[:, c]] for a column [c] of the array. *)
Definition column (a : array2) (c : nat) : array1 :=
  map (fun r => nth c r 0%float) a.

(** [a[r, :k]] *)
Definition row_upto (a : array2) (r k : nat) : result array1 :=
  match item a r with
  | Ok v => Ok (firstn k v)
  | Raise e => Raise e
  end.

Fixpoint all_ok {A} (l : list (result A)) : result (list A) :=
  match l with
  | [] => Ok []
  | Ok x :: l' =>
      match all_ok l' with
      | Ok xs => Ok (x :: xs)
      | Raise e => Raise e
      end
  | Raise e :: _ => Raise e
  end.

(** [a[r, :, k]] of a three-dimensional array. *)
Definition lane3 (a : array3) (r k : nat) : result array1 :=
  match item a r with
  | Ok plane => all_ok (map (fun v => item v k) plane)
  | Raise e => Raise e
  end.

(** [a[r, j, k]] *)
Definition item3 (a : array3) (r j k : nat) : result float :=
  match item a r with
  | Ok plane => item2 plane j k
  | Raise e => Raise e
  end.

(** [a[:, :, k]] *)
Definition plane3 (a : array3) (k : nat) : result array2 :=
  all_ok (map (fun plane => all_ok (map (fun v => item v k) plane)) a).

(** Python's slice [l[start:stop]] with integer bounds: a negative
    bound counts from the end, and both are clamped to [0, len]. *)
Definition slice_bound (n : nat) (b : Z) : nat :=
  if (b <? 0)%Z then Z.to_nat (Z.max 0 (Z.of_nat n + b))
  else Nat.min n (Z.to_nat b).

Definition slice {A} (l : list A) (start stop : Z) : list A :=
  let lo := slice_bound (length l) start in
  let hi := slice_bound (length l) stop in
  firstn (hi - lo) (skipn lo l).

(** [a[:, start:stop]] *)
Definition cols_slice (a : array2) (start stop : Z) : array2 :=
  map (fun r => slice r start stop) a.

(** [np.transpose] of a two-dimensional array with [n] columns. *)
Fixpoint transpose_n (n : nat) (a : array2) : array2 :=
  match n with
  | O => []
  | S n' => map (hd 0%float) a :: transpose_n n' (map (@tl float) a)
  end.

Definition transpose (a : array2) : array2 := transpose_n (ncols a) a.

(** [np.ravel] *)
Definition ravel (a : array2) : array1 := concat a.

(** [np.zeros((r, c))] *)
Definition zeros (r c : nat) : array2 := repeat (repeat 0%float c) r.

(** Broadcasting of one axis: the lengths agree, or one of them is 1. *)
Definition bcast (n m : nat) : option nat :=
  if Nat.eqb n m then Some n
  else if Nat.eqb n 1 then Some m
  else if Nat.eqb m 1 then Some n
  else None.

(** The element of [v] that an index [i] of the broadcast axis reads. *)
Definition bget {A} (d : A) (v : list A) (i : nat) : A :=
  nth (if Nat.eqb (length v) 1 then 0 else i) v d.

(** [a - b] on two-dimensional arrays, with numpy's broadcasting;
    incompatible shapes raise [ValueError]. *)
Definition sub2 (a b : array2) : result array2 :=
  match bcast (nrows a) (nrows b), bcast (ncols a) (ncols b) with
  | Some r, Some c =>
      Ok (map (fun i =>
                 map (fun j =>
                        PrimFloat.sub (bget 0%float (bget [] a i) j)
                                      (bget 0%float (bget [] b i) j))
                     (seq 0 c))
              (seq 0 r))
  | _, _ => Raise ValueError
  end.

(** [np.linalg.norm(a, axis=0)]: the square root of the column sums
    of the squared entries, summed row after row. *)
Definition add_sq (acc v : array1) : array1 :=
  map (fun p => PrimFloat.add (fst p) (PrimFloat.mul (snd p) (snd p)))
      (combine acc v).

Definition linalg_norm_axis0 (a : array2) : array1 :=
  map PrimFloat.sqrt (fold_left add_sq a (repeat 0%float (ncols a))).

(** [np.expand_dims(a, axis)]: [axis] is a required positional
    argument; a call that leaves it out raises [TypeError]. With an
    axis, the array gains an axis of length one at that position; the
    four-dimensional result for a three-dimensional array is not
    among the arrays modelled here, and no code of this file asks for
    it. *)
Definition expand_dims (a : ndarray) (axis : option Z) : result ndarray :=
  match axis with
  | None => Raise TypeError
  | Some k =>
      match a with
      | A1 v =>
          if (k =? 0)%Z || (k =? -2)%Z then Ok (A2 [v])
          else if (k =? 1)%Z || (k =? -1)%Z then Ok (A2 (map (fun x => [x]) v))
          else Raise (Raised "AxisError")
      | A2 m =>
          if (k =? 0)%Z || (k =? -3)%Z then Ok (A3 [m])
          else if (k =? 1)%Z || (k =? -2)%Z then Ok (A3 (map (fun r => [r]) m))
          else if (k =? 2)%Z || (k =? -1)%Z
               then Ok (A3 (map (map (fun x => [x])) m))
          else Raise (Raised "AxisError")
      | A3 _ => Raise (Raised "NotImplementedError")
      end
  end.

(** [np.linalg.norm(a[lo:hi, ], axis=0)] for an array [a] of at least
    one row: the row slice keeps the [a.shape[1]] columns of [a], also
    when it keeps no row, and the norm of an empty column is zero. *)
Definition linalg_norm_rows_axis0 (a : array2) (lo hi : Z) : array1 :=
  map PrimFloat.sqrt
      (fold_left add_sq (slice a lo hi) (repeat 0%float (ncols a))).

End Np.

Import Np.

(** ** [utils_vis.py] *)

Module UtilsVis.

(** A matplotlib figure, identified by the size it was created with. *)
Record figure := Fig { figsize : Z * Z }.

(** Float literals of the source, written exactly. *)
Definition f0_15 : float := 0x1.3333333333333p-3%float.
Definition f0_9 : float := 0x1.ccccccccccccdp-1%float.
Definition f0_3 : float := 0x1.3333333333333p-2%float.

(** [f"{i}"] for a non-negative integer. *)
Definition str_of_nat (i : nat) : string :=
  NilEmpty.string_of_uint (Nat.to_uint i).

Section Calls.

(** [range_range_rate] of [utils.py], which this file imports. *)
Variable range_range_rate : array2 -> array2 -> result (array1 * array1).

Definition mpl (f : string) (a : list value) (kw : list (string * value))
  : M unit :=
  invoke (Call f a kw).

(** [plt.figure(figsize=(w, h))] *)
Definition plt_figure (w h : Z) : M figure :=
  mpl "plt.figure" [] [("figsize", VInts [w; h])] ;;
  ret (Fig (w, h)).

(** [ax.plot(x, y, ...)] on two one-dimensional arrays: matplotlib
    raises [ValueError] when their lengths differ. *)
Definition ax_plot (ax : string) (x y : array1)
           (kw : list (string * value)) : M unit :=
  if Nat.eqb (length x) (length y)
  then mpl (ax ++ ".plot")%string [VVec x; VVec y] kw
  else raise ValueError.

Definition font16 : M unit := mpl "matplotlib.rc" [VStr "font"] [("size", VInt 16)].

Definition legend_at : list (string * value) :=
  [("loc", VInt 2); ("bbox_to_anchor", VVec [f0_15; f0_9])].

Definition eci_labels (ax : string) (pad : Z) : M unit :=
  mpl (ax ++ ".set_xlabel")%string [VStr "x ECI (m)"]
      [("fontsize", VInt 16); ("labelpad", VInt pad)] ;;
  mpl (ax ++ ".set_ylabel")%string [VStr "y ECI (m)"]
      [("fontsize", VInt 16); ("labelpad", VInt pad)] ;;
  mpl (ax ++ ".set_zlabel")%string [VStr "z ECI (m)"]
      [("fontsize", VInt 16); ("labelpad", VInt pad)].

(** [ax1.scatter(a[0, c], a[1, c], a[2, c], **kw)] *)
Definition scatter_point (a : array2) (c : nat)
           (kw : list (string * value)) : M unit :=
  x <- lift (item2 a 0 c) ;;
  y <- lift (item2 a 1 c) ;;
  z <- lift (item2 a 2 c) ;;
  mpl "ax1.scatter" [VNum x; VNum y; VNum z] kw.

(** The "dimension fix" of [plot_example_3d] and
    [plot_range_range_rate]:
    [if len(x.shape) == 2: x = np.expand_dims(x)]. *)
Definition dimension_fix (x_obs_multiple : ndarray) : M ndarray :=
  if Nat.eqb (ndim x_obs_multiple) 2
  then lift (expand_dims x_obs_multiple None)
  else ret x_obs_multiple.

(** [x.shape[2]], and the array as a three-dimensional one. *)
Definition third_axis (x : ndarray) : M (array3 * nat) :=
  match x with
  | A3 a => ret (a, shape2_of3 a)
  | _ => raise IndexError
  end.

Definition plot_example_3d (x_sat_orbdyn_stm : array2)
           (x_obs_multiple : ndarray) (title : option string) : M figure :=
  font16 ;;
  fig <- plt_figure 14 14 ;;
  mpl "fig.add_subplot" [VInt 111] [("projection", VStr "3d")] ;;
  x_obs_multiple <- dimension_fix x_obs_multiple ;;
  xn <- third_axis x_obs_multiple ;;
  let (x_obs, n) := xn : array3 * nat in
  for_range n (fun i =>
    xs <- lift (lane3 x_obs 0 i) ;;
    ys <- lift (lane3 x_obs 1 i) ;;
    zs <- lift (lane3 x_obs 2 i) ;;
    mpl "ax1.scatter" [VVec xs; VVec ys; VVec zs]
        [("marker", VStr "."); ("s", VInt 4)] ;;
    x0 <- lift (item3 x_obs 0 0 i) ;;
    y0 <- lift (item3 x_obs 1 0 i) ;;
    z0 <- lift (item3 x_obs 2 0 i) ;;
    mpl "ax1.scatter" [VNum x0; VNum y0; VNum z0]
        [("c", VStr "ss.get_facecolors()")]) ;;
  eci_labels "ax1" 10 ;;
  scatter_point x_sat_orbdyn_stm 0 [("c", VStr "k")] ;;
  xs <- lift (row x_sat_orbdyn_stm 0) ;;
  ys <- lift (row x_sat_orbdyn_stm 1) ;;
  zs <- lift (row x_sat_orbdyn_stm 2) ;;
  mpl "ax1.scatter" [VVec xs; VVec ys; VVec zs]
      [("marker", VStr "."); ("c", VStr "k"); ("s", VInt 1)] ;;
  match title with
  | Some _ => mpl "ax1.title.set_text" [VStr "Scenario example"] []
  | None => ret tt
  end ;;
  mpl "ax1.legend"
      [VStrs (map (fun i => "st") (seq 0 n) ++ ["s4"]);
       VStrs (map (fun i => ("Observer " ++ str_of_nat i)%string) (seq 0 n)
              ++ ["Satellite"])]
      legend_at ;;
  ret fig.

Definition plot_range_range_rate (x_sat_orbdyn_stm : array2)
           (x_obs_multiple : ndarray) (t_sec : array1) : M figure :=
  x_obs_multiple <- dimension_fix x_obs_multiple ;;
  fig <- plt_figure 14 14 ;;
  xn <- third_axis x_obs_multiple ;;
  let (x_obs, n_obs) := xn : array3 * nat in
  for_range n_obs (fun i =>
    x_obs_i <- lift (plane3 x_obs i) ;;
    rrr <- lift (range_range_rate x_sat_orbdyn_stm x_obs_i) ;;
    let (r, rr) := rrr : array1 * array1 in
    mpl "fig.add_subplot"
        [VInt (Z.of_nat n_obs); VInt 2; VInt (Z.of_nat i * 2 + 1)] [] ;;
    ax_plot "ax1" t_sec r [] ;;
    mpl "ax1.set_xlabel" [VStr "Time (s)"] [] ;;
    mpl "ax1.set_ylabel" [VStr "Range (m)"] [] ;;
    mpl "ax1.grid" [VStr ":"] [] ;;
    mpl "ax1.title.set_text" [VStr "Station 1 - Range"] [] ;;
    mpl "fig.add_subplot"
        [VInt (Z.of_nat n_obs); VInt 2; VInt (Z.of_nat i * 2 + 2)] [] ;;
    ax_plot "ax2" t_sec rr [] ;;
    mpl "ax2.set_xlabel" [VStr "Time (s)"] [] ;;
    mpl "ax2.set_ylabel" [VStr "Range rate (m/s)"] [] ;;
    mpl "ax2.grid" [VStr ":"] [] ;;
    mpl "ax2.title.set_text" [VStr "Station 1 - Range Rate"] []) ;;
  mpl "fig.subplots_adjust" [] [("hspace", VNum f0_3)] ;;
  ret fig.

(** The "Batch results" loop of [plot_batch_results]. *)
Definition pre_batch_style : list (string * value) :=
  [("c", VStr "b"); ("s", VInt 40); ("marker", VStr "x")].
Definition post_batch_style : list (string * value) :=
  [("c", VStr "r"); ("s", VInt 20)].

Definition batch_results_loop (x_0r x_br : array2) (x_berr_norm : array1)
  : M unit :=
  for_range (ncols x_0r) (fun i =>
    e <- lift (item x_berr_norm i) ;;
    if PrimFloat.ltb e 100000%float then
      scatter_point x_0r i pre_batch_style ;;
      scatter_point x_br i post_batch_style
    else ret tt).

(** [plot_batch_results], with the literal of
    [norm_mask = x_berr_norm < 5000] as the argument [mask_below]. *)
Definition plot_batch_results_with (mask_below : float)
           (x_sat_orbdyn_stm x_0r x_br x_berr : array2) : M figure :=
  fig <- plt_figure 14 14 ;;
  mpl "fig.add_subplot" [VInt 111] [("projection", VStr "3d")] ;;
  font16 ;;
  mpl "plt.ticklabel_format" []
      [("axis", VStr "y"); ("style", VStr "sci"); ("scilimits", VInts [0; 0])%Z] ;;
  scatter_point x_sat_orbdyn_stm 0
      [("s", VInt 10); ("marker", VStr "x"); ("c", VStr "r")] ;;
  let x_berr_norm := linalg_norm_axis0 x_berr in
  let norm_mask := map (fun e => PrimFloat.ltb e mask_below) x_berr_norm in
  xs <- lift (row_upto x_sat_orbdyn_stm 0 4) ;;
  ys <- lift (row_upto x_sat_orbdyn_stm 1 4) ;;
  zs <- lift (row_upto x_sat_orbdyn_stm 2 4) ;;
  mpl "ax1.plot" [VVec xs; VVec ys; VVec zs] [("c", VStr "k")] ;;
  scatter_point x_sat_orbdyn_stm 0 [("c", VStr "k"); ("s", VInt 10)] ;;
  batch_results_loop x_0r x_br x_berr_norm ;;
  eci_labels "ax1" 15 ;;
  scatter_point x_0r 0 pre_batch_style ;;
  scatter_point x_br 1 post_batch_style ;;
  mpl "ax1.legend"
      [VStrs ["traj_proxy"; "s1_proxy"; "s2_proxy"];
       VStrs ["Groundtruth trajectory"; "Pre-batch positions";
              "Post-batch positions"]]
      legend_at ;;
  ret fig.

Definition plot_batch_results : array2 -> array2 -> array2 -> array2 -> M figure :=
  plot_batch_results_with 5000%float.

(** [x_sat[:, w:-w] - x_sat_hg], the error computation of
    [plot_tdoa_hg_errors]. *)
Definition hg_diff (x_sat x_sat_hg : array2) (w : Z) : result array2 :=
  sub2 (cols_slice x_sat w (- w)) x_sat_hg.

Definition error_axes (ax : string) (t_sat_hg : array1) (diff : array2)
           (r : nat) (ylabel title : string) : M unit :=
  d0 <- lift (row diff r) ;;
  ax_plot ax t_sat_hg d0 [("linewidth", VInt 1)] ;;
  d1 <- lift (row diff (r + 1)) ;;
  ax_plot ax t_sat_hg d1 [("linewidth", VInt 1)] ;;
  d2 <- lift (row diff (r + 2)) ;;
  ax_plot ax t_sat_hg d2 [("linewidth", VInt 1)] ;;
  mpl (ax ++ ".grid")%string [VStr ":"] [] ;;
  mpl (ax ++ ".legend")%string [VStrs ["x"; "y"; "z"]] [("loc", VInt 0)] ;;
  mpl (ax ++ ".set_xlabel")%string [VStr "Time (seconds)"] [] ;;
  mpl (ax ++ ".set_ylabel")%string [VStr ylabel] [] ;;
  mpl (ax ++ ".title.set_text")%string [VStr title] [].

Definition plot_tdoa_hg_errors (x_sat : array2) (t_sec : array1)
           (x_sat_hg : array2) (w : Z) : M figure :=
  let t_sat_hg := slice t_sec w (- w) in
  diff <- lift (hg_diff x_sat x_sat_hg w) ;;
  fig <- plt_figure 14 7 ;;
  mpl "fig.add_subplot" [VInt 1; VInt 2; VInt 1] [] ;;
  error_axes "ax_1" t_sat_hg diff 0 "Error (m)"
             "Position Error, TDoA + Herrick-Gibbs" ;;
  mpl "fig.add_subplot" [VInt 1; VInt 2; VInt 2] [] ;;
  error_axes "ax_2" t_sat_hg diff 3 "Error (m/s)"
             "Velocity Error, TDoA + Herrick-Gibbs" ;;
  ret fig.

(** [plot_pos_vel_norms] *)
Definition plot_pos_vel_norms (x_sat : array2) (t_sec : array1) : M figure :=
  let r := linalg_norm_rows_axis0 x_sat 0 3 in
  let v := linalg_norm_rows_axis0 x_sat 3 6 in
  fig <- plt_figure 14 7 ;;
  mpl "fig.add_subplot" [VInt 1; VInt 2; VInt 1] [] ;;
  ax_plot "ax1" t_sec r [] ;;
  mpl "ax1.set_xlabel" [VStr "Time (s)"] [] ;;
  mpl "ax1.set_ylabel" [VStr "Satellite position norm (m)"] [] ;;
  mpl "ax1.grid" [VStr ":"] [] ;;
  mpl "ax1.title.set_text" [VStr "Position Norm"] [] ;;
  mpl "fig.add_subplot" [VInt 1; VInt 2; VInt 2] [] ;;
  ax_plot "ax2" t_sec v [] ;;
  mpl "ax2.set_xlabel" [VStr "Time (s)"] [] ;;
  mpl "ax2.set_ylabel" [VStr "Satellite velocity norm (m/s)"] [] ;;
  mpl "ax2.grid" [VStr ":"] [] ;;
  mpl "ax2.title.set_text" [VStr "Velocity Norm"] [] ;;
  mpl "fig.subplots_adjust" [] [("hspace", VNum 0x1p-2%float)] ;;
  ret fig.

(** [fig.add_subplot(rows, cols, num)]: matplotlib raises [ValueError]
    unless [1 <= num <= rows * cols]. *)
Definition add_subplot_grid (rows cols num : Z) : M unit :=
  if ((1 <=? num) && (num <=? rows * cols))%Z
  then mpl "fig.add_subplot" [VInt rows; VInt cols; VInt num] []
  else raise ValueError.

Definition sci_y : M unit :=
  mpl "plt.ticklabel_format" []
      [("axis", VStr "y"); ("style", VStr "sci"); ("scilimits", VInts [0; 0]%Z)].

Definition time_labels (ylabel : string) : M unit :=
  mpl "ax.set_xlabel" [VStr "Time (s)"]
      [("fontsize", VInt 16); ("labelpad", VInt 10)] ;;
  mpl "ax.set_ylabel" [VStr ylabel]
      [("fontsize", VInt 16); ("labelpad", VInt 10)] ;;
  mpl "ax.grid" [VStr ":"] [].

(** One pass of the loop of [plot_tdoa]. *)
Definition plot_tdoa_station (tdoa : array2) (t_sec : array1) (i : nat)
  : M unit :=
  add_subplot_grid 2 2 (Z.of_nat i + 2) ;;
  d <- lift (row tdoa (i + 1)) ;;
  ax_plot "ax" t_sec d [] ;;
  time_labels "Time differential (s)" ;;
  mpl "ax.title.set_text"
      [VStr ("Station " ++ str_of_nat (i + 1) ++ "-0 TDoA")%string] [] ;;
  sci_y.

(** [plot_tdoa] *)
Definition plot_tdoa (tdoa tof : array2) (t_sec : array1)
           (title : option string) : M figure :=
  fig <- plt_figure 14 7 ;;
  font16 ;;
  match title with
  | Some t => mpl "fig.suptitle" [VStr t] []
  | None => ret tt
  end ;;
  add_subplot_grid 2 2 1 ;;
  f <- lift (row tof 0) ;;
  ax_plot "ax" t_sec f [] ;;
  time_labels "Time of flight (s)" ;;
  mpl "ax.title.set_text" [VStr "Station 0 ToF"] [] ;;
  sci_y ;;
  for_range (nrows tdoa - 1) (plot_tdoa_station tdoa t_sec) ;;
  mpl "fig.subplots_adjust" [] [("hspace", VNum 0x1p-1%float)] ;;
  ret fig.

(** [x_sat[0:3, :] - p_sat[0:3, :]], the error of [plot_tdoa_errors]. *)
Definition tdoa_error (p_sat x_sat : array2) : result array2 :=
  sub2 (slice x_sat 0 3) (slice p_sat 0 3).

(** [plot_tdoa_errors] *)
Definition plot_tdoa_errors (p_sat x_sat : array2) (title : option string)
  : M figure :=
  err <- lift (tdoa_error p_sat x_sat) ;;
  fig <- plt_figure 14 7 ;;
  sci_y ;;
  font16 ;;
  mpl "fig.add_subplot" [VInt 111] [] ;;
  mpl "ax.grid" [VStr ":"] [] ;;
  match title with
  | Some t => mpl "ax.title.set_text" [VStr t] []
  | None => ret tt
  end ;;
  e0 <- lift (row err 0) ;;
  mpl "ax.plot" [VVec e0] [("linewidth", VInt 1)] ;;
  e1 <- lift (row err 1) ;;
  mpl "ax.plot" [VVec e1] [("linewidth", VInt 1)] ;;
  e2 <- lift (row err 2) ;;
  mpl "ax.plot" [VVec e2] [("linewidth", VInt 1)] ;;
  mpl "ax.set_xlabel" [VStr "Time (seconds)"]
      [("fontsize", VInt 16); ("labelpad", VInt 10)] ;;
  mpl "ax.set_ylabel" [VStr "Error (m)"]
      [("fontsize", VInt 16); ("labelpad", VInt 10)] ;;
  mpl "ax.legend" [VStrs ["x"; "y"; "z"]] [("loc", VInt 0)] ;;
  ret fig.

(** [s.startswith("/")] and [s.endswith("/")] *)
Definition starts_with_sep (s : string) : bool :=
  match s with
  | String c _ => Ascii.eqb c "/"%char
  | EmptyString => false
  end.

Fixpoint ends_with_sep (s : string) : bool :=
  match s with
  | EmptyString => false
  | String c EmptyString => Ascii.eqb c "/"%char
  | String _ s' => ends_with_sep s'
  end.

(** [os.path.join(a, b)] of [posixpath]. *)
Definition os_path_join (a b : string) : string :=
  if starts_with_sep b then b
  else if String.eqb a "" || ends_with_sep a then (a ++ b)%string
  else (a ++ "/" ++ b)%string.

(** [fig.savefig(os.path.join(path, f"{prefix}{suffix}"))] *)
Definition savefig (fig : string) (path prefix suffix : string) : M unit :=
  mpl (fig ++ ".savefig")%string [VStr (os_path_join path (prefix ++ suffix))] [].

(** [save_images], called with the time array. *)
Definition save_images (x_sat : array2) (x_obs : ndarray) (t_sec : array1)
           (prefix path : string) : M unit :=
  plot_example_3d x_sat x_obs None ;;
  savefig "fig_1" path prefix "_scenario" ;;
  plot_range_range_rate x_sat x_obs t_sec ;;
  savefig "fig_2" path prefix "_range_range_rate".

(** [save_images_batch_results] *)
Definition save_images_batch_results (x_sat x_0r x_br x_berr : array2)
           (prefix path : string) : M unit :=
  plot_batch_results x_sat x_0r x_br x_berr ;;
  savefig "fig_3" path prefix "_range_range_rate".

End Calls.

End UtilsVis.

(** ** The Smoother *)

Module Smoother.

Section Fit.

(** Modelled from the spec: the least-squares polynomial (degree at
    most 3) through one window, evaluated at the centre of the window. *)
Variable fit_centre : list float -> float.

(** Modelled from the spec: the mirrored padding of section 4.1, [m]
    mirrored samples before and after the series. *)
Definition mirror_pad (m : nat) (v : array1) : array1 :=
  rev (firstn m (tl v)) ++ v ++ firstn m (tl (rev v)).

(** Modelled from the spec: the sliding windows of size [w] of section
    4.1, one per sample, centred on it. *)
Definition windows (w : nat) (v : array1) : list array1 :=
  let padded := mirror_pad (w / 2) v in
  map (fun i => firstn w (skipn i padded)) (seq 0 (length v)).

(** Modelled from the spec: one coordinate of the track, each sample
    replaced by the fit of its window. *)
Definition smooth (w : nat) (v : array1) : array1 :=
  map fit_centre (windows w v).

(** Modelled from the spec: "fails with [InvalidWindow] if [w] is even,
    [w < 5], or [w] exceeds track length". *)
Definition invalid_window (track_length : nat) (w : Z) : bool :=
  Z.even w || (w <? 5)%Z || (Z.of_nat track_length <? w)%Z.

(** Modelled from the spec: [golay_filter.golay], the Savitzky-Golay
    stage, is not among the source files. Following section 4.1, the
    input is a track of rows (time, x, y, z) and a window [w]; the call
    fails with [InvalidWindow] for an invalid window; otherwise each of
    x, y and z is replaced by the local polynomial fit of the window
    around the sample, evaluated at the window centre, and the output
    is a track of the same length and timestamps. *)
Definition golay (data : array2) (window : Z) : result array2 :=
  if invalid_window (length data) window then Raise InvalidWindow
  else
    let w := Z.to_nat window in
    let xs := smooth w (column data 1) in
    let ys := smooth w (column data 2) in
    let zs := smooth w (column data 3) in
    Ok (map (fun i => [nth i (column data 0) 0%float;
                       nth i xs 0%float; nth i ys 0%float; nth i zs 0%float])
            (seq 0 (length data))).

End Fit.

(** Modelled from the spec: one fit of degree at most 3, used for the
    sample runs. The weights of the quadratic and cubic fit at the centre of a
    window of [2 m + 1] equally spaced samples, at offset [i] from
    the centre: [3 (3 m^2 + 3 m - 1 - 5 i^2) / ((2m+3)(2m+1)(2m-1))]. *)
Definition weight (m : Z) (i : Z) : float :=
  PrimFloat.div
    (float_of_Z (3 * (3 * m * m + 3 * m - 1 - 5 * i * i)))
    (float_of_Z ((2 * m + 3) * (2 * m + 1) * (2 * m - 1))).

Definition cubic_fit (win : list float) : float :=
  let m := Z.of_nat (length win / 2) in
  fold_left PrimFloat.add
    (map (fun p => PrimFloat.mul (weight m (Z.of_nat (fst p) - m)) (snd p))
         (combine (seq 0 (length win)) win))
    0%float.

End Smoother.

(** ** [final_init.py] *)

Module FinalInit.

(** The modules [final_init.py] imports and whose sources are not
    part of this development. Each function returns a value or
    raises. [rkf78] is handed the array [x] itself: besides the
    array it returns, it yields what [x] holds when the call
    returns. *)
Class Collaborators := {
  load_data : string -> result array2;
  generate_filtered_data : array2 -> Z -> result array2;
  golay : array2 -> Z -> result array2;
  create_kep : array2 -> result array2;
  kalman : array2 -> result array2;
  Kep_state : array2 -> result array2;
  rkf78 : Z -> float -> float -> float -> float -> array2
          -> result (array2 * array2);
  (** [a ** b] on floats *)
  pow : float -> float -> float
}.

(** [1e-04] *)
Definition tetol : float := 0x1.a36e2eb1c432dp-14%float.
Definition f1_15 : float := 0x1.2666666666666p+0%float.
Definition f1_05 : float := 0x1.0cccccccccccdp+0%float.

Fixpoint set_nth {A} (i : nat) (l : list A) (x : A) : list A :=
  match l, i with
  | [], _ => []
  | _ :: l', O => x :: l'
  | y :: l', S i' => y :: set_nth i' l' x
  end.

(** [a[:, c]] *)
Definition col (a : array2) (c : nat) : result array1 :=
  all_ok (map (fun r => item r c) a).

(** [a[:, c] = v]; [v] has one entry per row, or a single entry. *)
Definition set_col (a : array2) (c : nat) (v : array1) : result array2 :=
  if Nat.ltb c (ncols a) then
    if Nat.eqb (length v) (nrows a) || Nat.eqb (length v) 1
    then Ok (map (fun i => set_nth c (nth i a []) (bget 0%float v i))
                 (seq 0 (nrows a)))
    else Raise ValueError
  else Raise IndexError.

(** [a[r, c] = x] *)
Definition set_item2 (a : array2) (r c : nat) (x : float) : result array2 :=
  match item2 a r c with
  | Ok _ => Ok (set_nth r a (set_nth c (nth r a []) x))
  | Raise e => Raise e
  end.

(** [a[:, lo:hi] = v] for [hi <= a.shape[1]]; [v] is broadcast to the
    shape of the target. *)
Definition set_cols (a : array2) (lo hi : nat) (v : array2) : result array2 :=
  if (Nat.eqb (nrows v) (nrows a) || Nat.eqb (nrows v) 1)
     && (Nat.eqb (ncols v) (hi - lo) || Nat.eqb (ncols v) 1)
  then Ok (map (fun i =>
                  let r := nth i a [] in
                  firstn lo r
                  ++ map (fun j => bget 0%float (bget [] v i) j) (seq 0 (hi - lo))
                  ++ skipn hi r)
               (seq 0 (nrows a)))
  else Raise ValueError.

(** The variables the propagation loop carries. *)
Record loop_vars := Vars {
  keep_state : array2;
  t_hold : array2;
  tf : float;
  x : array2
}.

(** The row labels given to the table of the final elements. *)
Definition df2_index : list string :=
  ["Semi major axis (km)"; "Eccentricity (float number)";
   "Inclination (degrees)"; "Argument of perigee (degrees)";
   "Right ascension of the ascending node (degrees)";
   "True anomally (degrees)"].

(** The format of the returned array as the docstring of [mainf]
    gives it: symbol and unit of each row. *)
Definition docstring_format : list (string * string) :=
  [("a", "km"); ("e", "float number"); ("i", "degrees");
   ("ω", "degrees"); ("Ω", "degrees"); ("v", "degress")].

Section Mainf.

Context {C : Collaborators}.

Definition io (f : string) (a : list value) (kw : list (string * value))
  : M unit :=
  invoke (Call f a kw).

(** Lines 37-43: from the data file to the final elements. *)
Definition estimate (datafile : string) (window : Z)
  : M (array2 * array2 * array2) :=
  my_data <- lift (load_data datafile) ;;
  my_data <- lift (generate_filtered_data my_data 3) ;;
  my_data_filt <- lift (golay my_data window) ;;
  kep <- lift (create_kep my_data_filt) ;;
  kep_final <- lift (kalman kep) ;;
  let kep_final := transpose kep_final in
  ret (my_data, my_data_filt, kep_final).

(** One pass of the loop of lines 56-60. *)
Definition propagate_step (ti h : float) (i : nat) (s : loop_vars)
  : M loop_vars :=
  out <- lift (rkf78 6 ti (tf s) h tetol (x s)) ;;
  let (xout, x') := out : array2 * array2 in
  ks <- lift (set_col (keep_state s) i (ravel xout)) ;;
  th <- lift (set_item2 (t_hold s) i 0 (tf s)) ;;
  ret (Vars ks th (PrimFloat.add (tf s) 100%float) x').

(** Lines 45-60: the state of the final elements, propagated to
    twenty epochs. *)
Definition propagate (kep_final : array2) : M loop_vars :=
  state <- lift (Kep_state kep_final) ;;
  let keep_state := zeros 6 20 in
  let ti := 0%float in
  let tf := 100%float in
  let t_hold := zeros 20 1 in
  let x := state in
  let h := 1%float in
  fold_range 20 (propagate_step ti h) (Vars keep_state t_hold tf x).

(** Lines 65-89: the two printed tables. *)
Definition report (my_data my_data_filt kep_final : array2) : M unit :=
  io "print" [VStr "Diplaying the differences between the initial data set and the data set filtered with Savitzky - Golay filter"] [] ;;
  let dif := zeros (length my_data) 4 in
  d <- lift (sub2 (cols_slice my_data 1 4) (cols_slice my_data_filt 1 4)) ;;
  dif <- lift (set_cols dif 1 4 d) ;;
  t <- lift (col my_data 0) ;;
  dif <- lift (set_col dif 0 t) ;;
  io "print" [VMat dif]
     [("columns", VStrs ["Time (sec)"; "x (km)"; "y (km)"; "z (km)"])] ;;
  io "print" [VStr " "] [] ;;
  io "print" [VStr " "] [] ;;
  io "print" [VStr "Displaying the keplerian elements final computation given by the use of the filtered data set, Lamberts solution and Kalman filtering"] [] ;;
  io "print" [VMat kep_final]
     [("index", VStrs df2_index); ("columns", VStrs ["Final Results"])].

(** [(a ** 2 + b ** 2 + c ** 2) ** (0.5)] *)
Definition magnitude (a b c : float) : float :=
  pow (PrimFloat.add (PrimFloat.add (pow a 2%float) (pow b 2%float))
                     (pow c 2%float))
      0x1p-1%float.

(** Lines 110-114: [r] and [v], twenty rows of one entry each. *)
Definition norms (keep_state : array2) : M (array2 * array2) :=
  fold_range 20 (fun i rv =>
    let (r, v) := rv : array2 * array2 in
    p0 <- lift (item2 keep_state 0 i) ;;
    p1 <- lift (item2 keep_state 1 i) ;;
    p2 <- lift (item2 keep_state 2 i) ;;
    r <- lift (set_item2 r i 0 (magnitude p0 p1 p2)) ;;
    v0 <- lift (item2 keep_state 3 i) ;;
    v1 <- lift (item2 keep_state 4 i) ;;
    v2 <- lift (item2 keep_state 5 i) ;;
    v <- lift (set_item2 v i 0 (magnitude v0 v1 v2)) ;;
    ret (r, v)) (zeros 20 1, zeros 20 1).

(** Lines 92-131: the two figures. *)
Definition render (my_data my_data_filt keep_state t_hold : array2) : M unit :=
  let positions := firstn 3 keep_state in
  io "mpl.rcParams.__setitem__" [VStr "legend.fontsize"; VInt 10] [] ;;
  io "plt.figure" [] [] ;;
  io "fig.gca" [] [("projection", VStr "3d")] ;;
  x1 <- lift (col my_data 1) ;;
  x2 <- lift (col my_data 2) ;;
  x3 <- lift (col my_data 3) ;;
  io "ax.plot" [VVec x1; VVec x2; VVec x3; VStr "."]
     [("label", VStr "Initial data ")] ;;
  y1 <- lift (col my_data_filt 1) ;;
  y2 <- lift (col my_data_filt 2) ;;
  y3 <- lift (col my_data_filt 3) ;;
  io "ax.plot" [VVec y1; VVec y2; VVec y3; VStr "k"]
     [("linestyle", VStr "-");
      ("label", VStr "Filtered data with Savitzky - Golay filter")] ;;
  p0 <- lift (row positions 0) ;;
  p1 <- lift (row positions 1) ;;
  p2 <- lift (row positions 2) ;;
  io "ax.plot" [VVec p0; VVec p1; VVec p2; VStr "r-"]
     [("label", VStr "Orbit after Lamberts - Kalman")] ;;
  io "ax.legend" [] [] ;;
  io "ax.can_zoom" [] [] ;;
  io "ax.set_xlabel" [VStr "x (km)"] [] ;;
  io "ax.set_ylabel" [VStr "y (km)"] [] ;;
  io "ax.set_zlabel" [VStr "z (km)"] [] ;;
  io "plt.show" [] [] ;;
  rv <- norms keep_state ;;
  let (r, v) := rv : array2 * array2 in
  io "plt.subplots" [] [] ;;
  io "ax1.plot" [VMat t_hold; VMat r; VStr "b"]
     [("label", VStr "Absolute value of position vector r")] ;;
  io "ax1.legend" [] [("bbox_to_anchor", VVec [1%float; f1_15])] ;;
  io "ax1.set_xlabel" [VStr "Time (sec)"] [] ;;
  io "ax1.set_ylabel" [VStr "|r| (km)"] [] ;;
  io "ax1.tick_params" [VStr "y"] [("colors", VStr "b")] ;;
  io "ax1.twinx" [] [] ;;
  io "ax2.plot" [VMat t_hold; VMat v; VStr "r"]
     [("label", VStr "Absolute value of velocity vector v")] ;;
  io "ax2.legend" [] [("bbox_to_anchor", VVec [1%float; f1_05])] ;;
  io "ax2.set_ylabel" [VStr "|v| (km/s)"] [("color", VStr "r")] ;;
  io "ax2.tick_params" [VStr "y"] [("colors", VStr "r")] ;;
  io "plt.show" [] [].

Definition mainf (datafile : string) (window : Z) : M array2 :=
  e <- estimate datafile window ;;
  let '(my_data, my_data_filt, kep_final) := e in
  s <- propagate kep_final ;;
  report my_data my_data_filt kep_final ;;
  render my_data my_data_filt (keep_state s) (t_hold s) ;;
  ret kep_final.

End Mainf.

End FinalInit.

(** * Statements and sample inputs *)

Import UtilsVis.
Import FinalInit.

(** The scatter call that marks column [c] of [a]. *)
Definition scatter_call (a : array2) (c : nat) (kw : list (string * value))
  : call :=
  Call "ax1.scatter"
       [VNum (nth c (nth 0 a []) 0%float); VNum (nth c (nth 1 a []) 0%float);
        VNum (nth c (nth 2 a []) 0%float)]
       kw.

(** The markers the loop draws for candidate [i]. *)
Definition candidate_markers (x_0r x_br : array2) (x_berr_norm : array1)
           (i : nat) : list call :=
  if PrimFloat.ltb (nth i x_berr_norm 0%float) 100000%float
  then [scatter_call x_0r i pre_batch_style; scatter_call x_br i post_batch_style]
  else [].

(** The calls before and after the loop of [plot_batch_results]. *)
Definition batch_setup_calls (x_sat : array2) : list call :=
  [Call "plt.figure" [] [("figsize", VInts [14; 14]%Z)];
   Call "fig.add_subplot" [VInt 111] [("projection", VStr "3d")];
   Call "matplotlib.rc" [VStr "font"] [("size", VInt 16)];
   Call "plt.ticklabel_format" []
        [("axis", VStr "y"); ("style", VStr "sci"); ("scilimits", VInts [0; 0]%Z)];
   scatter_call x_sat 0 [("s", VInt 10); ("marker", VStr "x"); ("c", VStr "r")];
   Call "ax1.plot"
        [VVec (firstn 4 (nth 0 x_sat [])); VVec (firstn 4 (nth 1 x_sat []));
         VVec (firstn 4 (nth 2 x_sat []))]
        [("c", VStr "k")];
   scatter_call x_sat 0 [("c", VStr "k"); ("s", VInt 10)]].

Definition batch_legend_calls (x_0r x_br : array2) : list call :=
  [Call "ax1.set_xlabel" [VStr "x ECI (m)"]
        [("fontsize", VInt 16); ("labelpad", VInt 15)];
   Call "ax1.set_ylabel" [VStr "y ECI (m)"]
        [("fontsize", VInt 16); ("labelpad", VInt 15)];
   Call "ax1.set_zlabel" [VStr "z ECI (m)"]
        [("fontsize", VInt 16); ("labelpad", VInt 15)];
   scatter_call x_0r 0 pre_batch_style;
   scatter_call x_br 1 post_batch_style;
   Call "ax1.legend"
        [VStrs ["traj_proxy"; "s1_proxy"; "s2_proxy"];
         VStrs ["Groundtruth trajectory"; "Pre-batch positions";
                "Post-batch positions"]]
        legend_at].

(** Two candidates around a ground-truth track of four samples. *)
Definition sample_x_sat : array2 :=
  [[7000000; 7000100; 7000200; 7000300]; [10; 20; 30; 40]; [1; 2; 3; 4];
   [0; 0; 0; 0]; [7500; 7500; 7500; 7500]; [0; 0; 0; 0]]%float.
Definition sample_x_0r : array2 :=
  [[7010000; 7020000]; [11; 21]; [12; 22]; [0; 0]; [7500; 7500]; [0; 0]]%float.
Definition sample_x_br : array2 :=
  [[7000030; 7000040]; [31; 41]; [32; 42]; [0; 0]; [7500; 7500]; [0; 0]]%float.

(** Both candidates end 200 km and 300 km from the truth. *)
Definition far_x_berr : array2 :=
  [[200000; 300000]; [0; 0]; [0; 0]; [0; 0]; [0; 0]; [0; 0]]%float.

(** The first ends 50 km from the truth, the second 200 km. *)
Definition mixed_x_berr : array2 :=
  [[50000; 200000]; [0; 0]; [0; 0]; [0; 0]; [0; 0]; [0; 0]]%float.

(** C3 as stated: each candidate's pre-batch position, and each
    candidate's post-batch position, is drawn if and only if the
    candidate's error norm is below 100000. *)
Definition drawn_iff_below (x_sat x_0r x_br x_berr : array2) : Prop :=
  let t := trace (plot_batch_results x_sat x_0r x_br x_berr) in
  forall i, i < ncols x_0r ->
    let below :=
      PrimFloat.ltb (nth i (linalg_norm_axis0 x_berr) 0%float) 100000%float in
    (In (scatter_call x_0r i pre_batch_style) t <-> below = true)
    /\ (In (scatter_call x_br i post_batch_style) t <-> below = true).

(** A ground-truth series of five samples, and estimates of three
    samples and of a single sample. *)
Definition sample_t_sec : array1 := [0; 1; 2; 3; 4]%float.
Definition sample_track : array2 :=
  [[7000; 7001; 7002; 7003; 7004]; [10; 11; 12; 13; 14]; [20; 21; 22; 23; 24];
   [1; 1; 1; 1; 1]; [7; 7; 7; 7; 7]; [0; 0; 0; 0; 0]]%float.
Definition sample_hg3 : array2 :=
  [[7001; 7002; 7003]; [11; 12; 13]; [21; 22; 23]; [1; 1; 1]; [7; 7; 7];
   [0; 0; 0]]%float.
Definition sample_hg1 : array2 :=
  [[7002]; [12]; [22]; [1]; [7]; [0]]%float.

(** C10 as stated: the error computation is defined only when the
    estimate has [n - 2 w] samples. *)
Definition diff_defined_only_when_trimmed (x_sat x_sat_hg : array2) (w : Z)
  : Prop :=
  forall diff, hg_diff x_sat x_sat_hg w = Ok diff ->
    Z.of_nat (ncols x_sat_hg) = (Z.of_nat (ncols x_sat) - 2 * w)%Z.

Definition silent {A} (m : M A) : Prop := trace m = [].

(** Seven position fixes (time, x, y, z). *)
Definition sample_orbit : array2 :=
  [[0; 7000; 0; 10]; [10; 6990; 75; 12]; [20; 6980; 150; 14];
   [30; 6950; 225; 16]; [40; 6920; 300; 18]; [50; 6880; 375; 20];
   [60; 6830; 450; 22]]%float.

(** Stand-ins for the imported modules: the file named [orbit.csv]
    holds [sample_orbit], the moving average leaves the track as it is,
    the Savitzky-Golay stage is the Smoother with the cubic fit, the
    elements are read off the first and second filtered fixes, the
    refinement keeps six of them, and the propagator returns the state
    it is given. *)
Definition sample_collaborators : Collaborators := {|
  load_data := fun f =>
    if String.eqb f "orbit.csv" then Ok sample_orbit
    else Raise (Raised "FileNotFoundError");
  generate_filtered_data := fun d _ => Ok d;
  golay := Smoother.golay Smoother.cubic_fit;
  create_kep := fun d =>
    Ok (map (fun r => skipn 1 r ++ skipn 1 (nth 1 d [])) (firstn 1 d));
  kalman := fun k => Ok [firstn 6 (hd [] k ++ repeat 0%float 6)];
  Kep_state := fun k => Ok k;
  rkf78 := fun _ _ _ _ _ x => Ok (x, x);
  pow := fun a _ => a
|}.

Definition sample_kep_final : array2 :=
  Eval vm_compute in
    match outcome (@mainf sample_collaborators "orbit.csv" 5) with
    | Ok k => k
    | Raise _ => []
    end.

(** The callees of [render], in the order of the source. *)
Definition render_callees : list string :=
  ["mpl.rcParams.__setitem__"; "plt.figure"; "fig.gca"; "ax.plot"; "ax.plot";
   "ax.plot"; "ax.legend"; "ax.can_zoom"; "ax.set_xlabel"; "ax.set_ylabel";
   "ax.set_zlabel"; "plt.show"; "plt.subplots"; "ax1.plot"; "ax1.legend";
   "ax1.set_xlabel"; "ax1.set_ylabel"; "ax1.tick_params"; "ax1.twinx";
   "ax2.plot"; "ax2.legend"; "ax2.set_ylabel"; "ax2.tick_params"; "plt.show"].

(** The table of the final elements, as [report] prints it. *)
Definition elements_table (kep_final : array2) : call :=
  Call "print" [VMat kep_final]
       [("index", VStrs df2_index); ("columns", VStrs ["Final Results"])].

(** A matplotlib that rejects the keyword argument of
    [fig.gca(projection='3d')]. *)
Definition gca_raises : call -> option exn :=
  fun c => if String.eqb (fn c) "fig.gca" then Some TypeError else None.

(** C2 as stated: the estimate that [mainf] computes reaches the caller
    whatever the rendering calls do. *)
Definition delivered_whatever_rendering_does {C : Collaborators}
           (backend : call -> option exn) (datafile : string) (window : Z)
  : Prop :=
  forall kep_final,
    outcome (mainf datafile window) = Ok kep_final ->
    outcome (run backend (mainf datafile window)) = Ok kep_final.

Inductive unit_name := Km | FloatNumber | Degrees.

(** The units as the source spells them; [degress] is the spelling of
    the docstring for the true anomaly. *)
Definition unit_named (s : string) : option unit_name :=
  if String.eqb s "km" then Some Km
  else if String.eqb s "float number" then Some FloatNumber
  else if String.eqb s "degrees" then Some Degrees
  else if String.eqb s "degress" then Some Degrees
  else None.

(** The text between the parentheses of a row label. *)
Fixpoint after_open (s : string) : string :=
  match s with
  | EmptyString => EmptyString
  | String c s' => if Ascii.eqb c "("%char then s' else after_open s'
  end.

Fixpoint before_close (s : string) : string :=
  match s with
  | EmptyString => EmptyString
  | String c s' => if Ascii.eqb c ")"%char then EmptyString else String c (before_close s')
  end.

Definition unit_of_label (l : string) : string := before_close (after_open l).

(** The target epoch of pass [i]: [100 (i + 1)] seconds. *)
Definition epoch (i : nat) : float := float_of_Z (100 * (Z.of_nat i + 1)).

(** What the array [x] holds before pass [i]: [mainf] binds [x] once,
    to the state [Kep_state] returned, and hands this one array to every
    call of [rkf78]; only [rkf78] itself can change what it holds. *)
Fixpoint x_before {C : Collaborators} (state : array2) (i : nat) : array2 :=
  match i with
  | O => state
  | S j =>
      match rkf78 6 0%float (epoch j) 1%float tetol (x_before state j) with
      | Ok (_, x') => x'
      | Raise _ => x_before state j
      end
  end.

(** A column of [keep_state] after [keep_state[:, i] = np.ravel(out)]:
    the six numbers of [out] in their order, or its single number six
    times. *)
Definition column_holds (col : array1) (out : array2) : Prop :=
  (length (concat out) = 6 /\ col = concat out)
  \/ (exists v, concat out = [v] /\ col = repeat v 6).

(** What the loop has established before pass [j]. *)
Definition history_upto {C : Collaborators} (state : array2) (j : nat)
           (s : loop_vars) : Prop :=
  tf s = epoch j
  /\ x s = x_before state j
  /\ length (keep_state s) = 6
  /\ Forall (fun r => length r = 20) (keep_state s)
  /\ length (t_hold s) = 20
  /\ Forall (fun r => length r = 1) (t_hold s)
  /\ (forall i, i < j ->
        exists out,
          rkf78 6 0%float (epoch i) 1%float tetol (x_before state i)
          = Ok (out, x_before state (S i))
          /\ (length (concat out) = 6 \/ length (concat out) = 1)
          /\ forall r, r < 6 ->
               nth i (nth r (keep_state s) []) 0%float
               = bget 0%float (concat out) r)
  /\ (forall i, i < j -> nth i (t_hold s) [] = [epoch i]).

(** C9 as stated: every column of the history is the propagation of
    the one state that [Kep_state] returned. *)
Definition propagated_from_initial_state {C : Collaborators}
           (kep_final : array2) (s : loop_vars) : Prop :=
  exists state,
    Kep_state kep_final = Ok state
    /\ forall i, i < 20 ->
         exists out x',
           rkf78 6 0%float (epoch i) 1%float tetol state = Ok (out, x')
           /\ column (keep_state s) i = concat out.

(** A propagator that advances the array it is given in place and
    returns it: a stand-in that moves every entry by the elapsed time. *)
Definition advancing_collaborators : Collaborators := {|
  load_data := @load_data sample_collaborators;
  generate_filtered_data := @generate_filtered_data sample_collaborators;
  golay := @golay sample_collaborators;
  create_kep := @create_kep sample_collaborators;
  kalman := @kalman sample_collaborators;
  Kep_state := @Kep_state sample_collaborators;
  rkf78 := fun _ ti tf _ _ x =>
    let x' := map (map (fun a => PrimFloat.add a (PrimFloat.sub tf ti))) x in
    Ok (x', x');
  pow := @pow sample_collaborators
|}.

Definition advancing_history : loop_vars :=
  Eval vm_compute in
    match outcome (@propagate advancing_collaborators sample_kep_final) with
    | Ok s => s
    | Raise _ => Vars [] [] 0%float []
    end.

(** ** Further statements and sample inputs *)

(** The entries [a[0, c]], [a[1, c]], [a[2, c]] exist. *)
Definition has_point (a : list (list float)) (c : nat) : Prop :=
  3 <= length a
  /\ c < length (nth 0 a []) /\ c < length (nth 1 a [])
  /\ c < length (nth 2 a []).

(** The shapes [plot_tdoa] can draw: a first time-of-flight row and
    every TDoA row but the first as long as [t_sec], and four TDoA rows
    at most. *)
Definition tdoa_drawable (tdoa tof : list (list float)) (t_sec : list float)
  : Prop :=
  1 <= length tof
  /\ length (nth 0 tof []) = length t_sec
  /\ length tdoa <= 4
  /\ forall i, 1 <= i < length tdoa -> length (nth i tdoa []) = length t_sec.

(** Row [r] of the position error over [n] samples. *)
Definition position_error_row (p_sat x_sat : array2) (n r : nat) : array1 :=
  map (fun j => PrimFloat.sub (nth j (nth r x_sat []) 0%float)
                              (nth j (nth r p_sat []) 0%float))
      (seq 0 n).

(** The calls of [plot_tdoa_errors], in the order of the source. *)
Definition tdoa_errors_calls (p_sat x_sat : array2) (n : nat)
           (title : option string) : list call :=
  [Call "plt.figure" [] [("figsize", VInts [14; 7]%Z)];
   Call "plt.ticklabel_format" []
        [("axis", VStr "y"); ("style", VStr "sci");
         ("scilimits", VInts [0; 0]%Z)];
   Call "matplotlib.rc" [VStr "font"] [("size", VInt 16)];
   Call "fig.add_subplot" [VInt 111] [];
   Call "ax.grid" [VStr ":"] []]
  ++ match title with
     | Some t => [Call "ax.title.set_text" [VStr t] []]
     | None => []
     end
  ++ [Call "ax.plot" [VVec (position_error_row p_sat x_sat n 0)]
           [("linewidth", VInt 1)];
      Call "ax.plot" [VVec (position_error_row p_sat x_sat n 1)]
           [("linewidth", VInt 1)];
      Call "ax.plot" [VVec (position_error_row p_sat x_sat n 2)]
           [("linewidth", VInt 1)];
      Call "ax.set_xlabel" [VStr "Time (seconds)"]
           [("fontsize", VInt 16); ("labelpad", VInt 10)];
      Call "ax.set_ylabel" [VStr "Error (m)"]
           [("fontsize", VInt 16); ("labelpad", VInt 10)];
      Call "ax.legend" [VStrs ["x"; "y"; "z"]] [("loc", VInt 0)]].

(** Two observers over five samples, as a (6, 5, 2) array, and a
    stand-in for [range_range_rate]. *)
Definition sample_x_obs : list (list (list float)) :=
  repeat (repeat [6371000; 6371100]%float 5) 6.

Definition sample_range_range_rate
  : list (list float) -> list (list float) -> result (list float * list float) :=
  fun x_sat _ => Ok (nth 0 x_sat [], nth 3 x_sat []).

(** Every station index below [k] exists in the first three planes of
    [x_obs], which hold one sample or more. *)
Definition observers_shaped (x_obs : list (list (list float))) (k : nat)
  : Prop :=
  3 <= length x_obs
  /\ forall r, r < 3 ->
       nth r x_obs [] <> []
       /\ Forall (fun v => length v = k) (nth r x_obs []).

(** The two scatter calls of station [i]: its track and its first
    position. *)
Definition station_calls (x_obs : list (list (list float))) (i : nat)
  : list call :=
  [Call "ax1.scatter"
        [VVec (map (fun v => nth i v 0%float) (nth 0 x_obs []));
         VVec (map (fun v => nth i v 0%float) (nth 1 x_obs []));
         VVec (map (fun v => nth i v 0%float) (nth 2 x_obs []))]
        [("marker", VStr "."); ("s", VInt 4)];
   Call "ax1.scatter"
        [VNum (nth i (nth 0 (nth 0 x_obs []) []) 0%float);
         VNum (nth i (nth 0 (nth 1 x_obs []) []) 0%float);
         VNum (nth i (nth 0 (nth 2 x_obs []) []) 0%float)]
        [("c", VStr "ss.get_facecolors()")]].

Definition example_closing_calls (x_sat : list (list float))
           (title : option string) (k : nat) : list call :=
  [Call "ax1.set_xlabel" [VStr "x ECI (m)"]
        [("fontsize", VInt 16); ("labelpad", VInt 10)];
   Call "ax1.set_ylabel" [VStr "y ECI (m)"]
        [("fontsize", VInt 16); ("labelpad", VInt 10)];
   Call "ax1.set_zlabel" [VStr "z ECI (m)"]
        [("fontsize", VInt 16); ("labelpad", VInt 10)];
   scatter_call x_sat 0 [("c", VStr "k")];
   Call "ax1.scatter"
        [VVec (nth 0 x_sat []); VVec (nth 1 x_sat []); VVec (nth 2 x_sat [])]
        [("marker", VStr "."); ("c", VStr "k"); ("s", VInt 1)]]
  ++ match title with
     | Some _ => [Call "ax1.title.set_text" [VStr "Scenario example"] []]
     | None => []
     end
  ++ [Call "ax1.legend"
           [VStrs (map (fun _ => "st") (seq 0 k) ++ ["s4"]);
            VStrs (map (fun i => ("Observer " ++ str_of_nat i)%string) (seq 0 k)
                   ++ ["Satellite"])]
           legend_at].

(** A propagator that returns position only. *)
Definition position_only_collaborators : Collaborators := {|
  load_data := @load_data sample_collaborators;
  generate_filtered_data := @generate_filtered_data sample_collaborators;
  golay := @golay sample_collaborators;
  create_kep := @create_kep sample_collaborators;
  kalman := @kalman sample_collaborators;
  Kep_state := @Kep_state sample_collaborators;
  rkf78 := fun _ _ _ _ _ x => Ok (firstn 3 x, x);
  pow := @pow sample_collaborators
|}.

(** [keep_state] has six rows of twenty entries and [t_hold] twenty
    rows of one. *)
Definition history_shaped (s : loop_vars) : Prop :=
  length (keep_state s) = 6
  /\ Forall (fun r => length r = 20) (keep_state s)
  /\ length (t_hold s) = 20
  /\ Forall (fun r => length r = 1) (t_hold s).

(** What the loop of lines 112-114 has filled in before pass [j]. *)
Definition norms_upto {C : Collaborators} (ks : list (list float)) (j : nat)
           (rv : list (list float) * list (list float)) : Prop :=
  length (fst rv) = 20 /\ Forall (fun r => length r = 1) (fst rv)
  /\ length (snd rv) = 20 /\ Forall (fun r => length r = 1) (snd rv)
  /\ forall i, i < j ->
       nth i (fst rv) []
       = [magnitude (nth i (nth 0 ks []) 0%float) (nth i (nth 1 ks []) 0%float)
                    (nth i (nth 2 ks []) 0%float)]
       /\ nth i (snd rv) []
          = [magnitude (nth i (nth 3 ks []) 0%float)
                       (nth i (nth 4 ks []) 0%float)
                       (nth i (nth 5 ks []) 0%float)].

(** The heading of the difference table. *)
Definition difference_heading : call :=
  Call "print" [VStr "Diplaying the differences between the initial data set and the data set filtered with Savitzky - Golay filter"] [].

(** The filtered track and the propagated history of the sample run. *)
Definition sample_filtered : list (list float) :=
  Eval vm_compute in
    match Smoother.golay Smoother.cubic_fit sample_orbit 5 with
    | Ok f => f
    | Raise _ => []
    end.

Definition sample_history : loop_vars :=
  Eval vm_compute in
    match outcome (@propagate sample_collaborators sample_kep_final) with
    | Ok s => s
    | Raise _ => Vars [] [] 0%float []
    end.

(** A filter that returns the first three fixes only. *)
Definition truncating_collaborators : Collaborators := {|
  load_data := @load_data sample_collaborators;
  generate_filtered_data := @generate_filtered_data sample_collaborators;
  golay := fun d _ => Ok (firstn 3 d);
  create_kep := @create_kep sample_collaborators;
  kalman := @kalman sample_collaborators;
  Kep_state := @Kep_state sample_collaborators;
  rkf78 := @rkf78 sample_collaborators;
  pow := @pow sample_collaborators
|}.

Definition truncated_kep_final : list (list float) :=
  Eval vm_compute in
    match outcome (@estimate truncating_collaborators "orbit.csv" 5) with
    | Ok (_, _, k) => k
    | Raise _ => []
    end.

Definition truncated_history : loop_vars :=
  Eval vm_compute in
    match outcome (@propagate truncating_collaborators truncated_kep_final) with
    | Ok s => s
    | Raise _ => Vars [] [] 0%float []
    end.

(** The observers of station [i], [x_obs[:, :, i]]. *)
Definition station_plane (x_obs : list (list (list float))) (i : nat)
  : list (list float) :=
  map (map (fun v => nth i v 0%float)) x_obs.

(** The twelve calls that draw the two panels of station [i]. *)
Definition station_panels (n_obs : nat) (t_sec r rr : list float) (i : nat)
  : list call :=
  [Call "fig.add_subplot"
        [VInt (Z.of_nat n_obs); VInt 2; VInt (Z.of_nat i * 2 + 1)] [];
   Call "ax1.plot" [VVec t_sec; VVec r] [];
   Call "ax1.set_xlabel" [VStr "Time (s)"] [];
   Call "ax1.set_ylabel" [VStr "Range (m)"] [];
   Call "ax1.grid" [VStr ":"] [];
   Call "ax1.title.set_text" [VStr "Station 1 - Range"] [];
   Call "fig.add_subplot"
        [VInt (Z.of_nat n_obs); VInt 2; VInt (Z.of_nat i * 2 + 2)] [];
   Call "ax2.plot" [VVec t_sec; VVec rr] [];
   Call "ax2.set_xlabel" [VStr "Time (s)"] [];
   Call "ax2.set_ylabel" [VStr "Range rate (m/s)"] [];
   Call "ax2.grid" [VStr ":"] [];
   Call "ax2.title.set_text" [VStr "Station 1 - Range Rate"] []].

(** * Properties *)

(** ** Computations *)

Lemma run_calls_completes (backend : call -> option exn) (cs : list call) :
  Forall (fun c => backend c = None) cs ->
  run_calls backend cs = (cs, None).
Proof.
  induction 1 as [|c cs Hc _ IH]; simpl; [reflexivity|].
  now rewrite Hc, IH.
Qed.

Lemma run_calls_none (backend : call -> option exn) (cs t : list call) :
  run_calls backend cs = (t, None) ->
  t = cs /\ Forall (fun c => backend c = None) cs.
Proof.
  revert t. induction cs as [|c cs IH]; simpl; intros t H.
  - inversion H. split; [reflexivity | constructor].
  - destruct (backend c) eqn:Hc; [discriminate|].
    destruct (run_calls backend cs) as [t' r'] eqn:Hr.
    inversion H; subst.
    destruct (IH t' eq_refl) as [-> Hall].
    split; [reflexivity | constructor; assumption].
Qed.

Lemma run_calls_some (backend : call -> option exn) (cs t : list call) (e : exn) :
  run_calls backend cs = (t, Some e) ->
  exists c rest, cs = t ++ c :: rest /\ backend c = Some e
                 /\ Forall (fun c => backend c = None) t.
Proof.
  revert t. induction cs as [|c cs IH]; simpl; intros t H; [discriminate|].
  destruct (backend c) eqn:Hc.
  - inversion H; subst. exists c, cs. repeat split; [assumption | constructor].
  - destruct (run_calls backend cs) as [t' r'] eqn:Hr.
    inversion H; subst.
    destruct (IH t' eq_refl) as (c' & rest & -> & Hc' & Hall).
    exists c', rest. repeat split; [assumption | constructor; assumption].
Qed.

(** A run returns a value exactly when the computation returns it and
    every call it issues completes. *)
Lemma run_ok_iff {A} (backend : call -> option exn) (m : M A) (a : A) :
  outcome (run backend m) = Ok a <->
  outcome m = Ok a /\ Forall (fun c => backend c = None) (trace m).
Proof.
  destruct m as [t r]. unfold run, outcome, trace. simpl. split.
  - destruct (run_calls backend t) as [t' [e|]] eqn:Hr; simpl; [discriminate|].
    intros ->. apply run_calls_none in Hr. tauto.
  - intros [-> Hall]. now rewrite (run_calls_completes _ _ Hall).
Qed.

Lemma run_raises_never_ok {A} (backend : call -> option exn) (t : list call)
      (e : exn) :
  is_ok (outcome (run backend ((t, Raise e) : M A))) = false.
Proof.
  unfold run, outcome. simpl.
  destruct (run_calls backend t) as [t' [e'|]]; reflexivity.
Qed.

(** ** The dimension fix *)

(** C8. For an observer array of exactly two dimensions,
    [plot_example_3d] raises [TypeError] after setting the font and
    creating the figure and its axes, and [plot_range_range_rate]
    raises [TypeError] before any call to matplotlib: the dimension fix
    calls [np.expand_dims] without its [axis] argument. Neither issues
    a scatter or plot call, and neither returns a figure, whatever
    matplotlib does. *)
Theorem dimension_fix_2d_raises :
  forall (range_range_rate : array2 -> array2 -> result (array1 * array1))
         (x_sat : array2) (x_obs : array2) (title : option string)
         (t_sec : array1),
    plot_example_3d x_sat (A2 x_obs) title
    = ([Call "matplotlib.rc" [VStr "font"] [("size", VInt 16)];
        Call "plt.figure" [] [("figsize", VInts [14; 14]%Z)];
        Call "fig.add_subplot" [VInt 111] [("projection", VStr "3d")]],
       Raise TypeError)
    /\ plot_range_range_rate range_range_rate x_sat (A2 x_obs) t_sec
       = ([], Raise TypeError)
    /\ (forall backend,
          is_ok (outcome (run backend (plot_example_3d x_sat (A2 x_obs) title)))
          = false
          /\ is_ok (outcome (run backend
                 (plot_range_range_rate range_range_rate x_sat (A2 x_obs) t_sec)))
             = false).
Proof.
  intros rrr x_sat x_obs title t_sec.
  assert (E1 : plot_example_3d x_sat (A2 x_obs) title
               = ([Call "matplotlib.rc" [VStr "font"] [("size", VInt 16)];
                   Call "plt.figure" [] [("figsize", VInts [14; 14]%Z)];
                   Call "fig.add_subplot" [VInt 111] [("projection", VStr "3d")]],
                  Raise TypeError)) by reflexivity.
  assert (E2 : plot_range_range_rate rrr x_sat (A2 x_obs) t_sec
               = ([], Raise TypeError)) by reflexivity.
  split; [exact E1 | split; [exact E2 |]].
  intros backend. rewrite E1, E2.
  split; apply run_raises_never_ok.
Qed.

(** ** Indexing *)

Lemma item_ok {A} (v : list A) (i : nat) (x d : A) :
  item v i = Ok x -> nth i v d = x /\ i < length v.
Proof.
  unfold item. destruct (nth_error v i) as [y|] eqn:E; [|discriminate].
  intros [= <-]. split.
  - now apply nth_error_nth.
  - apply nth_error_Some. congruence.
Qed.

Lemma item_lt {A} (v : list A) (i : nat) (d : A) :
  i < length v -> item v i = Ok (nth i v d).
Proof.
  intros H. unfold item.
  destruct (nth_error v i) as [y|] eqn:E.
  - now rewrite (nth_error_nth _ _ d E).
  - apply nth_error_None in E. lia.
Qed.

Lemma item2_ok (a : array2) (r c : nat) (x : float) :
  item2 a r c = Ok x -> nth c (nth r a []) 0%float = x.
Proof.
  unfold item2. destruct (item a r) as [v|] eqn:E; [|discriminate].
  intros H. apply item_ok with (d := 0%float) in H as [H _].
  apply item_ok with (d := []) in E as [E _]. subst v. exact H.
Qed.

(** ** Binding computations *)

Lemma bind_ok {A B} (m : M A) (k : A -> M B) (t : list call) (b : B) :
  bind m k = (t, Ok b) ->
  exists t1 a t2, m = (t1, Ok a) /\ k a = (t2, Ok b) /\ t = t1 ++ t2.
Proof.
  destruct m as [t1 [a|e]]; simpl; [|discriminate].
  destruct (k a) as [t2 r] eqn:Hk. intros [= <- ->].
  now exists t1, a, t2.
Qed.

Lemma lift_ok {A} (r : result A) (t : list call) (a : A) :
  lift r = (t, Ok a) -> r = Ok a /\ t = [].
Proof. unfold lift. intros [= <- ->]. split; reflexivity. Qed.

(** ** The batch results *)

Lemma scatter_point_ok (a : array2) (c : nat) (kw : list (string * value))
      (t : list call) (u : unit) :
  scatter_point a c kw = (t, Ok u) -> t = [scatter_call a c kw].
Proof.
  unfold scatter_point, mpl, invoke. intros H.
  apply bind_ok in H as (t1 & x & t2 & Hx & H & ->).
  apply bind_ok in H as (t3 & y & t4 & Hy & H & ->).
  apply bind_ok in H as (t5 & z & t6 & Hz & H & ->).
  apply lift_ok in Hx as [Hx ->], Hy as [Hy ->], Hz as [Hz ->].
  apply item2_ok in Hx, Hy, Hz. subst.
  now inversion H.
Qed.

Lemma batch_results_loop_trace (x_0r x_br : array2) (x_berr_norm : array1)
      (t : list call) (u : unit) :
  batch_results_loop x_0r x_br x_berr_norm = (t, Ok u) ->
  t = flat_map (candidate_markers x_0r x_br x_berr_norm) (seq 0 (ncols x_0r)).
Proof.
  unfold batch_results_loop, for_range.
  generalize (seq 0 (ncols x_0r)) as l.
  intros l; revert t u.
  induction l as [|i l IH]; cbn [for_each flat_map]; intros t u H.
  - now inversion H.
  - apply bind_ok in H as (t1 & [] & t2 & Hbody & Hrest & ->).
    rewrite (IH _ _ Hrest). f_equal.
    apply bind_ok in Hbody as (t3 & e & t4 & He & Hbody & ->).
    apply lift_ok in He as [He ->].
    apply item_ok with (d := 0%float) in He as [He _].
    unfold candidate_markers. rewrite He. cbn [app].
    destruct (PrimFloat.ltb e 100000%float).
    + apply bind_ok in Hbody as (t5 & [] & t6 & Hpre & Hpost & ->).
      apply scatter_point_ok in Hpre, Hpost. now subst.
    + now inversion Hbody.
Qed.

Lemma row_upto_ok (a : array2) (r k : nat) (v : array1) :
  row_upto a r k = Ok v -> v = firstn k (nth r a []).
Proof.
  unfold row_upto. destruct (item a r) as [w|] eqn:E; [|discriminate].
  intros [= <-]. apply item_ok with (d := []) in E as [E _]. now subst w.
Qed.

Ltac bind_step H :=
  let t1 := fresh "t" in
  let a := fresh "a" in
  let t2 := fresh "t" in
  let Hm := fresh "Hm" in
  apply bind_ok in H as (t1 & a & t2 & Hm & H & ->);
  first [ apply lift_ok in Hm as [Hm ->]
        | apply scatter_point_ok in Hm; subst t1
        | apply batch_results_loop_trace in Hm; subst t1
        | (cbv in Hm; inversion Hm; subst; clear Hm) ].

(** C3, as amended. When [plot_batch_results] returns its figure, the
    calls it has issued are the setup, then for each candidate [i] in
    order its pre-batch and post-batch markers exactly when its error
    norm is below 100000, then the axis labels, the pre-batch marker of
    candidate 0 and the post-batch marker of candidate 1 (the legend
    proxies, drawn whatever their error norm) and the legend. The
    literal 5000 of the mask has no effect: any other value gives the
    same calls and the same figure. *)
Theorem plot_batch_results_calls :
  forall (x_sat x_0r x_br x_berr : array2) (t : list call) (fig : figure),
    plot_batch_results x_sat x_0r x_br x_berr = (t, Ok fig) ->
    t = batch_setup_calls x_sat
        ++ flat_map (candidate_markers x_0r x_br (linalg_norm_axis0 x_berr))
                    (seq 0 (ncols x_0r))
        ++ batch_legend_calls x_0r x_br
    /\ forall mask_below : float,
        plot_batch_results_with mask_below x_sat x_0r x_br x_berr = (t, Ok fig).
Proof.
  intros x_sat x_0r x_br x_berr t fig H.
  split; [| intros mask_below; exact H].
  unfold plot_batch_results, plot_batch_results_with in H.
  do 5 bind_step H.
  cbv zeta in H.
  do 10 bind_step H.
  inversion H; subst; clear H.
  repeat match goal with
         | E : row_upto _ _ _ = Ok _ |- _ => apply row_upto_ok in E; subst
         end.
  unfold batch_setup_calls, batch_legend_calls.
  cbn [app]. reflexivity.
Qed.

(** With both error norms at 200 km and 300 km the loop draws nothing,
    yet the pre-batch position of candidate 0 and the post-batch
    position of candidate 1 are drawn as legend proxies. *)
Lemma legend_proxies_drawn_above_threshold :
  outcome (plot_batch_results sample_x_sat sample_x_0r sample_x_br far_x_berr)
  = Ok (Fig (14, 14)%Z)
  /\ linalg_norm_axis0 far_x_berr = [200000; 300000]%float
  /\ ~ drawn_iff_below sample_x_sat sample_x_0r sample_x_br far_x_berr.
Proof.
  split; [vm_compute; reflexivity |].
  split; [vm_compute; reflexivity |].
  intros H. destruct (H 0) as [[Hpre _] _]; [vm_compute; lia |].
  assert (Hin : In (scatter_call sample_x_0r 0 pre_batch_style)
                   (trace (plot_batch_results sample_x_sat sample_x_0r
                                              sample_x_br far_x_berr))).
  { vm_compute. do 10 right. left. reflexivity. }
  apply Hpre in Hin. vm_compute in Hin. discriminate.
Qed.

Lemma plot_batch_results_calls_witness :
  trace (plot_batch_results sample_x_sat sample_x_0r sample_x_br mixed_x_berr)
  = batch_setup_calls sample_x_sat
    ++ [scatter_call sample_x_0r 0 pre_batch_style;
        scatter_call sample_x_br 0 post_batch_style]
    ++ batch_legend_calls sample_x_0r sample_x_br
  /\ forall mask_below : float,
      plot_batch_results_with mask_below sample_x_sat sample_x_0r sample_x_br
                              mixed_x_berr
      = plot_batch_results sample_x_sat sample_x_0r sample_x_br mixed_x_berr.
Proof.
  destruct (plot_batch_results sample_x_sat sample_x_0r sample_x_br mixed_x_berr)
    as [t r] eqn:E.
  assert (Hr : r = Ok (Fig (14, 14)%Z)).
  { apply (f_equal snd) in E. vm_compute in E. congruence. }
  subst r.
  destruct (plot_batch_results_calls _ _ _ _ _ _ E) as [Ht Hmask].
  split; [| exact Hmask].
  rewrite Ht. reflexivity.
Defined.

(** ** The trimmed window of [plot_tdoa_hg_errors] *)

Lemma slice_trim {A} (l : list A) (w : Z) :
  (1 <= w)%Z -> (2 * w <= Z.of_nat (length l))%Z ->
  slice l w (- w) = firstn (length l - 2 * Z.to_nat w) (skipn (Z.to_nat w) l).
Proof.
  intros Hw Hn. unfold slice, slice_bound.
  destruct (Z.ltb_spec w 0); [lia|].
  destruct (Z.ltb_spec (- w) 0); [|lia].
  replace (Nat.min (length l) (Z.to_nat w)) with (Z.to_nat w) by lia.
  f_equal. lia.
Qed.

Lemma slice_trim_length {A} (l : list A) (w : Z) :
  (1 <= w)%Z -> (2 * w <= Z.of_nat (length l))%Z ->
  length (slice l w (- w)) = length l - 2 * Z.to_nat w.
Proof.
  intros Hw Hn. rewrite slice_trim by assumption.
  rewrite length_firstn, length_skipn. lia.
Qed.

Lemma slice_trim_nth {A} (l : list A) (w : Z) (j : nat) (d : A) :
  (1 <= w)%Z -> (2 * w <= Z.of_nat (length l))%Z ->
  j < length l - 2 * Z.to_nat w ->
  nth j (slice l w (- w)) d = nth (Z.to_nat w + j) l d.
Proof.
  intros Hw Hn Hj. rewrite slice_trim by assumption.
  rewrite nth_firstn.
  destruct (Nat.ltb_spec j (length l - 2 * Z.to_nat w)); [|lia].
  apply nth_skipn.
Qed.

Lemma bcast_some (n m k : nat) :
  bcast n m = Some k -> (n = m /\ k = n) \/ (n = 1 /\ k = m) \/ (m = 1 /\ k = n).
Proof.
  unfold bcast.
  destruct (Nat.eqb_spec n m); [intros [= <-]; auto|].
  destruct (Nat.eqb_spec n 1); [intros [= <-]; auto|].
  destruct (Nat.eqb_spec m 1); [intros [= <-]; auto|].
  discriminate.
Qed.

Lemma bcast_same (n : nat) : bcast n n = Some n.
Proof. unfold bcast. now rewrite Nat.eqb_refl. Qed.

Lemma bget_lt {A} (d : A) (v : list A) (i : nat) :
  i < length v -> bget d v i = nth i v d.
Proof.
  intros H. unfold bget.
  destruct (Nat.eqb_spec (length v) 1) as [E|]; [|reflexivity].
  now replace i with 0 by lia.
Qed.

Lemma ncols_cols_slice (a : array2) (n : nat) (w : Z) :
  (1 <= w)%Z -> (2 * w <= Z.of_nat n)%Z ->
  a <> [] -> Forall (fun r => length r = n) a ->
  ncols (cols_slice a w (- w)) = n - 2 * Z.to_nat w.
Proof.
  intros Hw Hn Ha Hall. destruct a as [|r a]; [congruence|].
  inversion Hall; subst. unfold ncols, cols_slice. simpl.
  apply slice_trim_length; assumption.
Qed.

Lemma nth_map_seq {A} (f : nat -> A) (n i : nat) (d : A) :
  i < n -> nth i (map f (seq 0 n)) d = f i.
Proof.
  intros H.
  rewrite (nth_indep _ d (f 0)) by now rewrite length_map, length_seq.
  rewrite (map_nth f (seq 0 n) 0 i), seq_nth by assumption. reflexivity.
Qed.

Lemma nth_map_lt {A B} (f : A -> B) (l : list A) (i : nat) (d : A) (e : B) :
  i < length l -> nth i (map f l) e = f (nth i l d).
Proof.
  intros H.
  rewrite (nth_indep _ e (f d)) by now rewrite length_map.
  apply map_nth.
Qed.

Lemma Forall_nth_length {A} (a : list (list A)) (n r : nat) :
  Forall (fun v => length v = n) a -> r < length a -> length (nth r a []) = n.
Proof.
  intros Hall Hr. rewrite Forall_forall in Hall. apply Hall. now apply nth_In.
Qed.

Lemma ncols_of_rows (a : array2) (n : nat) :
  a <> [] -> Forall (fun r => length r = n) a -> ncols a = n.
Proof.
  intros Ha Hall. destruct a as [|r a]; [congruence|].
  now inversion Hall.
Qed.

Lemma bcast_defined (n m : nat) :
  (exists k, bcast n m = Some k) <-> n = m \/ n = 1 \/ m = 1.
Proof.
  unfold bcast.
  destruct (Nat.eqb_spec n m); [split; eauto|].
  destruct (Nat.eqb_spec n 1); [split; eauto|].
  destruct (Nat.eqb_spec m 1); [split; eauto|].
  split; [intros [k Hk]; discriminate | intros [H|[H|H]]; contradiction].
Qed.

Lemma bcast_one_r (n : nat) : bcast n 1 = Some n.
Proof.
  unfold bcast. destruct (Nat.eqb_spec n 1) as [->|]; reflexivity.
Qed.

Lemma bcast_one_l (m : nat) : bcast 1 m = Some m.
Proof.
  unfold bcast. destruct (Nat.eqb_spec 1 m) as [<-|]; reflexivity.
Qed.

Lemma bget_single {A} (d : A) (v : list A) (i : nat) :
  length v = 1 -> bget d v i = nth 0 v d.
Proof. intros H. unfold bget. now rewrite H. Qed.

(** The difference of two arrays with the same rows whose column
    counts broadcast. *)
Lemma sub2_columns (a b : array2) (n ca cb c : nat) :
  length a = n -> length b = n -> n <> 0 ->
  Forall (fun r => length r = ca) a -> Forall (fun r => length r = cb) b ->
  bcast ca cb = Some c ->
  exists d,
    sub2 a b = Ok d
    /\ nrows d = n
    /\ Forall (fun r => length r = c) d
    /\ forall i j, i < n -> j < c ->
         nth j (nth i d []) 0%float
         = PrimFloat.sub (bget 0%float (nth i a []) j)
                         (bget 0%float (nth i b []) j).
Proof.
  intros Ha Hb Hn Hra Hrb Hc.
  assert (Hane : a <> []) by (intros ->; simpl in Ha; congruence).
  assert (Hbne : b <> []) by (intros ->; simpl in Hb; congruence).
  unfold sub2, nrows.
  rewrite Ha, Hb, bcast_same.
  rewrite (ncols_of_rows _ _ Hane Hra), (ncols_of_rows _ _ Hbne Hrb), Hc.
  eexists. split; [reflexivity|].
  split; [now rewrite length_map, length_seq|].
  split.
  - apply Forall_map, Forall_forall. intros i _.
    now rewrite length_map, length_seq.
  - intros i j Hi Hj.
    rewrite nth_map_seq by assumption.
    rewrite nth_map_seq by assumption.
    rewrite (bget_lt [] a) by (rewrite Ha; exact Hi).
    rewrite (bget_lt [] b) by (rewrite Hb; exact Hi).
    reflexivity.
Qed.

(** C10, as amended. For a window [1 <= w] with [2 w <= n], the slices
    [t_sec[w:-w]] and [x_sat[:, w:-w]] keep the [n - 2 w] samples
    [w .. n - w - 1]. When [x_sat_hg] has the rows of [x_sat] and
    [n - 2 w] columns, the error computation is defined and subtracts
    sample [w + j] of the ground truth and sample [j] of the estimate.
    By broadcasting the computation is also defined when [x_sat_hg]
    has a single column, which is then subtracted from every trimmed
    sample, and when [n - 2 w = 1], where the one trimmed sample is
    set against every column of [x_sat_hg]; it is defined in no other
    case: exactly when the row counts are equal or one of them is 1,
    and [x_sat_hg] has [n - 2 w] columns, or one, or [n - 2 w = 1]. *)
Theorem hg_errors_trimmed_window :
  forall (x_sat x_sat_hg : array2) (t_sec : array1) (w : Z),
    let n := length t_sec in
    let k := n - 2 * Z.to_nat w in
    (1 <= w)%Z -> (2 * w <= Z.of_nat n)%Z ->
    x_sat <> [] -> Forall (fun r => length r = n) x_sat ->
    (slice t_sec w (- w) = firstn k (skipn (Z.to_nat w) t_sec)
     /\ length (slice t_sec w (- w)) = k)
    /\ Forall (fun r => length r = k) (cols_slice x_sat w (- w))
    /\ (nrows x_sat_hg = nrows x_sat ->
        Forall (fun r => length r = k) x_sat_hg ->
        exists diff,
          hg_diff x_sat x_sat_hg w = Ok diff
          /\ nrows diff = nrows x_sat
          /\ Forall (fun r => length r = k) diff
          /\ forall r j, r < nrows x_sat -> j < k ->
               nth j (nth r diff []) 0%float
               = PrimFloat.sub (nth (Z.to_nat w + j) (nth r x_sat []) 0%float)
                               (nth j (nth r x_sat_hg []) 0%float))
    /\ (nrows x_sat_hg = nrows x_sat ->
        Forall (fun r => length r = 1) x_sat_hg ->
        exists diff,
          hg_diff x_sat x_sat_hg w = Ok diff
          /\ nrows diff = nrows x_sat
          /\ Forall (fun r => length r = k) diff
          /\ forall r j, r < nrows x_sat -> j < k ->
               nth j (nth r diff []) 0%float
               = PrimFloat.sub (nth (Z.to_nat w + j) (nth r x_sat []) 0%float)
                               (nth 0 (nth r x_sat_hg []) 0%float))
    /\ (k = 1 ->
        forall c,
          nrows x_sat_hg = nrows x_sat ->
          Forall (fun r => length r = c) x_sat_hg ->
          exists diff,
            hg_diff x_sat x_sat_hg w = Ok diff
            /\ nrows diff = nrows x_sat
            /\ Forall (fun r => length r = c) diff
            /\ forall r j, r < nrows x_sat -> j < c ->
                 nth j (nth r diff []) 0%float
                 = PrimFloat.sub (nth (Z.to_nat w) (nth r x_sat []) 0%float)
                                 (nth j (nth r x_sat_hg []) 0%float))
    /\ ((exists diff, hg_diff x_sat x_sat_hg w = Ok diff)
        <-> (nrows x_sat = nrows x_sat_hg
             \/ nrows x_sat = 1 \/ nrows x_sat_hg = 1)
            /\ (k = ncols x_sat_hg \/ k = 1 \/ ncols x_sat_hg = 1)).
Proof.
  intros x_sat x_sat_hg t_sec w n k Hw Hn Hne Hrows.
  assert (Hsl : Forall (fun r => length r = k) (cols_slice x_sat w (- w))).
  { unfold cols_slice. apply Forall_map.
    eapply Forall_impl; [|exact Hrows]. cbv beta. intros r Hr.
    rewrite slice_trim_length by (rewrite ?Hr; assumption).
    now rewrite Hr. }
  assert (Hnc : ncols (cols_slice x_sat w (- w)) = k).
  { apply ncols_cols_slice; assumption. }
  assert (Hnr : nrows (cols_slice x_sat w (- w)) = nrows x_sat).
  { unfold nrows, cols_slice. now rewrite length_map. }
  assert (Hpos : nrows x_sat <> 0).
  { unfold nrows. destruct x_sat; [congruence | discriminate]. }
  assert (Hrow : forall r, r < nrows x_sat -> length (nth r x_sat []) = n).
  { intros r Hr. apply Forall_nth_length; assumption. }
  assert (Hget : forall r j, r < nrows x_sat -> j < k ->
            nth j (nth r (cols_slice x_sat w (- w)) []) 0%float
            = nth (Z.to_nat w + j) (nth r x_sat []) 0%float).
  { intros r j Hr Hj. unfold cols_slice.
    rewrite (nth_map_lt _ x_sat r [] []) by exact Hr.
    apply slice_trim_nth; rewrite ?(Hrow r Hr); assumption. }
  assert (Hlen : forall r, r < nrows x_sat ->
            length (nth r (cols_slice x_sat w (- w)) []) = k).
  { intros r Hr. apply Forall_nth_length; [exact Hsl|].
    unfold nrows in Hnr. now rewrite Hnr. }
  split; [split; [now apply slice_trim | now apply slice_trim_length]|].
  split; [exact Hsl|].
  split; [|split; [|split]].
  - intros Hsame Hhg.
    destruct (sub2_columns (cols_slice x_sat w (- w)) x_sat_hg
                (nrows x_sat) k k k Hnr Hsame Hpos Hsl Hhg (bcast_same k))
      as (diff & Hd & Hdr & Hdc & Hent).
    exists diff. split; [exact Hd|]. split; [exact Hdr|].
    split; [exact Hdc|]. intros r j Hr Hj.
    rewrite (Hent r j Hr Hj).
    rewrite bget_lt by (rewrite (Hlen r Hr); exact Hj).
    rewrite bget_lt
      by (rewrite (Forall_nth_length _ _ _ Hhg)
            by (unfold nrows in Hsame; now rewrite Hsame);
          exact Hj).
    now rewrite Hget.
  - intros Hsame Hhg.
    destruct (sub2_columns (cols_slice x_sat w (- w)) x_sat_hg
                (nrows x_sat) k 1 k Hnr Hsame Hpos Hsl Hhg (bcast_one_r k))
      as (diff & Hd & Hdr & Hdc & Hent).
    exists diff. split; [exact Hd|]. split; [exact Hdr|].
    split; [exact Hdc|]. intros r j Hr Hj.
    rewrite (Hent r j Hr Hj).
    rewrite bget_lt by (rewrite (Hlen r Hr); exact Hj).
    rewrite bget_single
      by (apply (Forall_nth_length _ _ _ Hhg);
          unfold nrows in Hsame; now rewrite Hsame).
    now rewrite Hget.
  - intros Hk c Hsame Hhg.
    assert (Hsl1 : Forall (fun r => length r = 1) (cols_slice x_sat w (- w)))
      by (rewrite <- Hk; exact Hsl).
    destruct (sub2_columns (cols_slice x_sat w (- w)) x_sat_hg
                (nrows x_sat) 1 c c Hnr Hsame Hpos Hsl1 Hhg (bcast_one_l c))
      as (diff & Hd & Hdr & Hdc & Hent).
    exists diff. split; [exact Hd|]. split; [exact Hdr|].
    split; [exact Hdc|]. intros r j Hr Hj.
    rewrite (Hent r j Hr Hj).
    rewrite bget_single by (rewrite (Hlen r Hr); exact Hk).
    rewrite bget_lt
      by (rewrite (Forall_nth_length _ _ _ Hhg)
            by (unfold nrows in Hsame; now rewrite Hsame);
          exact Hj).
    rewrite Hget by (try exact Hr; lia).
    now rewrite Nat.add_0_r.
  - unfold hg_diff, sub2. rewrite Hnr, Hnc.
    rewrite <- (bcast_defined (nrows x_sat) (nrows x_sat_hg)).
    rewrite <- (bcast_defined k (ncols x_sat_hg)).
    destruct (bcast (nrows x_sat) (nrows x_sat_hg)) as [r|];
      destruct (bcast k (ncols x_sat_hg)) as [c|].
    + split; [intros _; split; eauto | intros _; eauto].
    + split; [intros [d Hd]; discriminate | intros [_ [c Hc]]; discriminate].
    + split; [intros [d Hd]; discriminate | intros [[r Hr] _]; discriminate].
    + split; [intros [d Hd]; discriminate | intros [[r Hr] _]; discriminate].
Qed.

(** An estimate of a single column is broadcast against the three
    trimmed samples, and the figure is drawn; and with [w = 0] the slice
    [[0:-0]] is empty, so that an estimate of all [n] samples is
    rejected. *)
Lemma single_column_estimate_broadcasts :
  ~ diff_defined_only_when_trimmed sample_track sample_hg1 1
  /\ outcome (plot_tdoa_hg_errors sample_track sample_t_sec sample_hg1 1)
     = Ok (Fig (14, 7)%Z)
  /\ slice sample_t_sec 0 (- 0) = []
  /\ hg_diff sample_track sample_track 0 = Raise ValueError.
Proof.
  split.
  - intros H.
    destruct (hg_diff sample_track sample_hg1 1) as [d|] eqn:E;
      [|vm_compute in E; discriminate].
    specialize (H d E). vm_compute in H. discriminate.
  - split; [vm_compute; reflexivity|].
    split; vm_compute; reflexivity.
Qed.

Lemma hg_errors_trimmed_window_witness :
  slice sample_t_sec 1 (- 1) = [1; 2; 3]%float
  /\ (exists diff, hg_diff sample_track sample_hg3 1 = Ok diff
                   /\ Forall (fun r => length r = 3) diff)
  /\ (exists diff, hg_diff sample_track sample_hg1 1 = Ok diff
                   /\ Forall (fun r => length r = 3) diff).
Proof.
  assert (Hw : (1 <= 1)%Z) by lia.
  assert (Hn : (2 * 1 <= Z.of_nat (length sample_t_sec))%Z) by (simpl; lia).
  assert (Hne : sample_track <> []) by discriminate.
  assert (Hrows : Forall (fun r => length r = length sample_t_sec) sample_track)
    by (repeat constructor).
  destruct (hg_errors_trimmed_window sample_track sample_hg3 sample_t_sec 1
              Hw Hn Hne Hrows) as [[Hs _] [_ [Hd _]]].
  destruct (hg_errors_trimmed_window sample_track sample_hg1 sample_t_sec 1
              Hw Hn Hne Hrows) as [_ [_ [_ [Hone _]]]].
  split; [etransitivity; [exact Hs | reflexivity]|].
  split.
  - destruct Hd as (diff & Hdiff & _ & Hlen & _);
      [reflexivity | repeat constructor |].
    exists diff. split; [exact Hdiff | exact Hlen].
  - destruct Hone as (diff & Hdiff & _ & Hlen & _);
      [reflexivity | repeat constructor |].
    exists diff. split; [exact Hdiff | exact Hlen].
Defined.

(** ** Computations that issue no call *)

Lemma silent_ret {A} (a : A) : silent (ret a).
Proof. reflexivity. Qed.

Lemma silent_lift {A} (r : result A) : silent (lift r).
Proof. reflexivity. Qed.

Lemma silent_bind {A B} (m : M A) (k : A -> M B) :
  silent m -> (forall a, silent (k a)) -> silent (bind m k).
Proof.
  unfold silent, trace. destruct m as [t [a|e]]; simpl; intros -> Hk.
  - specialize (Hk a). destruct (k a) as [t' r]. simpl in *. now subst.
  - reflexivity.
Qed.

Lemma silent_fold_each {A S} (body : A -> S -> M S) (l : list A) (s : S) :
  (forall i s, silent (body i s)) -> silent (fold_each l body s).
Proof.
  intros Hb. revert s. induction l as [|i l IH]; intros s; cbn [fold_each].
  - apply silent_ret.
  - apply silent_bind; [apply Hb | exact IH].
Qed.

Create HintDb silent.
#[local] Hint Resolve silent_ret silent_lift silent_bind silent_fold_each : silent.

Lemma outcome_ok {A} (m : M A) (a : A) :
  outcome m = Ok a -> m = (trace m, Ok a).
Proof. destruct m as [t r]. simpl. now intros ->. Qed.

Lemma silent_ok {A} (m : M A) (t : list call) (a : A) :
  silent m -> m = (t, Ok a) -> t = [].
Proof. unfold silent. intros H ->. exact H. Qed.

(** ** The pipeline of [mainf] *)

Section Pipeline.

Context {C : Collaborators}.

Lemma estimate_silent (datafile : string) (window : Z) :
  silent (estimate datafile window).
Proof. unfold estimate. repeat (apply silent_bind; [apply silent_lift | intros]). apply silent_ret. Qed.

Lemma propagate_step_silent (ti h : float) (i : nat) (s : loop_vars) :
  silent (propagate_step ti h i s).
Proof.
  unfold propagate_step.
  apply silent_bind; [apply silent_lift | intros [xout x']].
  repeat (apply silent_bind; [apply silent_lift | intros]). apply silent_ret.
Qed.

Lemma propagate_silent (kep_final : array2) : silent (propagate kep_final).
Proof.
  unfold propagate. apply silent_bind; [apply silent_lift | intros state].
  apply silent_fold_each. intros. apply propagate_step_silent.
Qed.

Lemma norms_silent (keep_state : array2) : silent (norms keep_state).
Proof.
  unfold norms. apply silent_fold_each. intros i [r v].
  repeat (apply silent_bind; [apply silent_lift | intros]). apply silent_ret.
Qed.

(** The stages of lines 37-43, each applied to the result of the one
    before. *)
Lemma estimate_ok (datafile : string) (window : Z)
      (my_data my_data_filt kep_final : array2) (t : list call) :
  estimate datafile window = (t, Ok (my_data, my_data_filt, kep_final)) ->
  exists raw kep kal,
    load_data datafile = Ok raw
    /\ generate_filtered_data raw 3 = Ok my_data
    /\ golay my_data window = Ok my_data_filt
    /\ create_kep my_data_filt = Ok kep
    /\ kalman kep = Ok kal
    /\ kep_final = transpose kal.
Proof.
  unfold estimate. intros H.
  do 5 bind_step H.
  inversion H; subst. eauto 10.
Qed.

(** A run of [mainf] that returns has gone through its four parts. *)
Lemma mainf_ok (datafile : string) (window : Z) (t : list call)
      (kep_final : array2) :
  mainf datafile window = (t, Ok kep_final) ->
  exists my_data my_data_filt s t_report t_render,
    estimate datafile window = ([], Ok (my_data, my_data_filt, kep_final))
    /\ propagate kep_final = ([], Ok s)
    /\ report my_data my_data_filt kep_final = (t_report, Ok tt)
    /\ render my_data my_data_filt (keep_state s) (t_hold s) = (t_render, Ok tt)
    /\ t = t_report ++ t_render.
Proof.
  unfold mainf. intros H.
  apply bind_ok in H as (t1 & [[my_data my_data_filt] k] & t2 & He & H & ->).
  apply bind_ok in H as (t3 & s & t4 & Hp & H & ->).
  apply bind_ok in H as (t5 & [] & t6 & Hrep & H & ->).
  apply bind_ok in H as (t7 & [] & t8 & Hren & H & ->).
  inversion H; subst.
  pose proof (silent_ok _ _ _ (estimate_silent _ _) He) as ->.
  pose proof (silent_ok _ _ _ (propagate_silent _) Hp) as ->.
  exists my_data, my_data_filt, s, t5, t7.
  repeat split; try assumption.
  now rewrite app_nil_r.
Qed.

(** C1. The elements [mainf] returns are the transposed result of
    [kalman], applied to the result of [create_kep], applied to the
    track that [golay] returns for the window; [golay] is applied to the
    result of the triple moving average of the loaded data. The raw
    track enters only through these stages. *)
Theorem mainf_estimate_from_filtered_track :
  forall (datafile : string) (window : Z) (kep_final : array2),
    outcome (mainf datafile window) = Ok kep_final ->
    exists raw my_data my_data_filt kep kal,
      load_data datafile = Ok raw
      /\ generate_filtered_data raw 3 = Ok my_data
      /\ golay my_data window = Ok my_data_filt
      /\ create_kep my_data_filt = Ok kep
      /\ kalman kep = Ok kal
      /\ kep_final = transpose kal.
Proof.
  intros datafile window kep_final H.
  apply outcome_ok, mainf_ok in H
    as (my_data & my_data_filt & s & t1 & t2 & He & _).
  apply estimate_ok in He as (raw & kep & kal & H1 & H2 & H3 & H4 & H5 & H6).
  exists raw, my_data, my_data_filt, kep, kal. auto 10.
Qed.

End Pipeline.

(** ** A small instance of the pipeline *)

Lemma mainf_estimate_from_filtered_track_witness :
  exists raw my_data my_data_filt kep kal,
    @load_data sample_collaborators "orbit.csv" = Ok raw
    /\ @generate_filtered_data sample_collaborators raw 3 = Ok my_data
    /\ @golay sample_collaborators my_data 5 = Ok my_data_filt
    /\ @create_kep sample_collaborators my_data_filt = Ok kep
    /\ @kalman sample_collaborators kep = Ok kal
    /\ sample_kep_final = transpose kal.
Proof.
  apply (@mainf_estimate_from_filtered_track sample_collaborators "orbit.csv" 5).
  vm_compute. reflexivity.
Defined.

(** ** Printing and rendering in [mainf] *)

Section Rendering.

Context {C : Collaborators}.

Ltac render_step H :=
  let t1 := fresh "t" in
  let a := fresh "a" in
  let t2 := fresh "t" in
  let Hm := fresh "Hm" in
  apply bind_ok in H as (t1 & a & t2 & Hm & H & ->);
  first [ apply lift_ok in Hm as [Hm ->]
        | (cbv in Hm; inversion Hm; subst; clear Hm) ].

Lemma render_callees_ok (my_data my_data_filt keep_state t_hold : array2)
      (t : list call) (u : unit) :
  render my_data my_data_filt keep_state t_hold = (t, Ok u) ->
  map fn t = render_callees.
Proof.
  unfold render, io, invoke. intros H. cbv zeta in H.
  do 21 render_step H.
  apply bind_ok in H as (tn & [r v] & tr & Hn & H & ->).
  apply (silent_ok _ _ _ (norms_silent _)) in Hn. subst tn.
  do 11 render_step H.
  inversion H; subst. reflexivity.
Qed.

Lemma report_ok (my_data my_data_filt kep_final : array2)
      (t : list call) (u : unit) :
  report my_data my_data_filt kep_final = (t, Ok u) ->
  exists t', t = t' ++ [elements_table kep_final]
             /\ map fn t' = ["print"; "print"; "print"; "print"; "print"].
Proof.
  unfold report, io, invoke. intros H. cbv zeta in H.
  do 9 render_step H.
  inversion H; subst. cbn [app].
  match goal with
  | |- exists t', [?c1; ?c2; ?c3; ?c4; ?c5; _] = _ /\ _ =>
      exists [c1; c2; c3; c4; c5]
  end.
  split; reflexivity.
Qed.

End Rendering.

(** The exception of a rendering call ends [mainf]: the elements have
    been computed and printed, and are not returned. *)
Lemma rendering_failure_loses_estimate :
  outcome (@mainf sample_collaborators "orbit.csv" 5) = Ok sample_kep_final
  /\ outcome (run gca_raises (@mainf sample_collaborators "orbit.csv" 5))
     = Raise TypeError
  /\ In (elements_table sample_kep_final)
        (trace (run gca_raises (@mainf sample_collaborators "orbit.csv" 5)))
  /\ ~ @delivered_whatever_rendering_does sample_collaborators gca_raises
        "orbit.csv" 5.
Proof.
  assert (H1 : outcome (@mainf sample_collaborators "orbit.csv" 5)
               = Ok sample_kep_final) by (vm_compute; reflexivity).
  assert (H2 : outcome (run gca_raises (@mainf sample_collaborators "orbit.csv" 5))
               = Raise TypeError) by (vm_compute; reflexivity).
  split; [exact H1|]. split; [exact H2|]. split.
  - vm_compute. do 5 right. left. reflexivity.
  - intros H. specialize (H _ H1).
    pose proof (eq_trans (eq_sym H) H2) as Habs. discriminate Habs.
Qed.

(** C2, as amended. [mainf] returns its estimate exactly when its own
    computation reaches the return statement and every call it has
    issued on the way has completed. These calls are the six [print]
    calls of the report followed by the twenty-four rendering calls of
    the two figures, so an exception raised by any of them, the
    rendering calls included, ends [mainf] without a returned
    estimate. *)
Theorem mainf_returns_when_every_call_completes :
  forall (C : Collaborators) (backend : call -> option exn)
         (datafile : string) (window : Z) (kep_final : array2),
    (outcome (run backend (mainf datafile window)) = Ok kep_final <->
     outcome (mainf datafile window) = Ok kep_final
     /\ Forall (fun c => backend c = None) (trace (mainf datafile window)))
    /\ (outcome (mainf datafile window) = Ok kep_final ->
        exists t_report t_render,
          trace (mainf datafile window) = t_report ++ t_render
          /\ map fn t_report = repeat "print" 6
          /\ map fn t_render = render_callees).
Proof.
  intros C backend datafile window kep_final.
  split; [apply run_ok_iff|].
  intros H. apply outcome_ok in H.
  destruct (mainf_ok _ _ _ _ H)
    as (my_data & my_data_filt & s & t1 & t2 & _ & _ & Hrep & Hren & Ht).
  exists t1, t2. split; [exact Ht|]. split.
  - apply report_ok in Hrep as (t' & -> & Ht').
    rewrite map_app, Ht'. reflexivity.
  - now apply render_callees_ok in Hren.
Qed.

Lemma mainf_returns_when_every_call_completes_witness :
  outcome (run completes (@mainf sample_collaborators "orbit.csv" 5))
  = Ok sample_kep_final
  /\ exists t_report t_render,
      trace (@mainf sample_collaborators "orbit.csv" 5) = t_report ++ t_render
      /\ map fn t_report = repeat "print" 6
      /\ map fn t_render = render_callees.
Proof.
  destruct (mainf_returns_when_every_call_completes
              sample_collaborators completes "orbit.csv" 5 sample_kep_final)
    as [[_ Hrun] Hcalls].
  split.
  - apply Hrun. split; [vm_compute; reflexivity|].
    apply Forall_forall. reflexivity.
  - apply Hcalls. vm_compute. reflexivity.
Defined.

(** ** The documented format of the result *)

(** C5. When [kalman] returns the six elements as one row, a run of
    [mainf] that returns yields them as six rows of one entry in the
    same order; it has printed this very array under the row labels
    semi-major axis (km), eccentricity (float number), inclination,
    argument of perigee, right ascension of the ascending node and true
    anomaly (degrees); and the docstring of [mainf] gives the same unit
    for each row. *)
Theorem mainf_returns_labelled_elements :
  forall (C : Collaborators) (datafile : string) (window : Z)
         (kep_final : array2),
    (forall kep kal, kalman kep = Ok kal ->
                     exists a e i w W v, kal = [[a; e; i; w; W; v]]) ->
    outcome (mainf datafile window) = Ok kep_final ->
    (exists kep a e i w W v,
        kalman kep = Ok [[a; e; i; w; W; v]]
        /\ kep_final = [[a]; [e]; [i]; [w]; [W]; [v]])
    /\ In (elements_table kep_final) (trace (mainf datafile window))
    /\ df2_index
       = ["Semi major axis (km)"; "Eccentricity (float number)";
          "Inclination (degrees)"; "Argument of perigee (degrees)";
          "Right ascension of the ascending node (degrees)";
          "True anomally (degrees)"]
    /\ map (fun l => unit_named (unit_of_label l)) df2_index
       = [Some Km; Some FloatNumber; Some Degrees; Some Degrees; Some Degrees;
          Some Degrees]
    /\ map (fun p => unit_named (snd p)) docstring_format
       = map (fun l => unit_named (unit_of_label l)) df2_index.
Proof.
  intros C datafile window kep_final Hsix H.
  apply outcome_ok in H.
  destruct (mainf_ok _ _ _ _ H)
    as (my_data & my_data_filt & s & t1 & t2 & He & _ & Hrep & _ & Ht).
  split; [|split; [|repeat split]].
  - apply estimate_ok in He as (raw & kep & kal & _ & _ & _ & _ & Hk & ->).
    destruct (Hsix _ _ Hk) as (a & e & i & w & W & v & ->).
    exists kep, a, e, i, w, W, v. split; [exact Hk | reflexivity].
  - apply (f_equal fst) in H. simpl in H. unfold trace. rewrite H, Ht.
    apply report_ok in Hrep as (t' & -> & _).
    apply in_or_app. left. apply in_or_app. right. left. reflexivity.
Qed.

Lemma mainf_returns_labelled_elements_witness :
  exists kep a e i w W v,
    @kalman sample_collaborators kep = Ok [[a; e; i; w; W; v]]
    /\ sample_kep_final = [[a]; [e]; [i]; [w]; [W]; [v]].
Proof.
  refine (proj1 (mainf_returns_labelled_elements
                   sample_collaborators "orbit.csv" 5 sample_kep_final _ _)).
  - intros kep kal [= <-].
    destruct (hd [] kep) as [|a [|e [|i [|w [|W [|v r]]]]]]; simpl; eauto 10.
  - vm_compute. reflexivity.
Defined.

(** ** The propagation loop *)

Lemma epochs_listed :
  map epoch (seq 0 20)
  = [100; 200; 300; 400; 500; 600; 700; 800; 900; 1000; 1100; 1200; 1300;
     1400; 1500; 1600; 1700; 1800; 1900; 2000]%float.
Proof. reflexivity. Qed.

Lemma epoch_next (i : nat) :
  i < 20 -> PrimFloat.add (epoch i) 100%float = epoch (S i).
Proof.
  intros H. do 20 (destruct i as [|i]; [reflexivity|]). lia.
Qed.

Lemma epoch_increasing (i : nat) :
  i < 19 -> PrimFloat.ltb (epoch i) (epoch (S i)) = true.
Proof.
  intros H. do 19 (destruct i as [|i]; [reflexivity|]). lia.
Qed.

Lemma length_set_nth {A} (i : nat) (l : list A) (x : A) :
  length (set_nth i l x) = length l.
Proof.
  revert i. induction l as [|y l IH]; intros [|i]; simpl; auto.
Qed.

Lemma nth_set_nth_eq {A} (i : nat) (l : list A) (x d : A) :
  i < length l -> nth i (set_nth i l x) d = x.
Proof.
  revert i. induction l as [|y l IH]; intros [|i] H; simpl in *; try lia; auto.
  apply IH. lia.
Qed.

Lemma nth_set_nth_neq {A} (i j : nat) (l : list A) (x d : A) :
  i <> j -> nth j (set_nth i l x) d = nth j l d.
Proof.
  revert i j. induction l as [|y l IH]; intros [|i] [|j] H; simpl; auto; try lia.
Qed.

Lemma set_col_ok (a a' : array2) (c : nat) (v : array1) :
  set_col a c v = Ok a' ->
  length a' = length a
  /\ forall r, r < length a ->
       nth r a' [] = set_nth c (nth r a []) (bget 0%float v r).
Proof.
  unfold set_col.
  destruct (Nat.ltb c (ncols a)); [|discriminate].
  destruct (Nat.eqb (length v) (nrows a) || Nat.eqb (length v) 1);
    [|discriminate].
  intros [= <-]. unfold nrows. split.
  - now rewrite length_map, length_seq.
  - intros r Hr. now rewrite nth_map_seq.
Qed.

Lemma set_item2_ok (a a' : array2) (r c : nat) (x : float) :
  set_item2 a r c x = Ok a' ->
  a' = set_nth r a (set_nth c (nth r a []) x)
  /\ r < length a /\ c < length (nth r a []).
Proof.
  unfold set_item2, item2.
  destruct (item a r) as [v|] eqn:Ev; [|discriminate].
  destruct (item v c) as [y|] eqn:Ey; [|discriminate].
  intros [= <-].
  apply item_ok with (d := []) in Ev as [Ev Hr].
  apply item_ok with (d := 0%float) in Ey as [_ Hc].
  subst v. auto.
Qed.

Lemma set_col_sizes (a a' : array2) (c : nat) (v : array1) :
  set_col a c v = Ok a' -> length v = length a \/ length v = 1.
Proof.
  unfold set_col.
  destruct (Nat.ltb c (ncols a)); [|discriminate].
  destruct (Nat.eqb_spec (length v) (nrows a)); [now left|].
  destruct (Nat.eqb_spec (length v) 1); [now right | discriminate].
Qed.

Section Propagation.

Context {C : Collaborators}.

Lemma history_start (state : array2) :
  history_upto state 0 (Vars (zeros 6 20) (zeros 20 1) 100%float state).
Proof.
  unfold history_upto. cbn [tf x keep_state t_hold x_before].
  repeat split; try (repeat constructor); intros i Hi; lia.
Qed.

Lemma history_step (state : array2) (j : nat) (s s' : loop_vars)
      (t : list call) :
  history_upto state j s -> j < 20 ->
  propagate_step 0%float 1%float j s = (t, Ok s') ->
  history_upto state (S j) s'.
Proof.
  intros (Htf & Hx & Hks & Hrows & Hth & Hone & Hcols & Hep) Hj H.
  unfold propagate_step in H.
  apply bind_ok in H as (t1 & [xout x'] & t2 & Hout & H & ->).
  apply lift_ok in Hout as [Hout ->].
  apply bind_ok in H as (t3 & ks' & t4 & Hset & H & ->).
  apply lift_ok in Hset as [Hset ->].
  apply bind_ok in H as (t5 & th' & t6 & Hit & H & ->).
  apply lift_ok in Hit as [Hit ->].
  inversion H; subst s'; clear H.
  rewrite Htf, Hx in Hout.
  assert (Hnext : x_before state (S j) = x').
  { cbn [x_before]. now rewrite Hout. }
  pose proof (set_col_sizes _ _ _ _ Hset) as Hsize.
  unfold ravel in Hset, Hsize.
  apply set_col_ok in Hset as [Hlen Hrow].
  apply set_item2_ok in Hit as (-> & Hjth & _).
  rewrite Hks in Hrow, Hsize. rewrite Htf.
  assert (Hrow20 : forall r, r < 6 -> length (nth r (keep_state s) []) = 20).
  { intros r Hr. rewrite Forall_forall in Hrows. apply Hrows, nth_In. lia. }
  assert (Hrow1 : forall r, r < 20 -> length (nth r (t_hold s) []) = 1).
  { intros r Hr. rewrite Forall_forall in Hone. apply Hone, nth_In. lia. }
  unfold history_upto. cbn [tf x keep_state t_hold].
  split; [now apply epoch_next|].
  split; [now rewrite Hnext|].
  split; [lia|].
  split.
  { apply Forall_nth. intros r d Hr. rewrite Hlen, Hks in Hr.
    rewrite (nth_indep _ d []) by lia.
    rewrite Hrow, length_set_nth by assumption. now apply Hrow20. }
  split; [now rewrite length_set_nth|].
  split.
  { apply Forall_nth. intros r d Hr. rewrite length_set_nth in Hr.
    rewrite (nth_indep _ d []) by now rewrite length_set_nth.
    destruct (Nat.eq_dec r j) as [->|Hne].
    - rewrite nth_set_nth_eq, length_set_nth by lia. apply Hrow1. lia.
    - rewrite nth_set_nth_neq by congruence. apply Hrow1. lia. }
  split.
  - intros i Hi. destruct (Nat.eq_dec i j) as [->|Hne].
    + exists xout. rewrite Hnext. split; [exact Hout|].
      split; [exact Hsize|]. intros r Hr.
      rewrite Hrow by assumption.
      apply nth_set_nth_eq. rewrite Hrow20; assumption.
    + destruct (Hcols i) as (out & Hrk & Hsz & Hent); [lia|].
      exists out. split; [exact Hrk|]. split; [exact Hsz|]. intros r Hr.
      rewrite Hrow by assumption.
      rewrite nth_set_nth_neq by congruence. now apply Hent.
  - intros i Hi. destruct (Nat.eq_dec i j) as [->|Hne].
    + rewrite nth_set_nth_eq by lia.
      specialize (Hrow1 j Hj).
      destruct (nth j (t_hold s) []) as [|y [|z l]]; try discriminate.
      reflexivity.
    + rewrite nth_set_nth_neq by congruence. apply Hep. lia.
Qed.

Lemma history_loop (state : array2) (n j : nat) (s s' : loop_vars)
      (t : list call) :
  history_upto state j s -> j + n <= 20 ->
  fold_each (seq j n) (propagate_step 0%float 1%float) s = (t, Ok s') ->
  history_upto state (j + n) s'.
Proof.
  revert j s t. induction n as [|n IH]; intros j s t Hinv Hle H;
    cbn [seq fold_each] in H.
  - inversion H; subst. now rewrite Nat.add_0_r.
  - apply bind_ok in H as (t1 & s1 & t2 & Hstep & Hrest & ->).
    replace (j + S n) with (S j + n) by lia.
    apply (IH (S j) s1 t2); [|lia|exact Hrest].
    apply (history_step state j s s1 t1); [assumption | lia | assumption].
Qed.

(** When [rkf78] leaves the array it is given as it found it, [x]
    holds the initial state before every pass. *)
Lemma x_before_kept (state : array2) :
  (forall n ti tf h tol x out x',
      rkf78 n ti tf h tol x = Ok (out, x') -> x' = x) ->
  forall i, x_before state i = state.
Proof.
  intros Hkeeps i. induction i as [|i IH]; cbn [x_before]; [reflexivity|].
  rewrite IH.
  destruct (rkf78 6 0%float (epoch i) 1%float tetol state)
    as [[out x']|e] eqn:E; [|reflexivity].
  now apply Hkeeps in E.
Qed.

End Propagation.

Lemma map_nth_seq {A B} (f : A -> B) (l : list A) (d : A) :
  map f l = map (fun i => f (nth i l d)) (seq 0 (length l)).
Proof.
  apply nth_ext with (d := f d) (d' := f d).
  - now rewrite !length_map, length_seq.
  - intros i Hi. rewrite length_map in Hi.
    rewrite map_nth, nth_map_seq by assumption. reflexivity.
Qed.

Lemma column_holds_entries (col : array1) (out : array2) :
  length col = 6 ->
  length (concat out) = 6 \/ length (concat out) = 1 ->
  (forall r, r < 6 -> nth r col 0%float = bget 0%float (concat out) r) ->
  column_holds col out.
Proof.
  intros Hcol Hsize Hent. destruct Hsize as [H6 | H1].
  - left. split; [exact H6|].
    apply nth_ext with (d := 0%float) (d' := 0%float); [congruence|].
    intros r Hr. rewrite Hent by lia. apply bget_lt. lia.
  - right. destruct (concat out) as [|v [|w l]] eqn:E; try discriminate.
    exists v. split; [reflexivity|].
    apply nth_ext with (d := 0%float) (d' := 0%float);
      [now rewrite repeat_length|].
    intros r Hr. rewrite Hent by lia.
    rewrite nth_repeat_lt by lia. reflexivity.
Qed.

(** With a propagator that advances its argument in place, the second
    column of the history is the propagation of the state the first
    pass left, not of the state [Kep_state] returned. *)
Lemma advancing_propagator_drifts :
  outcome (@propagate advancing_collaborators sample_kep_final)
  = Ok advancing_history
  /\ ~ @propagated_from_initial_state advancing_collaborators
        sample_kep_final advancing_history.
Proof.
  split; [vm_compute; reflexivity|].
  intros (state & Hst & H).
  injection Hst as <-.
  destruct (H 1) as (out & x' & Hcall & Hcol); [lia|].
  injection Hcall as <- _.
  apply (f_equal (fun l => PrimFloat.eqb (nth 0 l 0%float)
                             (nth 0 (column (keep_state advancing_history) 1)
                                  0%float))) in Hcol.
  vm_compute in Hcol. discriminate.
Qed.

(** C9, as amended. The loop of [mainf] makes twenty calls of [rkf78],
    pass [i] from time 0 to the epoch [100 (i + 1)] with step 1 and
    tolerance [1e-04], each on the one array [x] that [Kep_state]
    returned and that [mainf] never binds again, so that pass [i] sees
    what the passes before have left in it. Column [i] of [keep_state]
    holds the six numbers that pass [i] returned (or its single number
    six times). When [rkf78] leaves its argument as it found it, every
    pass starts from the state [Kep_state] returned. [t_hold] holds
    the twenty epochs 100, 200, ..., 2000, each smaller than the
    next. *)
Theorem propagate_twenty_calls :
  forall (C : Collaborators) (kep_final : array2) (s : loop_vars),
    outcome (propagate kep_final) = Ok s ->
    exists state,
      Kep_state kep_final = Ok state
      /\ nrows (keep_state s) = 6
      /\ Forall (fun r => length r = 20) (keep_state s)
      /\ (forall i, i < 20 ->
            exists out,
              rkf78 6 0%float (epoch i) 1%float tetol (x_before state i)
              = Ok (out, x_before state (S i))
              /\ column_holds (column (keep_state s) i) out)
      /\ x s = x_before state 20
      /\ ((forall n ti tf h tol x out x',
              rkf78 n ti tf h tol x = Ok (out, x') -> x' = x) ->
          forall i, x_before state i = state)
      /\ t_hold s = map (fun i => [epoch i]) (seq 0 20)
      /\ map epoch (seq 0 20)
         = [100; 200; 300; 400; 500; 600; 700; 800; 900; 1000; 1100; 1200;
            1300; 1400; 1500; 1600; 1700; 1800; 1900; 2000]%float
      /\ (forall i, i < 19 -> PrimFloat.ltb (epoch i) (epoch (S i)) = true).
Proof.
  intros C kep_final s H.
  apply outcome_ok in H. unfold propagate in H.
  apply bind_ok in H as (t1 & state & t2 & Hst & H & _).
  apply lift_ok in Hst as [Hst _].
  unfold fold_range in H.
  apply (history_loop state 20 0) in H; [| apply history_start | lia].
  destruct H as (_ & Hx & Hks & Hrows & Hth & Hone & Hcols & Hep).
  exists state.
  split; [exact Hst|]. split; [exact Hks|]. split; [exact Hrows|].
  split; [|split; [exact Hx|split; [apply x_before_kept|split; [|split]]]].
  - intros i Hi. destruct (Hcols i Hi) as (out & Hrk & Hsz & Hent).
    exists out. split; [exact Hrk|].
    apply column_holds_entries; [| exact Hsz |].
    + unfold column. now rewrite length_map.
    + intros r Hr. unfold column.
      rewrite (nth_map_lt _ (keep_state s) r [] 0%float) by lia.
      now apply Hent.
  - apply nth_ext with (d := []) (d' := []).
    + now rewrite length_map, length_seq.
    + intros i Hi. rewrite Hth in Hi.
      rewrite nth_map_seq by assumption. now apply Hep.
  - apply epochs_listed.
  - apply epoch_increasing.
Qed.

Lemma propagate_twenty_calls_witness :
  outcome (@propagate sample_collaborators sample_kep_final)
  = Ok sample_history
  /\ exists state,
       @Kep_state sample_collaborators sample_kep_final = Ok state
       /\ column (keep_state sample_history) 3 = concat state
       /\ x sample_history = state
       /\ t_hold sample_history = map (fun i => [epoch i]) (seq 0 20).
Proof.
  assert (E : outcome (@propagate sample_collaborators sample_kep_final)
              = Ok sample_history) by (vm_compute; reflexivity).
  split; [exact E|].
  destruct (propagate_twenty_calls sample_collaborators sample_kep_final
              sample_history E)
    as (state & Hst & _ & _ & Hcols & Hx & Hkept & Hth & _).
  assert (Hsame : forall i, @x_before sample_collaborators state i = state).
  { apply Hkept. intros n ti tf h tol x out x' [= _ <-]. reflexivity. }
  exists state. split; [exact Hst|].
  split; [|split; [now rewrite Hx, Hsame | exact Hth]].
  destruct (Hcols 3) as (out & Hcall & Hcol); [lia|].
  rewrite !Hsame in Hcall. cbv [rkf78 sample_collaborators] in Hcall.
  injection Hcall as <-.
  destruct Hcol as [[_ Hcol] | (v & Hv & _)]; [exact Hcol|].
  cbv [Kep_state sample_collaborators] in Hst. injection Hst as <-.
  vm_compute in Hv. discriminate.
Defined.

(** ** The Smoother in the pipeline *)

Lemma list_as_map_nth {A} (l : list A) (d : A) :
  map (fun i => nth i l d) (seq 0 (length l)) = l.
Proof.
  rewrite <- (map_nth_seq (fun x => x) l d). apply map_id.
Qed.

(** The difference of two arrays of the same shape. *)
Lemma sub2_same_shape (a b : array2) (n c : nat) :
  length a = n -> length b = n -> n <> 0 ->
  Forall (fun r => length r = c) a -> Forall (fun r => length r = c) b ->
  exists d,
    sub2 a b = Ok d
    /\ length d = n
    /\ Forall (fun r => length r = c) d
    /\ forall i j, i < n -> j < c ->
         nth j (nth i d []) 0%float
         = PrimFloat.sub (nth j (nth i a []) 0%float) (nth j (nth i b []) 0%float).
Proof.
  intros Ha Hb Hn Hra Hrb.
  assert (Hane : a <> []) by (intros ->; simpl in Ha; congruence).
  assert (Hbne : b <> []) by (intros ->; simpl in Hb; congruence).
  unfold sub2, nrows.
  rewrite Ha, Hb, bcast_same.
  rewrite (ncols_of_rows _ _ Hane Hra), (ncols_of_rows _ _ Hbne Hrb), bcast_same.
  eexists. split; [reflexivity|].
  split; [now rewrite length_map, length_seq|].
  split.
  - apply Forall_map, Forall_forall. intros i _.
    now rewrite length_map, length_seq.
  - intros i j Hi Hj.
    rewrite nth_map_seq by assumption.
    rewrite nth_map_seq by assumption.
    assert (Hia : length (nth i a []) = c)
      by (apply Forall_nth_length; [assumption | now rewrite Ha]).
    assert (Hib : length (nth i b []) = c)
      by (apply Forall_nth_length; [assumption | now rewrite Hb]).
    rewrite (bget_lt [] a) by now rewrite Ha.
    rewrite (bget_lt [] b) by now rewrite Hb.
    rewrite bget_lt by now rewrite Hia.
    rewrite bget_lt by now rewrite Hib.
    reflexivity.
Qed.

Lemma slice_1_4 {A} (r : list A) :
  length r = 4 -> slice r 1 4 = skipn 1 r.
Proof.
  destruct r as [|a [|b [|c [|d [|e r]]]]]; try discriminate. reflexivity.
Qed.

Lemma golay_ok (fit : list float -> float) (data out : array2) (w : Z) :
  Smoother.golay fit data w = Ok out ->
  Smoother.invalid_window (length data) w = false
  /\ out = map (fun i =>
                  [nth i (column data 0) 0%float;
                   nth i (Smoother.smooth fit (Z.to_nat w) (column data 1)) 0%float;
                   nth i (Smoother.smooth fit (Z.to_nat w) (column data 2)) 0%float;
                   nth i (Smoother.smooth fit (Z.to_nat w) (column data 3)) 0%float])
               (seq 0 (length data)).
Proof.
  unfold Smoother.golay.
  destruct (Smoother.invalid_window (length data) w); [discriminate|].
  intros [= <-]. split; reflexivity.
Qed.

Lemma length_smooth (fit : list float -> float) (w : nat) (v : array1) :
  length (Smoother.smooth fit w v) = length v.
Proof.
  unfold Smoother.smooth, Smoother.windows.
  now rewrite !length_map, length_seq.
Qed.

Lemma valid_window (n : nat) (w : Z) :
  Z.odd w = true -> (5 <= w)%Z -> (w <= Z.of_nat n)%Z ->
  Smoother.invalid_window n w = false.
Proof.
  intros Hodd H5 Hn. unfold Smoother.invalid_window.
  rewrite <- Z.negb_odd, Hodd. simpl.
  destruct (Z.ltb_spec w 5); [lia|].
  destruct (Z.ltb_spec (Z.of_nat n) w); [lia|]. reflexivity.
Qed.

Lemma cols_1_4_rows (a : array2) :
  Forall (fun r => length r = 4) a ->
  Forall (fun r => length r = 3) (cols_slice a 1 4).
Proof.
  intros H. unfold cols_slice. apply Forall_map.
  eapply Forall_impl; [|exact H]. cbv beta. intros r Hr.
  rewrite slice_1_4 by assumption. rewrite length_skipn. lia.
Qed.

Lemma cols_1_4_nth (a : array2) (i j : nat) :
  Forall (fun r => length r = 4) a -> i < length a ->
  nth j (nth i (cols_slice a 1 4) []) 0%float = nth (S j) (nth i a []) 0%float.
Proof.
  intros H Hi. unfold cols_slice.
  rewrite (nth_map_lt _ a i [] []) by assumption.
  rewrite slice_1_4 by (apply Forall_nth_length; assumption).
  apply (nth_skipn 1).
Qed.

(** C4. For an odd window [w] with [5 <= w <= n], the Smoother returns
    a track with the [n] rows of its input and the same time column,
    whose x, y and z columns are the smoothed columns of the input;
    and the difference [my_data[:, 1:4] - my_data_filt[:, 1:4]] that
    [mainf] forms is defined and subtracts row by row. *)
Theorem golay_keeps_rows_and_times :
  forall (fit : list float -> float) (data : array2) (w : Z),
    Z.odd w = true -> (5 <= w)%Z -> (w <= Z.of_nat (length data))%Z ->
    exists out,
      Smoother.golay fit data w = Ok out
      /\ length out = length data
      /\ column out 0 = column data 0
      /\ column out 1 = Smoother.smooth fit (Z.to_nat w) (column data 1)
      /\ column out 2 = Smoother.smooth fit (Z.to_nat w) (column data 2)
      /\ column out 3 = Smoother.smooth fit (Z.to_nat w) (column data 3)
      /\ Forall (fun r => length r = 4) out
      /\ (Forall (fun r => length r = 4) data ->
          exists dif,
            sub2 (cols_slice data 1 4) (cols_slice out 1 4) = Ok dif
            /\ length dif = length data
            /\ forall i j, i < length data -> j < 3 ->
                 nth j (nth i dif []) 0%float
                 = PrimFloat.sub (nth (S j) (nth i data []) 0%float)
                                 (nth (S j) (nth i out []) 0%float)).
Proof.
  intros fit data w Hodd H5 Hn.
  destruct (Smoother.golay fit data w) as [out|e] eqn:E.
  2:{ unfold Smoother.golay in E.
      rewrite valid_window in E by assumption. discriminate. }
  apply golay_ok in E as [_ Hout].
  exists out. split; [reflexivity|].
  assert (Hlen : length out = length data)
    by (subst out; now rewrite length_map, length_seq).
  assert (Hcol : forall v : list float, length v = length data ->
                 map (fun i => nth i v 0%float) (seq 0 (length data)) = v).
  { intros v Hv. rewrite <- Hv. apply list_as_map_nth. }
  assert (Hrows : Forall (fun r => length r = 4) out).
  { subst out. apply Forall_map, Forall_forall. reflexivity. }
  split; [exact Hlen|].
  split; [|split; [|split; [|split; [|split; [exact Hrows|]]]]].
  - subst out. unfold column at 1. rewrite map_map. cbn [nth].
    apply Hcol. unfold column. now rewrite length_map.
  - subst out. unfold column at 1. rewrite map_map. cbn [nth].
    apply Hcol. rewrite length_smooth. unfold column. now rewrite length_map.
  - subst out. unfold column at 1. rewrite map_map. cbn [nth].
    apply Hcol. rewrite length_smooth. unfold column. now rewrite length_map.
  - subst out. unfold column at 1. rewrite map_map. cbn [nth].
    apply Hcol. rewrite length_smooth. unfold column. now rewrite length_map.
  - intros Hdata.
    destruct (sub2_same_shape (cols_slice data 1 4) (cols_slice out 1 4)
                              (length data) 3)
      as (dif & Hdif & Hdl & _ & Hent).
    + unfold cols_slice. now rewrite length_map.
    + unfold cols_slice. now rewrite length_map.
    + lia.
    + now apply cols_1_4_rows.
    + now apply cols_1_4_rows.
    + exists dif. split; [exact Hdif|]. split; [exact Hdl|].
      intros i j Hi Hj. rewrite Hent by assumption.
      rewrite !cols_1_4_nth by (assumption || lia). reflexivity.
Qed.

Lemma golay_keeps_rows_and_times_witness :
  exists out,
    Smoother.golay Smoother.cubic_fit sample_orbit 5 = Ok out
    /\ length out = 7
    /\ column out 0 = [0; 10; 20; 30; 40; 50; 60]%float.
Proof.
  destruct (golay_keeps_rows_and_times Smoother.cubic_fit sample_orbit 5)
    as (out & Hout & Hlen & Htime & _); [reflexivity | lia | simpl; lia |].
  exists out. split; [exact Hout|]. split; [exact Hlen | exact Htime].
Defined.

(** C6. A window that is even, or smaller than 5, or larger than the
    track fails in the Smoother with [InvalidWindow]; and [mainf], which
    hands its window to the Smoother unchecked, raises [InvalidWindow]
    before it prints or draws anything when the window is invalid for
    the averaged track. *)
Theorem golay_invalid_window :
  forall (C : Collaborators) (fit : list float -> float)
         (datafile : string) (window : Z) (raw my_data : array2),
    (forall d w, golay d w = Smoother.golay fit d w) ->
    load_data datafile = Ok raw ->
    generate_filtered_data raw 3 = Ok my_data ->
    Z.even window = true \/ (window < 5)%Z
    \/ (Z.of_nat (length my_data) < window)%Z ->
    Smoother.golay fit my_data window = Raise InvalidWindow
    /\ mainf datafile window = ([], Raise InvalidWindow).
Proof.
  intros C fit datafile window raw my_data Hg Hload Havg Hw.
  assert (E : Smoother.golay fit my_data window = Raise InvalidWindow).
  { unfold Smoother.golay, Smoother.invalid_window.
    destruct Hw as [Heven | [Hlt | Hgt]].
    - now rewrite Heven.
    - destruct (Z.ltb_spec window 5); [|lia]. now rewrite orb_true_r.
    - destruct (Z.ltb_spec (Z.of_nat (length my_data)) window); [|lia].
      now rewrite orb_true_r. }
  split; [exact E|].
  unfold mainf, estimate. rewrite Hload. cbn [lift bind].
  rewrite Havg. cbn [lift bind]. rewrite Hg, E. reflexivity.
Qed.

Lemma golay_invalid_window_witness :
  @mainf sample_collaborators "orbit.csv" 6 = ([], Raise InvalidWindow)
  /\ @mainf sample_collaborators "orbit.csv" 3 = ([], Raise InvalidWindow)
  /\ @mainf sample_collaborators "orbit.csv" 9 = ([], Raise InvalidWindow).
Proof.
  split; [|split].
  - apply (golay_invalid_window sample_collaborators Smoother.cubic_fit
             "orbit.csv" 6 sample_orbit sample_orbit);
      [reflexivity | reflexivity | reflexivity | left; reflexivity].
  - apply (golay_invalid_window sample_collaborators Smoother.cubic_fit
             "orbit.csv" 3 sample_orbit sample_orbit);
      [reflexivity | reflexivity | reflexivity | right; left; lia].
  - apply (golay_invalid_window sample_collaborators Smoother.cubic_fit
             "orbit.csv" 9 sample_orbit sample_orbit);
      [reflexivity | reflexivity | reflexivity | right; right; simpl; lia].
Defined.

(** * Further properties of the plotting helpers and of [mainf] *)

(** ** Outcomes of sequenced computations *)

Lemma outcome_bind {A B} (m : M A) (k : A -> M B) (a : A) :
  outcome m = Ok a -> outcome (bind m k) = outcome (k a).
Proof.
  destruct m as [t r]. simpl. intros ->. simpl. now destruct (k a).
Qed.

Lemma trace_bind {A B} (m : M A) (k : A -> M B) (a : A) :
  outcome m = Ok a -> trace (bind m k) = trace m ++ trace (k a).
Proof.
  destruct m as [t r]. simpl. intros ->. simpl. now destruct (k a).
Qed.

Lemma bind_raise {A B} (m : M A) (k : A -> M B) (e : exn) :
  outcome m = Raise e -> bind m k = (trace m, Raise e).
Proof. destruct m as [t r]. simpl. now intros ->. Qed.

Lemma outcome_bind_ok {A B} (m : M A) (k : A -> M B) (a : A) (r : result B) :
  outcome m = Ok a -> outcome (k a) = r -> outcome (bind m k) = r.
Proof. intros Hm Hk. now rewrite (outcome_bind _ _ _ Hm). Qed.

Lemma for_each_ok_all {A} (l : list A) (body : A -> M unit) (t : list call)
      (u : unit) :
  for_each l body = (t, Ok u) ->
  forall i, In i l -> exists t', body i = (t', Ok tt).
Proof.
  revert t. induction l as [|j l IH]; cbn [for_each]; intros t H i Hi.
  - destruct Hi.
  - apply bind_ok in H as (t1 & [] & t2 & Hj & Hl & _).
    destruct Hi as [<-|Hi]; [now exists t1 | now apply (IH t2)].
Qed.

Lemma for_each_all_ok {A} (l : list A) (body : A -> M unit) :
  (forall i, In i l -> outcome (body i) = Ok tt) ->
  outcome (for_each l body) = Ok tt.
Proof.
  induction l as [|j l IH]; cbn [for_each]; intros H; [reflexivity|].
  eapply outcome_bind_ok; [apply H; now left|].
  apply IH. intros i Hi. apply H. now right.
Qed.

(** ** Indexing within bounds *)

Lemma item2_lt (a : list (list float)) (r c : nat) :
  r < length a -> c < length (nth r a []) ->
  item2 a r c = Ok (nth c (nth r a []) 0%float).
Proof.
  intros Hr Hc. unfold item2.
  rewrite (item_lt a r []) by assumption. now apply item_lt.
Qed.

Lemma item2_ok_lt (a : list (list float)) (r c : nat) (x : float) :
  item2 a r c = Ok x -> r < length a /\ c < length (nth r a []).
Proof.
  unfold item2. destruct (item a r) as [v|] eqn:E; [|discriminate].
  intros H. apply item_ok with (d := 0%float) in H as [_ H].
  apply item_ok with (d := []) in E as [E Hr]. now subst v.
Qed.

Lemma row_lt (a : list (list float)) (r : nat) :
  r < length a -> row a r = Ok (nth r a []).
Proof. intros H. unfold row. now apply item_lt. Qed.

Lemma scatter_point_has (a : list (list float)) (c : nat)
      (kw : list (string * value)) :
  has_point a c -> scatter_point a c kw = ([scatter_call a c kw], Ok tt).
Proof.
  intros (Hr & H0 & H1 & H2). unfold scatter_point.
  rewrite !item2_lt by (assumption || lia). reflexivity.
Qed.

Lemma scatter_point_needs (a : list (list float)) (c : nat)
      (kw : list (string * value)) (t : list call) (u : unit) :
  scatter_point a c kw = (t, Ok u) -> c < length (nth 0 a []).
Proof.
  unfold scatter_point. intros H.
  apply bind_ok in H as (t1 & x & t2 & Hx & _).
  apply lift_ok in Hx as [Hx _]. now apply item2_ok_lt in Hx.
Qed.

(** ** The column norms *)

Lemma length_add_sq (acc v : list float) :
  length (add_sq acc v) = Nat.min (length acc) (length v).
Proof. unfold add_sq. now rewrite length_map, length_combine. Qed.

Lemma length_fold_add_sq_le (rows : list (list float)) (acc : list float) :
  length (fold_left add_sq rows acc) <= length acc.
Proof.
  revert acc. induction rows as [|v rows IH]; intros acc; simpl; [lia|].
  etransitivity; [apply IH|]. rewrite length_add_sq. lia.
Qed.

Lemma length_fold_add_sq (rows : list (list float)) (acc : list float) (n : nat) :
  length acc = n -> Forall (fun r => length r = n) rows ->
  length (fold_left add_sq rows acc) = n.
Proof.
  intros Hacc Hrows. revert acc Hacc.
  induction Hrows as [|v rows Hv _ IH]; intros acc Hacc; simpl; [exact Hacc|].
  apply IH. rewrite length_add_sq. lia.
Qed.

Lemma length_norm_le (a : list (list float)) :
  length (linalg_norm_axis0 a) <= ncols a.
Proof.
  unfold linalg_norm_axis0. rewrite length_map.
  etransitivity; [apply length_fold_add_sq_le|]. now rewrite repeat_length.
Qed.

Lemma length_norm (a : list (list float)) (n : nat) :
  a <> [] -> Forall (fun r => length r = n) a ->
  length (linalg_norm_axis0 a) = n.
Proof.
  intros Ha Hrows. unfold linalg_norm_axis0. rewrite length_map.
  apply length_fold_add_sq; [|assumption].
  now rewrite repeat_length, (ncols_of_rows a n).
Qed.

(** ** What [plot_batch_results] needs *)

(** X1. A figure comes back from [plot_batch_results] only if the
    batch estimates hold at least two candidates (the legend proxy
    reads [x_br[:, 1]]), the initial samples hold at least one, the
    ground truth has three rows, and the errors have a column for every
    candidate of [x_0r]. *)
Theorem plot_batch_results_needs :
  forall (x_sat x_0r x_br x_berr : list (list float)) (fig : figure),
    outcome (plot_batch_results x_sat x_0r x_br x_berr) = Ok fig ->
    2 <= length (nth 0 x_br [])
    /\ 1 <= length (nth 0 x_0r [])
    /\ 1 <= length (nth 0 x_sat [])
    /\ ncols x_0r <= ncols x_berr.
Proof.
  intros x_sat x_0r x_br x_berr fig Hfig.
  destruct (plot_batch_results x_sat x_0r x_br x_berr) as [t r] eqn:H.
  simpl in Hfig. subst r.
  unfold plot_batch_results, plot_batch_results_with in H.
  do 4 bind_step H.
  apply bind_ok in H as (ta & [] & tb & Hsat & H & _).
  apply scatter_point_needs in Hsat.
  cbv zeta in H.
  do 5 bind_step H.
  apply bind_ok in H as (tc & [] & td & Hloop & H & _).
  bind_step H.
  apply bind_ok in H as (te & [] & tg & Hpre & H & _).
  apply bind_ok in H as (th & [] & ti & Hpost & H & _).
  apply scatter_point_needs in Hpre, Hpost.
  repeat split; try lia.
  unfold batch_results_loop, for_range in Hloop.
  pose proof (length_norm_le x_berr) as Hle.
  destruct (ncols x_0r) as [|n] eqn:En; [lia|].
  destruct (for_each_ok_all _ _ _ _ Hloop n) as (t' & Hn).
  { apply in_seq. lia. }
  apply bind_ok in Hn as (tj & e & tk & He & _).
  apply lift_ok in He as [He _].
  apply item_ok with (d := 0%float) in He as [_ He]. lia.
Qed.

Lemma plot_batch_results_needs_witness :
  2 <= length (nth 0 sample_x_br [])
  /\ 1 <= length (nth 0 sample_x_0r [])
  /\ 1 <= length (nth 0 sample_x_sat [])
  /\ ncols sample_x_0r <= ncols mixed_x_berr.
Proof.
  apply (plot_batch_results_needs sample_x_sat sample_x_0r sample_x_br
                                  mixed_x_berr (Fig (14, 14)%Z)).
  vm_compute. reflexivity.
Defined.

(** X2. With a ground truth of three rows or more and one sample or
    more, initial samples and batch estimates of three rows or more and
    [n >= 2] candidates each, and errors of one row or more for these
    [n] candidates, [plot_batch_results] returns its figure. *)
Theorem plot_batch_results_returns :
  forall (x_sat x_0r x_br x_berr : list (list float)) (n : nat),
    has_point x_sat 0 ->
    3 <= length x_0r -> Forall (fun r => length r = n) x_0r ->
    3 <= length x_br -> Forall (fun r => length r = n) x_br ->
    x_berr <> [] -> Forall (fun r => length r = n) x_berr ->
    2 <= n ->
    outcome (plot_batch_results x_sat x_0r x_br x_berr) = Ok (Fig (14, 14)%Z).
Proof.
  intros x_sat x_0r x_br x_berr n Hsat H0r R0r Hbr Rbr Hne Rerr Hn.
  assert (P0r : forall c, c < n -> has_point x_0r c).
  { intros c Hc. unfold has_point.
    rewrite !(Forall_nth_length x_0r n) by (assumption || lia). lia. }
  assert (Pbr : forall c, c < n -> has_point x_br c).
  { intros c Hc. unfold has_point.
    rewrite !(Forall_nth_length x_br n) by (assumption || lia). lia. }
  assert (Hcols : ncols x_0r = n).
  { apply ncols_of_rows; [|assumption]. intros ->. simpl in H0r. lia. }
  unfold plot_batch_results, plot_batch_results_with.
  do 4 (eapply outcome_bind_ok; [reflexivity|]).
  rewrite (scatter_point_has x_sat 0) by assumption.
  eapply outcome_bind_ok; [reflexivity|]. cbv zeta.
  pose proof Hsat as (Hrows & _).
  unfold row_upto. rewrite !(item_lt x_sat _ []) by lia.
  do 4 (eapply outcome_bind_ok; [reflexivity|]).
  rewrite scatter_point_has by assumption.
  eapply outcome_bind_ok; [reflexivity|].
  eapply outcome_bind_ok.
  { unfold batch_results_loop, for_range. rewrite Hcols.
    apply for_each_all_ok. intros i Hi. apply in_seq in Hi.
    rewrite (item_lt _ i 0%float)
      by (rewrite (length_norm x_berr n); [lia | assumption | assumption]).
    eapply outcome_bind_ok; [reflexivity|].
    destruct (PrimFloat.ltb _ _); [|reflexivity].
    rewrite (scatter_point_has x_0r i), (scatter_point_has x_br i)
      by (apply P0r || apply Pbr; lia).
    reflexivity. }
  eapply outcome_bind_ok; [reflexivity|].
  rewrite (scatter_point_has x_0r 0), (scatter_point_has x_br 1)
    by (apply P0r || apply Pbr; lia).
  reflexivity.
Qed.

Lemma plot_batch_results_returns_witness :
  outcome (plot_batch_results sample_x_sat sample_x_0r sample_x_br far_x_berr)
  = Ok (Fig (14, 14)%Z).
Proof.
  apply (plot_batch_results_returns sample_x_sat sample_x_0r sample_x_br
                                    far_x_berr 2);
    try (repeat constructor); discriminate.
Defined.

(** ** [plot_tdoa_hg_errors] as a whole *)

Lemma cols_slice_trim_rows (a : list (list float)) (n : nat) (w : Z) :
  (1 <= w)%Z -> (2 * w <= Z.of_nat n)%Z ->
  Forall (fun r => length r = n) a ->
  Forall (fun r => length r = n - 2 * Z.to_nat w) (cols_slice a w (- w)).
Proof.
  intros Hw Hn Hrows. unfold cols_slice. apply Forall_map.
  eapply Forall_impl; [|exact Hrows]. cbv beta. intros r Hr.
  rewrite slice_trim_length by (rewrite ?Hr; assumption). now rewrite Hr.
Qed.

Lemma ax_plot_same_length (ax : string) (x y : list float)
      (kw : list (string * value)) :
  length x = length y -> outcome (ax_plot ax x y kw) = Ok tt.
Proof. intros H. unfold ax_plot. now rewrite H, Nat.eqb_refl. Qed.

Lemma ax_plot_other_length (ax : string) (x y : list float)
      (kw : list (string * value)) :
  length x <> length y -> ax_plot ax x y kw = ([], Raise ValueError).
Proof.
  intros H. unfold ax_plot.
  now destruct (Nat.eqb_spec (length x) (length y)).
Qed.

Lemma error_axes_returns (ax : string) (t : list float)
      (diff : list (list float)) (r : nat) (ylabel title : string) :
  r + 3 <= length diff ->
  Forall (fun v => length v = length t) diff ->
  outcome (error_axes ax t diff r ylabel title) = Ok tt.
Proof.
  intros Hr Hrows. unfold error_axes.
  rewrite !row_lt by lia.
  repeat (eapply outcome_bind_ok;
          [ first [ reflexivity
                  | apply ax_plot_same_length; symmetry;
                    apply Forall_nth_length; [assumption | lia] ] |]).
  reflexivity.
Qed.

(** X3. For a window [1 <= w] with [2 w <= n], a ground truth of six
    rows or more and [n] samples, [n] time stamps and an estimate of as
    many rows and [n - 2 w] samples, [plot_tdoa_hg_errors] returns its
    figure. *)
Theorem plot_tdoa_hg_errors_returns :
  forall (x_sat x_sat_hg : list (list float)) (t_sec : list float) (w : Z),
    (1 <= w)%Z -> (2 * w <= Z.of_nat (length t_sec))%Z ->
    6 <= length x_sat -> length x_sat_hg = length x_sat ->
    Forall (fun r => length r = length t_sec) x_sat ->
    Forall (fun r => length r = length t_sec - 2 * Z.to_nat w) x_sat_hg ->
    outcome (plot_tdoa_hg_errors x_sat t_sec x_sat_hg w) = Ok (Fig (14, 7)%Z).
Proof.
  intros x_sat x_sat_hg t_sec w Hw Hn H6 Hhg Rsat Rhg.
  destruct (sub2_same_shape (cols_slice x_sat w (- w)) x_sat_hg
                            (length x_sat) (length t_sec - 2 * Z.to_nat w))
    as (diff & Hdiff & Hlen & Hrows & _).
  - unfold cols_slice. now rewrite length_map.
  - assumption.
  - lia.
  - now apply cols_slice_trim_rows.
  - assumption.
  - rewrite <- (slice_trim_length t_sec w) in Hrows by assumption.
    unfold plot_tdoa_hg_errors, hg_diff. rewrite Hdiff. cbv zeta.
    do 3 (eapply outcome_bind_ok; [reflexivity|]).
    eapply outcome_bind_ok; [apply error_axes_returns; [lia | assumption]|].
    eapply outcome_bind_ok; [reflexivity|].
    eapply outcome_bind_ok; [apply error_axes_returns; [lia | assumption]|].
    reflexivity.
Qed.

Lemma plot_tdoa_hg_errors_returns_witness :
  outcome (plot_tdoa_hg_errors sample_track sample_t_sec sample_hg3 1)
  = Ok (Fig (14, 7)%Z).
Proof.
  apply (plot_tdoa_hg_errors_returns sample_track sample_hg3 sample_t_sec 1).
  - lia.
  - simpl. lia.
  - simpl. lia.
  - reflexivity.
  - repeat constructor.
  - repeat constructor.
Defined.

Lemma slice_overtrimmed {A} (l : list A) (w : Z) :
  w = 0%Z \/ ((0 < w)%Z /\ (Z.of_nat (length l) <= 2 * w)%Z) ->
  slice l w (- w) = [].
Proof.
  intros [-> | [Hw Hn]]; unfold slice, slice_bound.
  - simpl. rewrite Nat.min_0_r. reflexivity.
  - destruct (Z.ltb_spec w 0); [lia|].
    destruct (Z.ltb_spec (- w) 0); [|lia].
    replace (Z.to_nat (Z.max 0 (Z.of_nat (length l) + - w))
             - Nat.min (length l) (Z.to_nat w)) with 0 by lia.
    reflexivity.
Qed.

(** X4. With window 0, or a window that trims the whole series
    ([n <= 2 w]), the slices [t_sec[w:-w]] and [x_sat[:, w:-w]] are
    empty and raise nothing; [plot_tdoa_hg_errors] then raises
    [ValueError] for every estimate of two samples or more, before any
    call to matplotlib. *)
Theorem plot_tdoa_hg_errors_overtrimmed :
  forall (x_sat x_sat_hg : list (list float)) (t_sec : list float) (w : Z),
    w = 0%Z \/ ((0 < w)%Z /\ (Z.of_nat (length t_sec) <= 2 * w)%Z) ->
    Forall (fun r => length r = length t_sec) x_sat ->
    2 <= ncols x_sat_hg ->
    slice t_sec w (- w) = []
    /\ plot_tdoa_hg_errors x_sat t_sec x_sat_hg w = ([], Raise ValueError).
Proof.
  intros x_sat x_sat_hg t_sec w Hw Rsat Hhg.
  split; [now apply slice_overtrimmed|].
  assert (Hnc : ncols (cols_slice x_sat w (- w)) = 0).
  { unfold ncols, cols_slice. destruct Rsat as [|r a Hr _]; [reflexivity|].
    simpl. rewrite slice_overtrimmed; [reflexivity|]. now rewrite Hr. }
  unfold plot_tdoa_hg_errors, hg_diff, sub2. rewrite Hnc.
  assert (Hb : bcast 0 (ncols x_sat_hg) = None).
  { unfold bcast.
    destruct (Nat.eqb_spec 0 (ncols x_sat_hg)); [lia|].
    destruct (Nat.eqb_spec (ncols x_sat_hg) 1); [lia|]. reflexivity. }
  rewrite Hb.
  now destruct (bcast (nrows (cols_slice x_sat w (- w))) (nrows x_sat_hg)).
Qed.

Lemma plot_tdoa_hg_errors_overtrimmed_witness :
  slice sample_t_sec 0 (- 0) = []
  /\ plot_tdoa_hg_errors sample_track sample_t_sec sample_track 0
     = ([], Raise ValueError).
Proof.
  apply (plot_tdoa_hg_errors_overtrimmed sample_track sample_track
                                         sample_t_sec 0).
  - now left.
  - repeat constructor.
  - unfold ncols. simpl. lia.
Defined.

Lemma bind_ok_eq {A B} (m : M A) (k : A -> M B) (t : list call) (a : A) :
  m = (t, Ok a) -> bind m k = (t ++ trace (k a), outcome (k a)).
Proof. intros ->. simpl. now destruct (k a). Qed.

Lemma bind_lift_ok {A B} (a : A) (k : A -> M B) : bind (lift (Ok a)) k = k a.
Proof. unfold lift. simpl. now destruct (k a). Qed.

Lemma bind_nil_ok {A B} (a : A) (k : A -> M B) : bind ([], Ok a) k = k a.
Proof. simpl. now destruct (k a). Qed.

Lemma bind_raise_eq {A B} (m : M A) (k : A -> M B) (t : list call) (e : exn) :
  m = (t, Raise e) -> bind m k = (t, Raise e).
Proof. now intros ->. Qed.

(** X5. When the window leaves a single sample ([n = 2 w + 1]) and the
    estimate has two samples or more, the error computation is accepted
    by broadcasting, the figure and its first axes are created, and the
    first curve raises [ValueError]: the time axis has one entry and the
    error row has as many as the estimate. *)
Theorem plot_tdoa_hg_errors_single_sample :
  forall (x_sat x_sat_hg : list (list float)) (t_sec : list float) (w : Z)
         (k : nat),
    (1 <= w)%Z -> length t_sec = 2 * Z.to_nat w + 1 ->
    x_sat <> [] -> length x_sat_hg = length x_sat ->
    Forall (fun r => length r = length t_sec) x_sat ->
    Forall (fun r => length r = k) x_sat_hg -> 2 <= k ->
    is_ok (hg_diff x_sat x_sat_hg w) = true
    /\ plot_tdoa_hg_errors x_sat t_sec x_sat_hg w
       = ([Call "plt.figure" [] [("figsize", VInts [14; 7]%Z)];
           Call "fig.add_subplot" [VInt 1; VInt 2; VInt 1] []],
          Raise ValueError).
Proof.
  intros x_sat x_sat_hg t_sec w k Hw Hn Hne Hhg Rsat Rhg Hk.
  assert (Hn' : (2 * w <= Z.of_nat (length t_sec))%Z) by lia.
  assert (Hnc : ncols (cols_slice x_sat w (- w)) = 1).
  { rewrite (ncols_cols_slice x_sat (length t_sec)) by assumption. lia. }
  assert (Hhgne : x_sat_hg <> []).
  { intros ->. simpl in Hhg. destruct x_sat; [congruence | discriminate]. }
  assert (Hb : bcast 1 k = Some k).
  { unfold bcast. destruct (Nat.eqb_spec 1 k); [lia | reflexivity]. }
  assert (Hdiff : exists diff,
             hg_diff x_sat x_sat_hg w = Ok diff
             /\ exists d0, row diff 0 = Ok d0 /\ length d0 = k).
  { unfold hg_diff, sub2, nrows.
    replace (length (cols_slice x_sat w (- w))) with (length x_sat)
      by (unfold cols_slice; now rewrite length_map).
    rewrite Hhg, bcast_same, Hnc, (ncols_of_rows _ _ Hhgne Rhg), Hb.
    eexists. split; [reflexivity|].
    destruct x_sat as [|r0 x_sat]; [congruence|].
    cbn [length seq map]. eexists. split; [reflexivity|].
    now rewrite length_map, length_seq. }
  destruct Hdiff as (diff & Hdiff & d0 & Hd0 & Hlen).
  split; [now rewrite Hdiff|].
  unfold plot_tdoa_hg_errors. rewrite Hdiff, bind_lift_ok. cbv zeta.
  rewrite (bind_ok_eq (plt_figure 14 7) _ _ (Fig (14, 7)%Z) eq_refl).
  rewrite (bind_ok_eq (mpl _ _ _) _ _ tt eq_refl).
  unfold error_axes. rewrite Hd0, !bind_lift_ok.
  rewrite ax_plot_other_length
    by (rewrite slice_trim_length, Hlen by assumption; lia).
  reflexivity.
Qed.

Lemma plot_tdoa_hg_errors_single_sample_witness :
  is_ok (hg_diff sample_track sample_hg3 2) = true
  /\ plot_tdoa_hg_errors sample_track sample_t_sec sample_hg3 2
     = ([Call "plt.figure" [] [("figsize", VInts [14; 7]%Z)];
         Call "fig.add_subplot" [VInt 1; VInt 2; VInt 1] []],
        Raise ValueError).
Proof.
  apply (plot_tdoa_hg_errors_single_sample sample_track sample_hg3
                                           sample_t_sec 2 3).
  - lia.
  - reflexivity.
  - discriminate.
  - reflexivity.
  - repeat constructor.
  - repeat constructor.
  - lia.
Defined.

(** ** [plot_pos_vel_norms] *)

Lemma Forall_firstn {A} (P : A -> Prop) (n : nat) (l : list A) :
  Forall P l -> Forall P (firstn n l).
Proof.
  intros H. revert n. induction H as [|x l Hx _ IH]; intros [|n]; simpl;
    constructor; auto.
Qed.

Lemma Forall_skipn {A} (P : A -> Prop) (n : nat) (l : list A) :
  Forall P l -> Forall P (skipn n l).
Proof.
  intros H. revert n. induction H as [|x l Hx Hl IH]; intros [|n]; simpl;
    auto.
Qed.

Lemma Forall_slice {A} (P : A -> Prop) (l : list A) (lo hi : Z) :
  Forall P l -> Forall P (slice l lo hi).
Proof. intros H. unfold slice. now apply Forall_firstn, Forall_skipn. Qed.

Lemma length_norm_rows (a : list (list float)) (n : nat) (lo hi : Z) :
  a <> [] -> Forall (fun r => length r = n) a ->
  length (linalg_norm_rows_axis0 a lo hi) = n.
Proof.
  intros Ha Hrows. unfold linalg_norm_rows_axis0. rewrite length_map.
  apply length_fold_add_sq; [|now apply Forall_slice].
  now rewrite repeat_length, (ncols_of_rows a n).
Qed.

Lemma ax_plot_same_length_eq (ax : string) (x y : list float)
      (kw : list (string * value)) :
  length x = length y ->
  ax_plot ax x y kw = ([Call (ax ++ ".plot") [VVec x; VVec y] kw], Ok tt).
Proof. intros H. unfold ax_plot. now rewrite H, Nat.eqb_refl. Qed.

(** X6. For a state series of one row or more and [n] samples,
    [plot_pos_vel_norms] returns its figure exactly when [t_sec] has
    [n] entries; otherwise it raises [ValueError] at the first curve,
    after the figure and its first axes were created. *)
Theorem plot_pos_vel_norms_needs_matching_times :
  forall (x_sat : list (list float)) (t_sec : list float) (n : nat),
    x_sat <> [] -> Forall (fun r => length r = n) x_sat ->
    (length t_sec = n ->
     outcome (plot_pos_vel_norms x_sat t_sec) = Ok (Fig (14, 7)%Z))
    /\ (length t_sec <> n ->
        plot_pos_vel_norms x_sat t_sec
        = ([Call "plt.figure" [] [("figsize", VInts [14; 7]%Z)];
            Call "fig.add_subplot" [VInt 1; VInt 2; VInt 1] []],
           Raise ValueError)).
Proof.
  intros x_sat t_sec n Hne Hrows.
  pose proof (length_norm_rows x_sat n 0 3 Hne Hrows) as Hr.
  pose proof (length_norm_rows x_sat n 3 6 Hne Hrows) as Hv.
  unfold plot_pos_vel_norms. cbv zeta. split; intros Ht.
  - rewrite !ax_plot_same_length_eq by congruence. reflexivity.
  - rewrite (ax_plot_other_length "ax1") by congruence. reflexivity.
Qed.

Lemma plot_pos_vel_norms_needs_matching_times_witness :
  outcome (plot_pos_vel_norms sample_track sample_t_sec) = Ok (Fig (14, 7)%Z)
  /\ outcome (plot_pos_vel_norms sample_track [0; 1]%float) = Raise ValueError.
Proof.
  destruct (plot_pos_vel_norms_needs_matching_times sample_track
              sample_t_sec 5) as [Hok _];
    [discriminate | repeat constructor |].
  destruct (plot_pos_vel_norms_needs_matching_times sample_track
              [0; 1]%float 5) as [_ Hbad];
    [discriminate | repeat constructor |].
  split; [now apply Hok|].
  rewrite Hbad; [reflexivity | simpl; lia].
Defined.

(** X7. A position-only series (three rows or fewer) is not rejected:
    the row slice [x_sat[3:6, ]] is empty, its column norms are zero,
    and the velocity panel shows the constant 0. *)
Theorem plot_pos_vel_norms_position_only :
  forall (x_sat : list (list float)) (t_sec : list float),
    x_sat <> [] -> length x_sat <= 3 ->
    Forall (fun r => length r = length t_sec) x_sat ->
    outcome (plot_pos_vel_norms x_sat t_sec) = Ok (Fig (14, 7)%Z)
    /\ In (Call "ax2.plot" [VVec t_sec; VVec (repeat 0%float (length t_sec))] [])
          (trace (plot_pos_vel_norms x_sat t_sec)).
Proof.
  intros x_sat t_sec Hne H3 Hrows.
  pose proof (length_norm_rows x_sat _ 0 3 Hne Hrows) as Hr.
  assert (Hv : linalg_norm_rows_axis0 x_sat 3 6 = repeat 0%float (length t_sec)).
  { unfold linalg_norm_rows_axis0, slice, slice_bound. simpl.
    replace (Nat.min (length x_sat) (Pos.to_nat 6)
             - Nat.min (length x_sat) (Pos.to_nat 3)) with 0 by lia.
    simpl. rewrite (ncols_of_rows x_sat (length t_sec)) by assumption.
    apply map_repeat. }
  unfold plot_pos_vel_norms. cbv zeta. rewrite Hv.
  rewrite !ax_plot_same_length_eq by (now rewrite ?repeat_length).
  split; [reflexivity|].
  cbn. do 8 right. left. reflexivity.
Qed.

Lemma plot_pos_vel_norms_position_only_witness :
  In (Call "ax2.plot" [VVec sample_t_sec; VVec [0; 0; 0; 0; 0]%float] [])
     (trace (plot_pos_vel_norms (firstn 3 sample_track) sample_t_sec)).
Proof.
  apply (plot_pos_vel_norms_position_only (firstn 3 sample_track) sample_t_sec).
  - discriminate.
  - simpl. lia.
  - repeat constructor.
Defined.

(** ** [plot_tdoa] *)

Lemma ax_plot_ok (ax : string) (x y : list float) (kw : list (string * value))
      (t : list call) (u : unit) :
  ax_plot ax x y kw = (t, Ok u) -> length x = length y.
Proof.
  unfold ax_plot. destruct (Nat.eqb_spec (length x) (length y)); [auto|].
  discriminate.
Qed.

Lemma add_subplot_grid_ok (rows cols num : Z) (t : list call) (u : unit) :
  add_subplot_grid rows cols num = (t, Ok u) ->
  (1 <= num <= rows * cols)%Z.
Proof.
  unfold add_subplot_grid.
  destruct (Z.leb_spec 1 num); [|discriminate].
  destruct (Z.leb_spec num (rows * cols)); [lia | discriminate].
Qed.

Lemma add_subplot_grid_in (rows cols num : Z) :
  (1 <= num <= rows * cols)%Z ->
  outcome (add_subplot_grid rows cols num) = Ok tt.
Proof.
  intros H. unfold add_subplot_grid.
  destruct (Z.leb_spec 1 num); [|lia].
  destruct (Z.leb_spec num (rows * cols)); [reflexivity | lia].
Qed.

(** X8. [plot_tdoa] returns its figure exactly when [tof] has a first
    row as long as [t_sec], every row of [tdoa] from the second on is as
    long as [t_sec], and [tdoa] has at most four rows: the panels go to
    a 2 x 2 grid, and a fifth row asks for position 5 of it. *)
Theorem plot_tdoa_returns_iff :
  forall (tdoa tof : list (list float)) (t_sec : list float)
         (title : option string),
    outcome (plot_tdoa tdoa tof t_sec title) = Ok (Fig (14, 7)%Z)
    <-> tdoa_drawable tdoa tof t_sec.
Proof.
  intros tdoa tof t_sec title. split.
  - intros Hfig.
    destruct (plot_tdoa tdoa tof t_sec title) as [t r] eqn:H.
    simpl in Hfig. subst r. unfold plot_tdoa in H.
    do 2 bind_step H.
    apply bind_ok in H as (ta & [] & tb & _ & H & _).
    bind_step H.
    apply bind_ok in H as (tc & f & td & Hf & H & _).
    apply lift_ok in Hf as [Hf _].
    apply item_ok with (d := []) in Hf as [Hf Hf0]. subst f.
    apply bind_ok in H as (te & [] & tg & Hplot & H & _).
    apply ax_plot_ok in Hplot.
    do 3 bind_step H.
    apply bind_ok in H as (th & [] & ti & Hloop & _).
    unfold tdoa_drawable. split; [lia|]. split; [congruence|].
    unfold for_range, nrows in Hloop.
    assert (Hst : forall i, i < length tdoa - 1 ->
                  (Z.of_nat i + 2 <= 4)%Z
                  /\ length (nth (i + 1) tdoa []) = length t_sec).
    { intros i Hi.
      destruct (for_each_ok_all _ _ _ _ Hloop i) as (t' & Hbody);
        [apply in_seq; lia|].
      unfold plot_tdoa_station in Hbody.
      apply bind_ok in Hbody as (tj & [] & tk & Hgrid & Hbody & _).
      apply add_subplot_grid_ok in Hgrid.
      apply bind_ok in Hbody as (tl & d & tm & Hd & Hbody & _).
      apply lift_ok in Hd as [Hd _].
      apply item_ok with (d := []) in Hd as [Hd _]. subst d.
      apply bind_ok in Hbody as (tn & [] & tp & Hp & _).
      apply ax_plot_ok in Hp. split; [lia | congruence]. }
    split.
    + destruct (Nat.le_gt_cases (length tdoa) 4) as [|Hgt]; [assumption|].
      destruct (Hst 3) as [Hbad _]; lia.
    + intros i Hi. destruct (Hst (i - 1)) as [_ Hlen]; [lia|].
      now replace (i - 1 + 1) with i in Hlen by lia.
  - intros (Htof & Hlen & H4 & Hrows). unfold plot_tdoa.
    do 2 (eapply outcome_bind_ok; [reflexivity|]).
    eapply outcome_bind_ok; [now destruct title|].
    eapply outcome_bind_ok; [reflexivity|].
    rewrite row_lt by lia.
    eapply outcome_bind_ok; [reflexivity|].
    eapply outcome_bind_ok; [now apply ax_plot_same_length|].
    do 3 (eapply outcome_bind_ok; [reflexivity|]).
    eapply outcome_bind_ok; [|reflexivity].
    unfold for_range, nrows. apply for_each_all_ok.
    intros i Hi. apply in_seq in Hi. unfold plot_tdoa_station.
    eapply outcome_bind_ok; [apply add_subplot_grid_in; lia|].
    rewrite row_lt by lia.
    eapply outcome_bind_ok; [reflexivity|].
    eapply outcome_bind_ok;
      [apply ax_plot_same_length; symmetry; apply Hrows; lia|].
    reflexivity.
Qed.

Lemma plot_tdoa_returns_iff_witness :
  outcome (plot_tdoa (firstn 4 sample_track) sample_track sample_t_sec None)
  = Ok (Fig (14, 7)%Z)
  /\ ~ tdoa_drawable (firstn 5 sample_track) sample_track sample_t_sec.
Proof.
  split.
  - apply plot_tdoa_returns_iff. unfold tdoa_drawable. simpl.
    repeat split; try lia.
    intros i Hi.
    destruct i as [|[|[|[|i]]]]; try lia; reflexivity.
  - intros H.
    apply (plot_tdoa_returns_iff (firstn 5 sample_track) sample_track
                                 sample_t_sec None) in H.
    vm_compute in H. discriminate.
Defined.

(** ** [plot_tdoa_errors] *)

Lemma slice_0_3 {A} (l : list A) : 3 <= length l -> slice l 0 3 = firstn 3 l.
Proof.
  intros H. unfold slice, slice_bound. simpl.
  rewrite Nat.min_0_r.
  replace (Nat.min (length l) (Pos.to_nat 3) - 0) with 3 by lia.
  reflexivity.
Qed.

Lemma nth_firstn_lt {A} (l : list A) (n i : nat) (d : A) :
  i < n -> nth i (firstn n l) d = nth i l d.
Proof.
  intros H. rewrite nth_firstn.
  now destruct (Nat.ltb_spec i n); [|lia].
Qed.

(** X9. For a multilaterated position and a ground truth of three rows
    or more and [n] samples each, [plot_tdoa_errors] returns its figure
    and the error it plots has three rows: entry [j] of row [r] is
    [x_sat[r, j] - p_sat[r, j]] for the three position rows; further
    rows of either array do not enter. The three [ax.plot] calls draw
    these three rows, each against its sample index, between the set-up
    of the axes and the labels and legend. *)
Theorem plot_tdoa_errors_position_rows :
  forall (p_sat x_sat : list (list float)) (title : option string) (n : nat),
    3 <= length p_sat -> 3 <= length x_sat ->
    Forall (fun r => length r = n) p_sat ->
    Forall (fun r => length r = n) x_sat ->
    exists err,
      tdoa_error p_sat x_sat = Ok err
      /\ length err = 3
      /\ (forall r j, r < 3 -> j < n ->
            nth j (nth r err []) 0%float
            = PrimFloat.sub (nth j (nth r x_sat []) 0%float)
                            (nth j (nth r p_sat []) 0%float))
      /\ outcome (plot_tdoa_errors p_sat x_sat title) = Ok (Fig (14, 7)%Z)
      /\ err = map (position_error_row p_sat x_sat n) [0; 1; 2]
      /\ trace (plot_tdoa_errors p_sat x_sat title)
         = tdoa_errors_calls p_sat x_sat n title.
Proof.
  intros p_sat x_sat title n Hp Hx Rp Rx.
  destruct (sub2_same_shape (slice x_sat 0 3) (slice p_sat 0 3) 3 n)
    as (err & Herr & Hlen & Hcols & Hent).
  - rewrite slice_0_3, length_firstn by assumption. lia.
  - rewrite slice_0_3, length_firstn by assumption. lia.
  - lia.
  - now apply Forall_slice.
  - now apply Forall_slice.
  - assert (Hentries : forall r j, r < 3 -> j < n ->
              nth j (nth r err []) 0%float
              = PrimFloat.sub (nth j (nth r x_sat []) 0%float)
                              (nth j (nth r p_sat []) 0%float)).
    { intros r j Hr Hj. rewrite Hent by assumption.
      rewrite !slice_0_3 by assumption.
      now rewrite !(nth_firstn_lt _ 3 r) by assumption. }
    assert (Hrow : forall r, r < 3 ->
              nth r err [] = position_error_row p_sat x_sat n r).
    { intros r Hr.
      assert (Hl : length (nth r err []) = n)
        by (apply Forall_nth_length; [exact Hcols | lia]).
      apply nth_ext with (d := 0%float) (d' := 0%float).
      - unfold position_error_row. now rewrite length_map, length_seq.
      - intros j Hj. rewrite Hl in Hj. unfold position_error_row.
        rewrite nth_map_seq by exact Hj. now apply Hentries. }
    assert (Herr3 : err = map (position_error_row p_sat x_sat n) [0; 1; 2]).
    { destruct err as [|e0 [|e1 [|e2 [|e3 err]]]]; try discriminate.
      cbn [map]. rewrite <- (Hrow 0), <- (Hrow 1), <- (Hrow 2) by lia.
      reflexivity. }
    exists err. split; [exact Herr|]. split; [exact Hlen|].
    split; [exact Hentries|].
    unfold plot_tdoa_errors, tdoa_error. rewrite Herr.
    split; [|split; [exact Herr3|]].
    + do 6 (eapply outcome_bind_ok; [reflexivity|]).
      eapply outcome_bind_ok; [now destruct title|].
      rewrite !row_lt by lia. reflexivity.
    + rewrite Herr3. destruct title; reflexivity.
Qed.

Lemma plot_tdoa_errors_position_rows_witness :
  exists err,
    tdoa_error (firstn 3 sample_track) sample_track = Ok err
    /\ length err = 3
    /\ outcome (plot_tdoa_errors (firstn 3 sample_track) sample_track None)
       = Ok (Fig (14, 7)%Z)
    /\ In (Call "ax.plot" [VVec [0; 0; 0; 0; 0]%float] [("linewidth", VInt 1)])
          (trace (plot_tdoa_errors (firstn 3 sample_track) sample_track None)).
Proof.
  destruct (plot_tdoa_errors_position_rows (firstn 3 sample_track)
              sample_track None 5) as (err & H1 & H2 & _ & H3 & _ & H4).
  - simpl. lia.
  - simpl. lia.
  - repeat constructor.
  - repeat constructor.
  - exists err. split; [exact H1|]. split; [exact H2|]. split; [exact H3|].
    rewrite H4. vm_compute. do 5 right. left. reflexivity.
Defined.

(** ** Saving the figures *)

(** X10. [save_images] saves nothing for observers that are not given
    as a three-dimensional array: a two-dimensional array raises
    [TypeError] in the dimension fix and a one-dimensional one raises
    [IndexError] at [x_obs_multiple.shape[2]], both inside
    [plot_example_3d] and before the first [savefig]. *)
Theorem save_images_needs_three_axes :
  forall (range_range_rate :
            list (list float) -> list (list float)
            -> result (list float * list float))
         (x_sat : list (list float)) (x_obs : ndarray) (t_sec : list float)
         (prefix path : string),
    ndim x_obs <> 3 ->
    save_images range_range_rate x_sat x_obs t_sec prefix path
    = ([Call "matplotlib.rc" [VStr "font"] [("size", VInt 16)];
        Call "plt.figure" [] [("figsize", VInts [14; 14]%Z)];
        Call "fig.add_subplot" [VInt 111] [("projection", VStr "3d")]],
       Raise (if Nat.eqb (ndim x_obs) 2 then TypeError else IndexError)).
Proof.
  intros rrr x_sat x_obs t_sec prefix path H.
  destruct x_obs as [v|a|a]; [reflexivity | reflexivity | now elim H].
Qed.

Lemma save_images_needs_three_axes_witness :
  save_images (fun _ _ => Ok ([], [])) sample_track (A2 sample_track)
              sample_t_sec "pass1" "out"
  = ([Call "matplotlib.rc" [VStr "font"] [("size", VInt 16)];
      Call "plt.figure" [] [("figsize", VInts [14; 14]%Z)];
      Call "fig.add_subplot" [VInt 111] [("projection", VStr "3d")]],
     Raise TypeError).
Proof.
  apply (save_images_needs_three_axes (fun _ _ => Ok ([], [])) sample_track
           (A2 sample_track) sample_t_sec "pass1" "out").
  discriminate.
Defined.

Lemma trace_bind_last {A} (m : M A) (c : call) (a : A) (d : call) :
  outcome m = Ok a ->
  last (trace (bind m (fun _ => invoke c))) d = c.
Proof.
  intros H. rewrite (trace_bind _ _ _ H). apply last_last.
Qed.

(** X11. [save_images_batch_results] saves the batch figure under the
    name [<prefix>_range_range_rate], the name under which [save_images]
    saves the range and range-rate figure: with the same prefix and
    path, the last [savefig] of each goes to the same file. *)
Theorem save_images_same_file_name :
  forall (range_range_rate :
            list (list float) -> list (list float)
            -> result (list float * list float))
         (x_sat : list (list float)) (x_obs : ndarray) (t_sec : list float)
         (x_0r x_br x_berr : list (list float)) (prefix path : string)
         (d : call),
    outcome (save_images range_range_rate x_sat x_obs t_sec prefix path)
    = Ok tt ->
    outcome (save_images_batch_results x_sat x_0r x_br x_berr prefix path)
    = Ok tt ->
    let file := os_path_join path (prefix ++ "_range_range_rate") in
    last (trace (save_images range_range_rate x_sat x_obs t_sec prefix path)) d
    = Call "fig_2.savefig" [VStr file] []
    /\ last (trace (save_images_batch_results x_sat x_0r x_br x_berr
                                               prefix path)) d
       = Call "fig_3.savefig" [VStr file] [].
Proof.
  intros rrr x_sat x_obs t_sec x_0r x_br x_berr prefix path d Hs Hb file.
  split.
  - unfold save_images in *.
    destruct (plot_example_3d x_sat x_obs None) as [t1 [f1|e]] eqn:E1;
      [|discriminate].
    rewrite (trace_bind _ _ f1) by reflexivity.
    rewrite (outcome_bind _ _ f1) in Hs by reflexivity.
    rewrite (trace_bind _ _ tt) by reflexivity.
    rewrite (outcome_bind _ _ tt) in Hs by reflexivity.
    destruct (plot_range_range_rate rrr x_sat x_obs t_sec)
      as [t2 [f2|e]] eqn:E2; [|discriminate].
    rewrite (trace_bind _ _ f2) by reflexivity.
    rewrite !app_assoc. apply last_last.
  - unfold save_images_batch_results in *.
    destruct (plot_batch_results x_sat x_0r x_br x_berr)
      as [t3 [f3|e]] eqn:E3; [|discriminate].
    rewrite (trace_bind _ _ f3) by reflexivity. apply last_last.
Qed.

Lemma save_images_same_file_name_witness :
  last (trace (save_images sample_range_range_rate sample_track
                           (A3 sample_x_obs) sample_t_sec "pass1" "out"))
       (Call "" [] [])
  = Call "fig_2.savefig" [VStr "out/pass1_range_range_rate"] []
  /\ last (trace (save_images_batch_results sample_x_sat sample_x_0r
                                             sample_x_br mixed_x_berr
                                             "pass1" "out"))
          (Call "" [] [])
     = Call "fig_3.savefig" [VStr "out/pass1_range_range_rate"] [].
Proof.
  apply (save_images_same_file_name sample_range_range_rate sample_track
           (A3 sample_x_obs) sample_t_sec sample_x_0r sample_x_br mixed_x_berr
           "pass1" "out" (Call "" [] [])).
  - vm_compute. reflexivity.
  - vm_compute. reflexivity.
Defined.

(** ** [plot_example_3d] with stations along the third axis *)

Lemma for_each_eq {A} (l : list A) (body : A -> M unit)
      (f : A -> list call) :
  (forall i, In i l -> body i = (f i, Ok tt)) ->
  for_each l body = (flat_map f l, Ok tt).
Proof.
  induction l as [|j l IH]; cbn [for_each flat_map]; intros H; [reflexivity|].
  rewrite (H j) by now left.
  rewrite IH by (intros i Hi; apply H; now right).
  reflexivity.
Qed.

Lemma all_ok_map_item {A} (plane : list (list A)) (k : nat) (d : A) :
  Forall (fun v => k < length v) plane ->
  all_ok (map (fun v => item v k) plane) = Ok (map (fun v => nth k v d) plane).
Proof.
  induction 1 as [|v plane Hv _ IH]; simpl; [reflexivity|].
  now rewrite (item_lt v k d Hv), IH.
Qed.

Lemma station_lt (x_obs : list (list (list float))) (k i r : nat) :
  observers_shaped x_obs k -> i < k -> r < 3 ->
  r < length x_obs
  /\ Forall (fun v => i < length v) (nth r x_obs [])
  /\ 0 < length (nth r x_obs [])
  /\ i < length (nth 0 (nth r x_obs []) []).
Proof.
  intros [H3 Hp] Hi Hr. destruct (Hp r Hr) as [Hne Hrows].
  split; [lia|]. split.
  - eapply Forall_impl; [|exact Hrows]. cbv beta. intros v ->. exact Hi.
  - destruct (nth r x_obs []) as [|v0 plane]; [congruence|].
    split; [simpl; lia|]. inversion Hrows; subst. exact Hi.
Qed.

(** X12. For observers given as a three-dimensional array with [k]
    stations along the third axis, and a satellite track of three rows
    or more with one sample or more, [plot_example_3d] returns its
    figure after two scatter calls per station, in station order, two
    for the satellite, and a legend of [k] observers and the satellite.
    A title, when given, is not shown: the text set is always
    "Scenario example". *)
Theorem plot_example_3d_stations :
  forall (x_sat : list (list float)) (x_obs : list (list (list float)))
         (title : option string) (k : nat),
    has_point x_sat 0 ->
    observers_shaped x_obs k ->
    plot_example_3d x_sat (A3 x_obs) title
    = ([Call "matplotlib.rc" [VStr "font"] [("size", VInt 16)];
        Call "plt.figure" [] [("figsize", VInts [14; 14]%Z)];
        Call "fig.add_subplot" [VInt 111] [("projection", VStr "3d")]]
       ++ flat_map (station_calls x_obs) (seq 0 k)
       ++ example_closing_calls x_sat title k,
       Ok (Fig (14, 14)%Z)).
Proof.
  intros x_sat x_obs title k Hsat Hobs.
  assert (Hk : shape2_of3 x_obs = k).
  { destruct Hobs as [H3 Hp]. destruct (Hp 0) as [Hne Hrows]; [lia|].
    unfold shape2_of3.
    destruct x_obs as [|p0 x_obs]; [simpl in H3; lia|]. simpl in *.
    destruct p0 as [|v0 p0]; [congruence|]. now inversion Hrows. }
  assert (Hloop :
    for_range k (fun i =>
      xs <- lift (lane3 x_obs 0 i) ;;
      ys <- lift (lane3 x_obs 1 i) ;;
      zs <- lift (lane3 x_obs 2 i) ;;
      mpl "ax1.scatter" [VVec xs; VVec ys; VVec zs]
          [("marker", VStr "."); ("s", VInt 4)] ;;
      x0 <- lift (item3 x_obs 0 0 i) ;;
      y0 <- lift (item3 x_obs 1 0 i) ;;
      z0 <- lift (item3 x_obs 2 0 i) ;;
      mpl "ax1.scatter" [VNum x0; VNum y0; VNum z0]
          [("c", VStr "ss.get_facecolors()")])
    = (flat_map (station_calls x_obs) (seq 0 k), Ok tt)).
  { unfold for_range. apply for_each_eq. intros i Hi. apply in_seq in Hi.
    destruct (station_lt x_obs k i 0 Hobs) as (R0 & F0 & P0 & Q0); [lia..|].
    destruct (station_lt x_obs k i 1 Hobs) as (R1 & F1 & P1 & Q1); [lia..|].
    destruct (station_lt x_obs k i 2 Hobs) as (R2 & F2 & P2 & Q2); [lia..|].
    unfold lane3, item3.
    rewrite !(item_lt x_obs _ []) by assumption.
    rewrite !(all_ok_map_item _ i 0%float) by assumption.
    rewrite !item2_lt by assumption.
    reflexivity. }
  unfold plot_example_3d, dimension_fix, third_axis. cbn [ndim Nat.eqb].
  rewrite (bind_ok_eq font16 _ _ tt eq_refl).
  rewrite (bind_ok_eq (plt_figure 14 14) _ _ (Fig (14, 14)%Z) eq_refl).
  rewrite (bind_ok_eq (mpl _ _ _) _ _ tt eq_refl).
  rewrite (bind_ok_eq (ret (A3 x_obs)) _ _ (A3 x_obs) eq_refl).
  cbv beta iota.
  rewrite (bind_ok_eq (ret (x_obs, shape2_of3 x_obs)) _ _
                      (x_obs, shape2_of3 x_obs) eq_refl).
  cbv beta iota.
  rewrite Hk, Hloop.
  rewrite (scatter_point_has x_sat 0) by assumption.
  destruct Hsat as (Hrows & _).
  rewrite !row_lt by lia.
  destruct title; reflexivity.
Qed.

Lemma plot_example_3d_stations_witness :
  outcome (plot_example_3d sample_track (A3 sample_x_obs) (Some "Pass 1"))
  = Ok (Fig (14, 14)%Z)
  /\ length (trace (plot_example_3d sample_track (A3 sample_x_obs)
                                    (Some "Pass 1"))) = 14.
Proof.
  rewrite (plot_example_3d_stations sample_track sample_x_obs
                                    (Some "Pass 1") 2).
  - split; reflexivity.
  - unfold has_point. simpl. lia.
  - split; [simpl; lia|]. intros r Hr.
    destruct r as [|[|[|r]]]; try lia;
      (split; [discriminate | repeat constructor]).
Defined.

(** ** Failures inside [mainf] *)

Section Failures.

Context {C : Collaborators}.

Lemma silent_raise {A} (m : M A) (e : exn) :
  silent m -> outcome m = Raise e -> m = ([], Raise e).
Proof. destruct m as [t r]. unfold silent. simpl. now intros -> ->. Qed.

Lemma silent_ok_eq {A} (m : M A) (a : A) :
  silent m -> outcome m = Ok a -> m = ([], Ok a).
Proof. destruct m as [t r]. unfold silent. simpl. now intros -> ->. Qed.

(** X13. [mainf] prints and draws nothing unless the five stages of the
    estimate, [Kep_state] and all twenty propagations have succeeded: an
    exception raised by any of them leaves [mainf] without a single
    call to [print] or matplotlib. *)
Theorem mainf_no_output_before_propagation :
  forall (datafile : string) (window : Z),
    (forall e, outcome (estimate datafile window) = Raise e ->
               mainf datafile window = ([], Raise e))
    /\ (forall my_data my_data_filt kep_final e,
          outcome (estimate datafile window)
          = Ok (my_data, my_data_filt, kep_final) ->
          outcome (propagate kep_final) = Raise e ->
          mainf datafile window = ([], Raise e))
    /\ (trace (mainf datafile window) <> [] ->
        exists my_data my_data_filt kep_final s,
          outcome (estimate datafile window)
          = Ok (my_data, my_data_filt, kep_final)
          /\ outcome (propagate kep_final) = Ok s).
Proof.
  intros datafile window.
  assert (Ha : forall e, outcome (estimate datafile window) = Raise e ->
                         mainf datafile window = ([], Raise e)).
  { intros e He. unfold mainf.
    now rewrite (silent_raise _ _ (estimate_silent _ _) He). }
  assert (Hb : forall my_data my_data_filt kep_final e,
             outcome (estimate datafile window)
             = Ok (my_data, my_data_filt, kep_final) ->
             outcome (propagate kep_final) = Raise e ->
             mainf datafile window = ([], Raise e)).
  { intros my_data my_data_filt kep_final e He Hp. unfold mainf.
    rewrite (silent_ok_eq _ _ (estimate_silent _ _) He), bind_nil_ok.
    now rewrite (silent_raise _ _ (propagate_silent _) Hp). }
  split; [exact Ha|]. split; [exact Hb|].
  intros Ht.
  destruct (outcome (estimate datafile window))
    as [[[my_data my_data_filt] kep_final]|e] eqn:He.
  2:{ rewrite (Ha e eq_refl) in Ht. now elim Ht. }
  destruct (outcome (propagate kep_final)) as [s|e] eqn:Hp.
  2:{ rewrite (Hb _ _ _ e eq_refl Hp) in Ht. now elim Ht. }
  exists my_data, my_data_filt, kep_final, s. auto.
Qed.

(** X14. The propagator has to return six numbers, or one: when the
    first call of [rkf78] returns an array of any other size, the
    assignment to [keep_state[:, 0]] raises [ValueError]. *)
Theorem propagate_rejects_other_sizes :
  forall (kep_final state out x' : list (list float)),
    Kep_state kep_final = Ok state ->
    rkf78 6 0%float 100%float 1%float tetol state = Ok (out, x') ->
    length (ravel out) <> 6 -> length (ravel out) <> 1 ->
    propagate kep_final = ([], Raise ValueError).
Proof.
  intros kep_final state out x' Hst Hout H6 H1.
  unfold propagate. rewrite Hst, bind_lift_ok. cbv zeta.
  unfold fold_range. cbn [seq fold_each].
  unfold propagate_step at 1. cbn [tf x keep_state t_hold].
  rewrite Hout, bind_lift_ok.
  unfold set_col. change (Nat.ltb 0 (ncols (zeros 6 20))) with true.
  change (nrows (zeros 6 20)) with 6. cbv iota.
  destruct (Nat.eqb_spec (length (ravel out)) 6); [contradiction|].
  destruct (Nat.eqb_spec (length (ravel out)) 1); [contradiction|].
  reflexivity.
Qed.

End Failures.

Lemma mainf_no_output_before_propagation_witness :
  @mainf sample_collaborators "missing.csv" 5
  = ([], Raise (Raised "FileNotFoundError")).
Proof.
  destruct (@mainf_no_output_before_propagation sample_collaborators
              "missing.csv" 5) as [H _].
  apply H. reflexivity.
Defined.

Lemma propagate_rejects_other_sizes_witness :
  @propagate position_only_collaborators sample_kep_final
  = ([], Raise ValueError).
Proof.
  apply (@propagate_rejects_other_sizes position_only_collaborators
           sample_kep_final sample_kep_final (firstn 3 sample_kep_final)
           sample_kep_final).
  - reflexivity.
  - reflexivity.
  - simpl. lia.
  - simpl. lia.
Defined.

(** ** The report and the figures of [mainf] *)

Section Shapes.

Context {C : Collaborators}.

Lemma set_col_rows (a a' : list (list float)) (c n : nat) (v : list float) :
  set_col a c v = Ok a' -> Forall (fun r => length r = n) a ->
  length a' = length a /\ Forall (fun r => length r = n) a'.
Proof.
  intros H Hrows. apply set_col_ok in H as [Hlen Hrow].
  split; [exact Hlen|].
  apply Forall_nth. intros r d Hr. rewrite Hlen in Hr.
  rewrite (nth_indep _ d []) by lia.
  rewrite Hrow, length_set_nth by assumption.
  now apply Forall_nth_length.
Qed.

Lemma set_item2_rows (a a' : list (list float)) (r c n : nat) (x : float) :
  set_item2 a r c x = Ok a' -> Forall (fun v => length v = n) a ->
  length a' = length a /\ Forall (fun v => length v = n) a'.
Proof.
  intros H Hrows. apply set_item2_ok in H as (-> & Hr & _).
  split; [apply length_set_nth|].
  apply Forall_nth. intros i d Hi. rewrite length_set_nth in Hi.
  rewrite (nth_indep _ d []) by now rewrite length_set_nth.
  destruct (Nat.eq_dec i r) as [->|Hne].
  - rewrite nth_set_nth_eq, length_set_nth by assumption.
    now apply Forall_nth_length.
  - rewrite nth_set_nth_neq by congruence. now apply Forall_nth_length.
Qed.

Lemma shaped_step (ti h : float) (i : nat) (s s' : loop_vars)
      (t : list call) :
  history_shaped s -> propagate_step ti h i s = (t, Ok s') ->
  history_shaped s'.
Proof.
  intros (Hks & Hrows & Hth & Hone) H. unfold propagate_step in H.
  apply bind_ok in H as (t1 & [xout x'] & t2 & _ & H & _).
  apply bind_ok in H as (t3 & ks' & t4 & Hset & H & _).
  apply lift_ok in Hset as [Hset _].
  apply bind_ok in H as (t5 & th' & t6 & Hit & H & _).
  apply lift_ok in Hit as [Hit _].
  inversion H; subst s'.
  destruct (set_col_rows _ _ _ 20 _ Hset Hrows) as [L1 R1].
  destruct (set_item2_rows _ _ _ _ 1 _ Hit Hone) as [L2 R2].
  unfold history_shaped. cbn [keep_state t_hold].
  repeat split; try assumption; congruence.
Qed.

Lemma shaped_loop (ti h : float) (l : list nat) (s s' : loop_vars)
      (t : list call) :
  history_shaped s -> fold_each l (propagate_step ti h) s = (t, Ok s') ->
  history_shaped s'.
Proof.
  revert s t. induction l as [|i l IH]; cbn [fold_each]; intros s t Hs H.
  - now inversion H; subst.
  - apply bind_ok in H as (t1 & s1 & t2 & Hstep & Hrest & _).
    eapply IH; [|exact Hrest]. eapply shaped_step; eassumption.
Qed.

Lemma propagate_shaped (kep_final : list (list float)) (s : loop_vars)
      (t : list call) :
  propagate kep_final = (t, Ok s) -> history_shaped s.
Proof.
  unfold propagate. intros H.
  apply bind_ok in H as (t1 & state & t2 & _ & H & _).
  eapply shaped_loop; [|exact H].
  unfold history_shaped. cbn [keep_state t_hold].
  repeat split; repeat constructor.
Qed.

Lemma set_item2_column (a : list (list float)) (i : nat) (x : float) :
  i < length a -> Forall (fun r => length r = 1) a ->
  set_item2 a i 0 x = Ok (set_nth i a [x]).
Proof.
  intros Hi Hone.
  pose proof (Forall_nth_length a 1 i Hone Hi) as Hlen.
  unfold set_item2. rewrite item2_lt by lia.
  destruct (nth i a []) as [|y [|z l]]; try discriminate. reflexivity.
Qed.

Lemma norms_step (ks : list (list float)) (j : nat)
      (rv : list (list float) * list (list float)) :
  length ks = 6 -> Forall (fun r => length r = 20) ks -> j < 20 ->
  norms_upto ks j rv ->
  exists rv',
    (let (r, v) := rv in
     p0 <- lift (item2 ks 0 j) ;;
     p1 <- lift (item2 ks 1 j) ;;
     p2 <- lift (item2 ks 2 j) ;;
     r <- lift (set_item2 r j 0 (magnitude p0 p1 p2)) ;;
     v0 <- lift (item2 ks 3 j) ;;
     v1 <- lift (item2 ks 4 j) ;;
     v2 <- lift (item2 ks 5 j) ;;
     v <- lift (set_item2 v j 0 (magnitude v0 v1 v2)) ;;
     ret (r, v)) = ([], Ok rv')
    /\ norms_upto ks (S j) rv'.
Proof.
  intros Hks Hrows Hj (Lr & Rr & Lv & Rv & Hent). destruct rv as [r v].
  cbn [fst snd] in *.
  assert (Hrow : forall k, k < 6 -> j < length (nth k ks [])).
  { intros k Hk. rewrite (Forall_nth_length ks 20) by (assumption || lia). lia. }
  rewrite !item2_lt by (try apply Hrow; lia).
  rewrite !bind_lift_ok.
  rewrite (set_item2_column r) by (assumption || lia).
  rewrite !bind_lift_ok.
  rewrite (set_item2_column v) by (assumption || lia).
  rewrite bind_lift_ok.
  eexists. split; [reflexivity|].
  unfold norms_upto. cbn [fst snd].
  assert (Hone : forall (a : list (list float)) (x : float),
             length a = 20 -> Forall (fun r => length r = 1) a ->
             Forall (fun r => length r = 1) (set_nth j a [x])).
  { intros a x La Ra. apply Forall_nth. intros i d Hi.
    rewrite length_set_nth in Hi.
    rewrite (nth_indep _ d []) by now rewrite length_set_nth.
    destruct (Nat.eq_dec i j) as [->|Hne].
    - now rewrite nth_set_nth_eq by lia.
    - rewrite nth_set_nth_neq by congruence. now apply Forall_nth_length. }
  rewrite !length_set_nth.
  repeat split; auto.
  - destruct (Nat.eq_dec i j) as [->|Hne].
    + now rewrite nth_set_nth_eq by lia.
    + rewrite nth_set_nth_neq by congruence. apply Hent. lia.
  - destruct (Nat.eq_dec i j) as [->|Hne].
    + now rewrite nth_set_nth_eq by lia.
    + rewrite nth_set_nth_neq by congruence. apply Hent. lia.
Qed.

Lemma norms_loop (ks : list (list float)) (n j : nat)
      (rv : list (list float) * list (list float)) :
  length ks = 6 -> Forall (fun r => length r = 20) ks -> j + n <= 20 ->
  norms_upto ks j rv ->
  exists rv',
    fold_each (seq j n)
      (fun i rv =>
         let (r, v) := rv : list (list float) * list (list float) in
         p0 <- lift (item2 ks 0 i) ;;
         p1 <- lift (item2 ks 1 i) ;;
         p2 <- lift (item2 ks 2 i) ;;
         r <- lift (set_item2 r i 0 (magnitude p0 p1 p2)) ;;
         v0 <- lift (item2 ks 3 i) ;;
         v1 <- lift (item2 ks 4 i) ;;
         v2 <- lift (item2 ks 5 i) ;;
         v <- lift (set_item2 v i 0 (magnitude v0 v1 v2)) ;;
         ret (r, v)) rv = ([], Ok rv')
    /\ norms_upto ks (j + n) rv'.
Proof.
  intros Hks Hrows. revert j rv.
  induction n as [|n IH]; intros j rv Hle Hinv; cbn [seq fold_each].
  - exists rv. split; [reflexivity | now rewrite Nat.add_0_r].
  - destruct (norms_step ks j rv Hks Hrows) as (rv1 & Hstep & Hinv1);
      [lia | assumption |].
    rewrite Hstep, bind_nil_ok.
    destruct (IH (S j) rv1) as (rv' & Hrest & Hinv'); [lia | assumption |].
    exists rv'. split; [exact Hrest|].
    now replace (j + S n) with (S j + n) by lia.
Qed.

Lemma norms_history_ok :
  forall ks : list (list float),
    length ks = 6 -> Forall (fun r => length r = 20) ks ->
    exists r v,
      norms ks = ([], Ok (r, v))
      /\ length r = 20 /\ length v = 20
      /\ forall i, i < 20 ->
           nth i r []
           = [magnitude (nth i (nth 0 ks []) 0%float)
                        (nth i (nth 1 ks []) 0%float)
                        (nth i (nth 2 ks []) 0%float)]
           /\ nth i v []
              = [magnitude (nth i (nth 3 ks []) 0%float)
                           (nth i (nth 4 ks []) 0%float)
                           (nth i (nth 5 ks []) 0%float)].
Proof.
  intros ks Hks Hrows.
  destruct (norms_loop ks 20 0 (zeros 20 1, zeros 20 1) Hks Hrows)
    as ([r v] & Hrun & Lr & _ & Lv & _ & Hent).
  - lia.
  - assert (Hz : Forall (fun r : list float => length r = 1) (zeros 20 1)).
    { apply Forall_forall. intros r Hr. unfold zeros in Hr.
      apply repeat_spec in Hr. now subst. }
    unfold norms_upto. cbn [fst snd].
    split; [reflexivity|]. split; [exact Hz|].
    split; [reflexivity|]. split; [exact Hz|].
    intros i Hi. lia.
  - exists r, v. split; [exact Hrun|]. cbn [fst snd] in *. auto.
Qed.

(** X15. On a state history of six rows and twenty columns, the loop of
    lines 110-114 never fails: it returns [r] and [v] with twenty rows
    of one entry, row [i] of [r] holding the magnitude of rows 0-2 of
    column [i] and row [i] of [v] that of rows 3-5. *)
Theorem norms_of_history :
  forall ks : list (list float),
    length ks = 6 -> Forall (fun r => length r = 20) ks ->
    exists r v,
      norms ks = ([], Ok (r, v))
      /\ length r = 20 /\ length v = 20
      /\ forall i, i < 20 ->
           nth i r []
           = [magnitude (nth i (nth 0 ks []) 0%float)
                        (nth i (nth 1 ks []) 0%float)
                        (nth i (nth 2 ks []) 0%float)]
           /\ nth i v []
              = [magnitude (nth i (nth 3 ks []) 0%float)
                           (nth i (nth 4 ks []) 0%float)
                           (nth i (nth 5 ks []) 0%float)].
Proof. exact norms_history_ok. Qed.

End Shapes.

Lemma norms_of_history_witness :
  exists r v,
    @norms sample_collaborators (zeros 6 20) = ([], Ok (r, v))
    /\ length r = 20 /\ length v = 20.
Proof.
  destruct (@norms_of_history sample_collaborators (zeros 6 20))
    as (r & v & H & Lr & Lv & _).
  - reflexivity.
  - apply Forall_forall. intros x Hx. unfold zeros in Hx.
    apply repeat_spec in Hx. now subst.
  - exists r, v. auto.
Defined.

Lemma col_in_range (a : list (list float)) (c : nat) :
  Forall (fun r => c < length r) a -> col a c = Ok (column a c).
Proof. intros H. unfold col, column. now apply all_ok_map_item. Qed.

Lemma nth_zeros (n c i : nat) :
  i < n -> nth i (zeros n c) [] = repeat 0%float c.
Proof. intros H. unfold zeros. now apply nth_repeat_lt. Qed.

Lemma report_table_ok :
  forall (my_data my_data_filt kep_final : list (list float)),
    my_data <> [] -> length my_data_filt = length my_data ->
    Forall (fun r => length r = 4) my_data ->
    Forall (fun r => length r = 4) my_data_filt ->
    exists dif,
      report my_data my_data_filt kep_final
      = ([difference_heading;
          Call "print" [VMat dif]
               [("columns", VStrs ["Time (sec)"; "x (km)"; "y (km)"; "z (km)"])];
          Call "print" [VStr " "] [];
          Call "print" [VStr " "] [];
          Call "print" [VStr "Displaying the keplerian elements final computation given by the use of the filtered data set, Lamberts solution and Kalman filtering"] [];
          elements_table kep_final],
         Ok tt)
      /\ length dif = length my_data
      /\ forall i, i < length my_data ->
           nth i dif []
           = [nth 0 (nth i my_data []) 0%float;
              PrimFloat.sub (nth 1 (nth i my_data []) 0%float)
                            (nth 1 (nth i my_data_filt []) 0%float);
              PrimFloat.sub (nth 2 (nth i my_data []) 0%float)
                            (nth 2 (nth i my_data_filt []) 0%float);
              PrimFloat.sub (nth 3 (nth i my_data []) 0%float)
                            (nth 3 (nth i my_data_filt []) 0%float)].
Proof.
  intros my_data my_data_filt kep_final Hne Hlen Rmy Rf.
  set (n := length my_data) in *.
  assert (Hn : n <> 0) by (subst n; destruct my_data; [congruence | discriminate]).
  destruct (sub2_same_shape (cols_slice my_data 1 4)
                            (cols_slice my_data_filt 1 4) n 3)
    as (d & Hd & Ld & Rd & Hent).
  { unfold cols_slice. now rewrite length_map. }
  { unfold cols_slice. now rewrite length_map. }
  { exact Hn. }
  { now apply cols_1_4_rows. }
  { now apply cols_1_4_rows. }
  assert (Hdne : d <> []) by (intros ->; simpl in Ld; congruence).
  assert (Hcols : set_cols (zeros n 4) 1 4 d
                  = Ok (map (fun i =>
                               [0%float; nth 0 (nth i d []) 0%float;
                                nth 1 (nth i d []) 0%float;
                                nth 2 (nth i d []) 0%float])
                            (seq 0 n))).
  { assert (Lz : length (zeros n 4) = n) by apply repeat_length.
    unfold set_cols, nrows.
    rewrite Lz, Ld, Nat.eqb_refl, (ncols_of_rows d 3 Hdne Rd).
    cbn [orb andb Nat.sub Nat.eqb].
    f_equal. apply map_ext_in. intros i Hi. apply in_seq in Hi.
    rewrite nth_zeros by lia.
    rewrite (bget_lt [] d) by lia.
    cbn [repeat firstn skipn seq map app].
    rewrite !bget_lt
      by (rewrite (Forall_nth_length d 3) by (assumption || lia); lia).
    reflexivity. }
  assert (Htime : col my_data 0 = Ok (column my_data 0)).
  { apply col_in_range. eapply Forall_impl; [|exact Rmy].
    cbv beta. intros r ->. lia. }
  set (dif1 := map (fun i => [0%float; nth 0 (nth i d []) 0%float;
                               nth 1 (nth i d []) 0%float;
                               nth 2 (nth i d []) 0%float]) (seq 0 n)) in *.
  assert (L1 : length dif1 = n) by (subst dif1; now rewrite length_map, length_seq).
  assert (Hset : set_col dif1 0 (column my_data 0)
                 = Ok (map (fun i => set_nth 0 (nth i dif1 [])
                                            (bget 0%float (column my_data 0) i))
                           (seq 0 n))).
  { unfold set_col, nrows. rewrite L1.
    assert (Hnc : ncols dif1 = 4).
    { subst dif1. unfold ncols. destruct n; [congruence | reflexivity]. }
    rewrite Hnc. unfold column at 1. rewrite length_map.
    fold n. rewrite Nat.eqb_refl. reflexivity. }
  eexists. split; [|split].
  - unfold report. cbv zeta.
    rewrite (bind_ok_eq (io _ _ _) _ _ tt eq_refl).
    rewrite Hd, bind_lift_ok. fold n. rewrite Hcols, bind_lift_ok.
    rewrite Htime, bind_lift_ok. fold dif1. rewrite Hset, bind_lift_ok.
    reflexivity.
  - now rewrite length_map, length_seq.
  - intros i Hi. rewrite nth_map_seq by assumption.
    rewrite bget_lt by (unfold column; now rewrite length_map).
    subst dif1. rewrite nth_map_seq by assumption. cbn [set_nth].
    unfold column. rewrite (nth_map_lt _ my_data i [] 0%float) by assumption.
    rewrite !Hent by lia.
    rewrite !cols_1_4_nth by (assumption || lia).
    reflexivity.
Qed.

(** X16. For a track and a filtered track of the same [n >= 1] rows of
    four entries, [report] prints a table whose row [i] is the time of
    fix [i] followed by the three differences between the track and the
    filtered track, and then the table of the final elements. *)
Theorem report_difference_table :
  forall (my_data my_data_filt kep_final : list (list float)),
    my_data <> [] -> length my_data_filt = length my_data ->
    Forall (fun r => length r = 4) my_data ->
    Forall (fun r => length r = 4) my_data_filt ->
    exists dif,
      report my_data my_data_filt kep_final
      = ([difference_heading;
          Call "print" [VMat dif]
               [("columns", VStrs ["Time (sec)"; "x (km)"; "y (km)"; "z (km)"])];
          Call "print" [VStr " "] [];
          Call "print" [VStr " "] [];
          Call "print" [VStr "Displaying the keplerian elements final computation given by the use of the filtered data set, Lamberts solution and Kalman filtering"] [];
          elements_table kep_final],
         Ok tt)
      /\ length dif = length my_data
      /\ forall i, i < length my_data ->
           nth i dif []
           = [nth 0 (nth i my_data []) 0%float;
              PrimFloat.sub (nth 1 (nth i my_data []) 0%float)
                            (nth 1 (nth i my_data_filt []) 0%float);
              PrimFloat.sub (nth 2 (nth i my_data []) 0%float)
                            (nth 2 (nth i my_data_filt []) 0%float);
              PrimFloat.sub (nth 3 (nth i my_data []) 0%float)
                            (nth 3 (nth i my_data_filt []) 0%float)].
Proof. exact report_table_ok. Qed.

Lemma report_difference_table_witness :
  exists dif,
    nth 1 (trace (report sample_orbit sample_orbit sample_kep_final))
        difference_heading
    = Call "print" [VMat dif]
           [("columns", VStrs ["Time (sec)"; "x (km)"; "y (km)"; "z (km)"])]
    /\ nth 2 dif [] = [20; 0; 0; 0]%float.
Proof.
  destruct (report_difference_table sample_orbit sample_orbit sample_kep_final)
    as (dif & Hrep & _ & Hrow).
  - discriminate.
  - reflexivity.
  - repeat constructor.
  - repeat constructor.
  - exists dif. rewrite Hrep. split; [reflexivity|].
    rewrite (Hrow 2) by (simpl; lia). reflexivity.
Defined.

Section Returns.

Context {C : Collaborators}.

Lemma render_returns (my_data my_data_filt ks th : list (list float)) :
  Forall (fun r => length r = 4) my_data ->
  Forall (fun r => length r = 4) my_data_filt ->
  length ks = 6 -> Forall (fun r => length r = 20) ks ->
  outcome (render my_data my_data_filt ks th) = Ok tt.
Proof.
  intros Rmy Rf Hks Rks.
  assert (Hcol : forall (a : list (list float)) c,
             Forall (fun r => length r = 4) a -> c < 4 ->
             col a c = Ok (column a c)).
  { intros a c Ra Hc. apply col_in_range.
    eapply Forall_impl; [|exact Ra]. cbv beta. intros r ->. exact Hc. }
  destruct (norms_history_ok ks Hks Rks) as (r & v & Hn & _).
  unfold render. cbv zeta.
  do 3 (eapply outcome_bind_ok; [reflexivity|]).
  rewrite !(Hcol my_data) by (assumption || lia).
  do 4 (eapply outcome_bind_ok; [reflexivity|]).
  rewrite !(Hcol my_data_filt) by (assumption || lia).
  do 4 (eapply outcome_bind_ok; [reflexivity|]).
  rewrite !row_lt by (rewrite length_firstn; lia).
  do 10 (eapply outcome_bind_ok; [reflexivity|]).
  rewrite Hn.
  eapply outcome_bind_ok; [reflexivity|].
  reflexivity.
Qed.

(** X17. When the filtered track has another number of rows than the
    track, and neither has exactly one row, the subtraction of line 70
    raises [ValueError]: [mainf] ends there, after the estimate and the
    propagation, having printed the heading of the difference table and
    nothing else. *)
Theorem mainf_rejects_other_length :
  forall (datafile : string) (window : Z)
         (my_data my_data_filt kep_final : list (list float)) (s : loop_vars),
    outcome (estimate datafile window) = Ok (my_data, my_data_filt, kep_final) ->
    outcome (propagate kep_final) = Ok s ->
    length my_data_filt <> length my_data ->
    length my_data_filt <> 1 -> length my_data <> 1 ->
    mainf datafile window = ([difference_heading], Raise ValueError).
Proof.
  intros datafile window my_data my_data_filt kep_final s He Hp Hne Hf Hm.
  unfold mainf.
  rewrite (silent_ok_eq _ _ (estimate_silent _ _) He), bind_nil_ok.
  rewrite (silent_ok_eq _ _ (propagate_silent _) Hp), bind_nil_ok.
  assert (Hsub : sub2 (cols_slice my_data 1 4) (cols_slice my_data_filt 1 4)
                 = Raise ValueError).
  { unfold sub2, nrows, cols_slice. rewrite !length_map.
    unfold bcast at 1.
    destruct (Nat.eqb_spec (length my_data) (length my_data_filt));
      [congruence|].
    destruct (Nat.eqb_spec (length my_data) 1); [congruence|].
    destruct (Nat.eqb_spec (length my_data_filt) 1); [congruence|].
    reflexivity. }
  unfold report. cbv zeta.
  rewrite (bind_ok_eq (io _ _ _) _ _ tt eq_refl).
  rewrite Hsub. reflexivity.
Qed.

(** X18. When the estimate and the propagation succeed on a track of
    one row or more and a filtered track of as many rows, both with four
    columns, [mainf] returns the final elements: the report and the two
    figures raise nothing of their own, and thirty calls to [print] and
    matplotlib are issued. *)
Theorem mainf_returns :
  forall (datafile : string) (window : Z)
         (my_data my_data_filt kep_final : list (list float)) (s : loop_vars),
    outcome (estimate datafile window) = Ok (my_data, my_data_filt, kep_final) ->
    outcome (propagate kep_final) = Ok s ->
    my_data <> [] -> length my_data_filt = length my_data ->
    Forall (fun r => length r = 4) my_data ->
    Forall (fun r => length r = 4) my_data_filt ->
    outcome (mainf datafile window) = Ok kep_final
    /\ outcome (run completes (mainf datafile window)) = Ok kep_final
    /\ length (trace (mainf datafile window)) = 30.
Proof.
  intros datafile window my_data my_data_filt kep_final s He Hp Hne Hlen Rmy Rf.
  pose proof (silent_ok_eq _ _ (propagate_silent _) Hp) as Hp'.
  destruct (propagate_shaped _ _ _ Hp') as (Hks & Rks & _).
  destruct (report_table_ok my_data my_data_filt kep_final Hne Hlen Rmy Rf)
    as (dif & Hrep & _).
  pose proof (render_returns my_data my_data_filt (keep_state s) (t_hold s)
                             Rmy Rf Hks Rks) as Hren.
  assert (Hmain : mainf datafile window
                  = (trace (report my_data my_data_filt kep_final)
                     ++ trace (render my_data my_data_filt (keep_state s)
                                      (t_hold s)),
                     Ok kep_final)).
  { unfold mainf.
    rewrite (silent_ok_eq _ _ (estimate_silent _ _) He), bind_nil_ok.
    rewrite Hp', bind_nil_ok.
    destruct (render my_data my_data_filt (keep_state s) (t_hold s))
      as [t2 r2] eqn:Er. simpl in Hren. subst r2.
    rewrite Hrep. simpl. now rewrite app_nil_r. }
  assert (Hout : outcome (mainf datafile window) = Ok kep_final)
    by now rewrite Hmain.
  split; [exact Hout|]. split.
  - apply run_ok_iff. split; [exact Hout|]. apply Forall_forall. reflexivity.
  - rewrite Hmain. cbn [trace fst]. rewrite length_app.
    destruct (render my_data my_data_filt (keep_state s) (t_hold s))
      as [t2 r2] eqn:Er. simpl in Hren. subst r2.
    pose proof (render_callees_ok _ _ _ _ _ _ Er) as Hnames.
    apply (f_equal (@length string)) in Hnames.
    rewrite length_map in Hnames. cbn [trace fst].
    rewrite Hnames, Hrep. reflexivity.
Qed.

End Returns.

Lemma mainf_returns_witness :
  outcome (@mainf sample_collaborators "orbit.csv" 5) = Ok sample_kep_final
  /\ outcome (run completes (@mainf sample_collaborators "orbit.csv" 5))
     = Ok sample_kep_final
  /\ length (trace (@mainf sample_collaborators "orbit.csv" 5)) = 30.
Proof.
  apply (@mainf_returns sample_collaborators "orbit.csv" 5 sample_orbit
           sample_filtered sample_kep_final sample_history).
  - vm_compute. reflexivity.
  - vm_compute. reflexivity.
  - discriminate.
  - reflexivity.
  - repeat constructor.
  - repeat constructor.
Defined.

Lemma mainf_rejects_other_length_witness :
  @mainf truncating_collaborators "orbit.csv" 5
  = ([difference_heading], Raise ValueError).
Proof.
  apply (@mainf_rejects_other_length truncating_collaborators "orbit.csv" 5
           sample_orbit (firstn 3 sample_orbit) truncated_kep_final
           truncated_history).
  - vm_compute. reflexivity.
  - vm_compute. reflexivity.
  - simpl. lia.
  - simpl. lia.
  - simpl. lia.
Defined.

(** ** [plot_range_range_rate] with stations along the third axis *)

Lemma all_ok_map {A B} (f : A -> result B) (g : A -> B) (l : list A) :
  (forall x, In x l -> f x = Ok (g x)) -> all_ok (map f l) = Ok (map g l).
Proof.
  induction l as [|x l IH]; intros H; simpl; [reflexivity|].
  rewrite (H x) by now left.
  rewrite IH by (intros y Hy; apply H; now right). reflexivity.
Qed.

Lemma plane3_in_range (x_obs : list (list (list float))) (k i : nat) :
  Forall (Forall (fun v => length v = k)) x_obs -> i < k ->
  plane3 x_obs i = Ok (station_plane x_obs i).
Proof.
  intros H Hi. unfold plane3, station_plane.
  apply all_ok_map. intros plane Hp.
  rewrite Forall_forall in H. specialize (H plane Hp).
  apply all_ok_map_item.
  eapply Forall_impl; [|exact H]. cbv beta. intros v ->. exact Hi.
Qed.

(** X19. For observers with [k] stations along the third axis and
    a [range_range_rate] that returns, for each station, a range and a
    range rate as long as [t_sec], [plot_range_range_rate] returns its
    figure with two panels per station at the positions [2 i + 1] and
    [2 i + 2] of a [k] x 2 grid. The panels of every station carry the
    titles of station 1. *)
Theorem plot_range_range_rate_stations :
  forall (range_range_rate :
            list (list float) -> list (list float)
            -> result (list float * list float))
         (x_sat : list (list float)) (x_obs : list (list (list float)))
         (t_sec : list float) (k : nat)
         (r rr : nat -> list float),
    shape2_of3 x_obs = k ->
    Forall (Forall (fun v => length v = k)) x_obs ->
    (forall i, i < k ->
       range_range_rate x_sat (station_plane x_obs i) = Ok (r i, rr i)
       /\ length (r i) = length t_sec /\ length (rr i) = length t_sec) ->
    plot_range_range_rate range_range_rate x_sat (A3 x_obs) t_sec
    = (Call "plt.figure" [] [("figsize", VInts [14; 14]%Z)]
       :: flat_map (fun i => station_panels k t_sec (r i) (rr i) i) (seq 0 k)
       ++ [Call "fig.subplots_adjust" [] [("hspace", VNum f0_3)]],
       Ok (Fig (14, 14)%Z)).
Proof.
  intros rrr x_sat x_obs t_sec k r rr Hk Hobs Hrrr.
  unfold plot_range_range_rate, dimension_fix, third_axis. cbn [ndim Nat.eqb].
  rewrite (bind_ok_eq (ret (A3 x_obs)) _ _ (A3 x_obs) eq_refl).
  cbv beta iota.
  rewrite (bind_ok_eq (plt_figure 14 14) _ _ (Fig (14, 14)%Z) eq_refl).
  rewrite (bind_ok_eq (ret (x_obs, shape2_of3 x_obs)) _ _
                      (x_obs, shape2_of3 x_obs) eq_refl).
  cbv beta iota. rewrite Hk.
  unfold for_range.
  rewrite (for_each_eq (seq 0 k) _
             (fun i => station_panels k t_sec (r i) (rr i) i)).
  - reflexivity.
  - intros i Hi. apply in_seq in Hi.
    destruct (Hrrr i) as (Hcall & Lr & Lrr); [lia|].
    rewrite (plane3_in_range x_obs k i) by (assumption || lia).
    rewrite bind_lift_ok, Hcall, bind_lift_ok.
    rewrite !ax_plot_same_length_eq by congruence.
    reflexivity.
Qed.

Lemma plot_range_range_rate_stations_witness :
  outcome (plot_range_range_rate sample_range_range_rate sample_track
                                 (A3 sample_x_obs) sample_t_sec)
  = Ok (Fig (14, 14)%Z)
  /\ length (trace (plot_range_range_rate sample_range_range_rate sample_track
                                          (A3 sample_x_obs) sample_t_sec))
     = 26.
Proof.
  rewrite (plot_range_range_rate_stations sample_range_range_rate sample_track
             sample_x_obs sample_t_sec 2
             (fun _ => nth 0 sample_track [])
             (fun _ => nth 3 sample_track [])).
  - split; reflexivity.
  - reflexivity.
  - repeat constructor.
  - intros i Hi. repeat split.
Defined.
